(** * KickrShiftKey: the short-frame bridge of [wahoo_bike_shift_to_button_gui_006.py]

    A shallow embedding of the notification decoder, the de-duplication
    table, the held-key registry, the notification handler and the
    auto-reconnect worker, followed by the properties proved about them.
    Beside the bridge, three neighbours of it are embedded: the queue pump
    and the shutdown path of its user interface, the frame encoder of the
    simulator [wahoo_bike_shift_simulator.py], and the handler of the
    command-line bridge [wahoo_bike_shift_to_button.py].

    Conventions.
    - Python [bytes] are [list Byte.byte]; Python [int]s are [Z].
    - Python [str] is [string]; the event kinds stay the strings ["press"]
      and ["release"], as in the source.
    - The module-level tables [PREFIX_TO_BUTTON], [BUTTON_TO_KEY] and
      [BUTTON_BEHAVIOR] are the user-editable configuration: the code is
      embedded over an arbitrary [config], and [source_config] holds the
      values of the file.
    - [_last_seq] is a [gmap]; [_HELD_BY_BUTTON] is an insertion-ordered
      association list, because [release_all_held_keys] iterates over it.
    - Everything observable (key injections, transport calls, queue
      messages, sleeps) is appended to one chronological [trace]. *)

From stdpp Require Import gmap strings list pretty.
From Stdlib Require Import Ascii ZArith QArith Lia.

Local Open Scope Z_scope.

(** ** Configuration *)

Record config := Config {
  PREFIX_TO_BUTTON : gmap string string;
  BUTTON_TO_KEY : gmap string (option string);
  BUTTON_BEHAVIOR : gmap string string
}.

Definition DEVICE_NAME_PREFIX : string := "KICKR BIKE SHIFT".
Definition WAHOO_CHAR_UUID : string := "a026e03c-0a7d-4ab3-97fa-f1500f9feb8b".
Definition SCAN_TIMEOUT_S : Q := 12 # 1.
Definition RECONNECT_DELAY_S : Q := 3 # 2.
Definition LISTEN_POLL_S : Q := 1 # 10.

Definition source_config : config :=
  {| PREFIX_TO_BUTTON := list_to_map
       [ ("0001", "Right Up"); ("8000", "Right Down"); ("0008", "Right Steer");
         ("0004", "Right Shift Up"); ("0002", "Right Shift Down");
         ("4000", "Right Brake");
         ("0200", "Left Up"); ("0400", "Left Down"); ("2000", "Left Steer");
         ("1000", "Left Shift Up"); ("0800", "Left Shift Down");
         ("0100", "Left Brake") ];
     BUTTON_TO_KEY := list_to_map
       [ ("Right Up", Some "7"); ("Right Down", Some "3");
         ("Right Steer", Some "ArrowRight"); ("Right Shift Up", Some "i");
         ("Right Shift Down", Some "k"); ("Right Brake", Some "Space");
         ("Left Up", Some "3"); ("Left Down", Some "4");
         ("Left Steer", Some "ArrowLeft"); ("Left Shift Up", Some "i");
         ("Left Shift Down", Some "k"); ("Left Brake", Some "Space") ];
     BUTTON_BEHAVIOR := list_to_map
       [ ("Right Steer", "hold"); ("Left Steer", "hold") ] |}.

Definition KEY_NAME_MAP : gmap string string :=
  list_to_map
    [ ("ArrowUp", "up"); ("ArrowDown", "down"); ("ArrowLeft", "left");
      ("ArrowRight", "right"); ("Space", "space"); ("Enter", "enter");
      ("Tab", "tab"); ("Esc", "esc"); ("Escape", "esc");
      ("Backspace", "backspace"); ("Delete", "delete"); ("Home", "home");
      ("End", "end"); ("PageUp", "pageup"); ("PageDown", "pagedown") ].

(** Python truthiness of a [str]. *)
Definition truthy (s : string) : bool := negb (String.eqb s "").

(** ** Observable events *)

Inductive key_call :=
| KeyDown (k : string)      (* pydirectinput.keyDown(k) *)
| KeyUp (k : string)        (* pydirectinput.keyUp(k) *)
| KeyPress (k : string).    (* pydirectinput.press(k) *)

Record device := Device { dev_name : option string; dev_address : string }.

Inductive transport_call :=
| Discover (timeout : Q)            (* BleakScanner.discover(timeout=...) *)
| Connect (d : device)              (* BleakClient(dev, ...); client.connect() *)
| StartNotify (uuid : string)
| StopNotify (uuid : string)
| Disconnect.

Inductive msg :=
| Log (text : string)               (* ("log", text) *)
| Status (text color : string)      (* ("status", (text, color)) *)
| EnableConnect (b : bool).         (* ("enable_connect", b) *)

Inductive obs :=
| Inject (c : key_call) (ok : bool) (* a key-injection call and whether it returned *)
| Transport (c : transport_call)
| MsgqPut (m : msg)                 (* self.msgq.put(m) *)
| SetStatus (text color : string)   (* self.set_status(text, color) *)
| Sleep (seconds : Q).              (* asyncio.sleep(seconds) *)

(** The key-injection backend is outside the repository.  Its only
    behaviour that matters here is whether a call raises: [be n c] is the
    text of the exception raised by the call [c] when [n] injection calls
    were issued before it, and [None] when the call returns. *)
Definition backend := nat -> key_call -> option string.

Definition is_inject (o : obs) : bool :=
  match o with Inject _ _ => true | _ => false end.

(** ** Program state *)

Record world := World {
  _HELD_BY_BUTTON : list (string * string);
  _last_seq : gmap (string * string) Z;
  stop_event : bool;          (* self.stop_event *)
  debug_var : bool;           (* self.debug_var *)
  dev : option device;        (* local of _ble_main *)
  client : bool;              (* local [client] is not None *)
  self_client : bool;         (* self.client is not None *)
  _notify_on : bool;          (* self._notify_on *)
  disconnected_event : bool;  (* local asyncio.Event *)
  is_connected : bool;        (* client.is_connected, owned by the transport *)
  trace : list obs
}.

Definition set_held (h : list (string * string)) (w : world) : world :=
  World h (_last_seq w) (stop_event w) (debug_var w) (dev w) (client w)
        (self_client w) (_notify_on w) (disconnected_event w) (is_connected w)
        (trace w).
Definition set_last_seq (m : gmap (string * string) Z) (w : world) : world :=
  World (_HELD_BY_BUTTON w) m (stop_event w) (debug_var w) (dev w) (client w)
        (self_client w) (_notify_on w) (disconnected_event w) (is_connected w)
        (trace w).
Definition set_stop_event (b : bool) (w : world) : world :=
  World (_HELD_BY_BUTTON w) (_last_seq w) b (debug_var w) (dev w) (client w)
        (self_client w) (_notify_on w) (disconnected_event w) (is_connected w)
        (trace w).
Definition set_debug_var (b : bool) (w : world) : world :=
  World (_HELD_BY_BUTTON w) (_last_seq w) (stop_event w) b (dev w) (client w)
        (self_client w) (_notify_on w) (disconnected_event w) (is_connected w)
        (trace w).
Definition set_dev (d : option device) (w : world) : world :=
  World (_HELD_BY_BUTTON w) (_last_seq w) (stop_event w) (debug_var w) d
        (client w) (self_client w) (_notify_on w) (disconnected_event w)
        (is_connected w) (trace w).
Definition set_client (b : bool) (w : world) : world :=
  World (_HELD_BY_BUTTON w) (_last_seq w) (stop_event w) (debug_var w) (dev w)
        b (self_client w) (_notify_on w) (disconnected_event w)
        (is_connected w) (trace w).
Definition set_self_client (b : bool) (w : world) : world :=
  World (_HELD_BY_BUTTON w) (_last_seq w) (stop_event w) (debug_var w) (dev w)
        (client w) b (_notify_on w) (disconnected_event w) (is_connected w)
        (trace w).
Definition set_notify_on (b : bool) (w : world) : world :=
  World (_HELD_BY_BUTTON w) (_last_seq w) (stop_event w) (debug_var w) (dev w)
        (client w) (self_client w) b (disconnected_event w) (is_connected w)
        (trace w).
Definition set_disconnected_event (b : bool) (w : world) : world :=
  World (_HELD_BY_BUTTON w) (_last_seq w) (stop_event w) (debug_var w) (dev w)
        (client w) (self_client w) (_notify_on w) b (is_connected w) (trace w).
Definition set_is_connected (b : bool) (w : world) : world :=
  World (_HELD_BY_BUTTON w) (_last_seq w) (stop_event w) (debug_var w) (dev w)
        (client w) (self_client w) (_notify_on w) (disconnected_event w) b
        (trace w).
Definition emit (o : obs) (w : world) : world :=
  World (_HELD_BY_BUTTON w) (_last_seq w) (stop_event w) (debug_var w) (dev w)
        (client w) (self_client w) (_notify_on w) (disconnected_event w)
        (is_connected w) (trace w ++ [o]).

(** The state of a process that has just been started. *)
Definition fresh_world : world :=
  World [] ∅ false false None false false false false false [].

(** ** Exceptions: a state-and-error monad *)

Inductive res (A : Type) :=
| Ret (a : A)
| Exc (e : string).   (* an [Exception]; [e] is [str(e)] *)
Arguments Ret {A} a.
Arguments Exc {A} e.

Definition M (A : Type) : Type := world -> res A * world.

Definition ret {A} (a : A) : M A := fun w => (Ret a, w).
Definition raise {A} (e : string) : M A := fun w => (Exc e, w).
Definition bind {A B} (m : M A) (k : A -> M B) : M B :=
  fun w => match m w with
           | (Ret a, w') => k a w'
           | (Exc e, w') => (Exc e, w')
           end.
(** [try: m  except Exception: pass] *)
Definition try_pass (m : M unit) : M unit :=
  fun w => match m w with
           | (Ret a, w') => (Ret a, w')
           | (Exc _, w') => (Ret tt, w')
           end.
Definition modify (f : world -> world) : M unit := fun w => (Ret tt, f w).

Notation "x <-- m ;; k" := (bind m (fun x => k))
  (at level 63, m at next level, right associativity).
Notation "m ;;; k" := (bind m (fun _ => k))
  (at level 63, right associativity).

Definition msgq_put (m : msg) : M unit := modify (emit (MsgqPut m)).

(** A call into pydirectinput: recorded, then it returns or raises as the
    backend says. *)
Definition inject (be : backend) (c : key_call) : M unit :=
  fun w =>
    match be (length (filter (fun o => is_inject o = true) (trace w))) c with
    | None => (Ret tt, emit (Inject c true) w)
    | Some e => (Exc e, emit (Inject c false) w)
    end.

(** ** Key injection helpers *)

Definition _to_pydi_key (key_name : string) : option string :=
  if negb (truthy key_name) then None
  else match KEY_NAME_MAP !! key_name with
       | Some mapped => if truthy mapped then Some mapped else Some key_name
       | None => Some key_name
       end.

(** [if not k: return] covers both [None] and the empty string. *)
Definition usable (k : option string) : option string :=
  match k with
  | Some s => if truthy s then Some s else None
  | None => None
  end.

Definition send_key_tap (be : backend) (key_name : string) : M unit :=
  match usable (_to_pydi_key key_name) with
  | None => ret tt
  | Some k => inject be (KeyPress k)
  end.

Definition send_key_down (be : backend) (key_name : string) : M unit :=
  match usable (_to_pydi_key key_name) with
  | None => ret tt
  | Some k => inject be (KeyDown k)
  end.

Definition send_key_up (be : backend) (key_name : string) : M unit :=
  match usable (_to_pydi_key key_name) with
  | None => ret tt
  | Some k => inject be (KeyUp k)
  end.

(** ** The held-key registry: an insertion-ordered dict *)

Fixpoint dict_get (d : list (string * string)) (k : string) : option string :=
  match d with
  | [] => None
  | (k', v) :: d' => if String.eqb k' k then Some v else dict_get d' k
  end.

(** [d[k] = v]: overwrite in place, or append. *)
Fixpoint dict_set (d : list (string * string)) (k v : string)
  : list (string * string) :=
  match d with
  | [] => [(k, v)]
  | (k', v') :: d' =>
      if String.eqb k' k then (k', v) :: d' else (k', v') :: dict_set d' k v
  end.

(** The dict left by [d.pop(k, None)]. *)
Fixpoint dict_remove (d : list (string * string)) (k : string)
  : list (string * string) :=
  match d with
  | [] => []
  | (k', v) :: d' =>
      if String.eqb k' k then dict_remove d' k else (k', v) :: dict_remove d' k
  end.

Definition hold_if_needed (be : backend) (button_name key_name : string)
  : M unit :=
  fun w =>
    match dict_get (_HELD_BY_BUTTON w) button_name with
    | None =>
        (send_key_down be key_name ;;;
         modify (fun w' =>
           set_held (dict_set (_HELD_BY_BUTTON w') button_name key_name) w')) w
    | Some _ => (Ret tt, w)
    end.

Definition release_if_held (be : backend) (button_name : string) : M unit :=
  fun w =>
    let key_name := dict_get (_HELD_BY_BUTTON w) button_name in
    let w1 := set_held (dict_remove (_HELD_BY_BUTTON w) button_name) w in
    match key_name with
    | Some k => if truthy k then send_key_up be k w1 else (Ret tt, w1)
    | None => (Ret tt, w1)
    end.

(** The body of the [for] loop, run over a snapshot of the items. *)
Fixpoint release_each (be : backend) (items : list (string * string))
  : M unit :=
  match items with
  | [] => ret tt
  | (btn, key_name) :: rest =>
      try_pass (send_key_up be key_name) ;;;
      modify (fun w => set_held (dict_remove (_HELD_BY_BUTTON w) btn) w) ;;;
      release_each be rest
  end.

Definition release_all_held_keys (be : backend) : M unit :=
  fun w => release_each be (_HELD_BY_BUTTON w) w.

(** ** BLE parser (short frames only) *)

Definition hex_digit (n : N) : ascii :=
  match n with
  | 0%N => "0" | 1%N => "1" | 2%N => "2" | 3%N => "3" | 4%N => "4"
  | 5%N => "5" | 6%N => "6" | 7%N => "7" | 8%N => "8" | 9%N => "9"
  | 10%N => "A" | 11%N => "B" | 12%N => "C" | 13%N => "D" | 14%N => "E"
  | _ => "F"
  end%char.

(** [f"{b:02X}"] for a byte. *)
Definition fmt_02X (b : Byte.byte) : string :=
  let n := Byte.to_N b in
  String (hex_digit (n / 16)) (String (hex_digit (n mod 16)) EmptyString).

(** [payload.hex().upper()] *)
Fixpoint hex_upper (payload : list Byte.byte) : string :=
  match payload with
  | [] => ""
  | b :: rest => fmt_02X b +:+ hex_upper rest
  end.

Definition byte_int (b : Byte.byte) : Z := Z.of_N (Byte.to_N b).

(** The dict returned by [parse_short_frame]. *)
Record event := Event {
  ev_prefix : string;   (* "prefix" *)
  ev_name : string;     (* "name" *)
  ev_type : string;     (* "type" *)
  ev_seq : Z;           (* "seq" *)
  ev_rrHex : string     (* "rrHex" *)
}.

Definition parse_short_frame (cfg : config) (payload : list Byte.byte)
  : option event :=
  match payload with
  | [p; q; r] =>
      let prefix := fmt_02X p +:+ fmt_02X q in
      match PREFIX_TO_BUTTON cfg !! prefix with
      | None => None
      | Some name =>
          let pressed := negb (Z.eqb (Z.land (byte_int r) 0x80) 0) in
          let seq := Z.land (byte_int r) 0x7F in
          let ev_type := if pressed then "press" else "release" in
          Some (Event prefix name ev_type seq (fmt_02X r))
      end
  | _ => None
  end.

(** [already_handled]: the flag returned and the table left behind. *)
Definition already_handled (prefix ev_type : string) (seq : Z) : M bool :=
  fun w =>
    let key := (prefix, ev_type) in
    if decide (_last_seq w !! key = Some seq) then (Ret true, w)
    else (Ret false, set_last_seq (<[key := seq]> (_last_seq w)) w).

(** ** The notification handler *)

(** [BUTTON_TO_KEY.get(name)]: [None] when the key is absent or mapped to
    [None]. *)
Definition button_key (cfg : config) (name : string) : option string :=
  match BUTTON_TO_KEY cfg !! name with
  | Some v => v
  | None => None
  end.

(** [BUTTON_BEHAVIOR.get(name, "tap")] *)
Definition button_behavior (cfg : config) (name : string) : string :=
  default "tap" (BUTTON_BEHAVIOR cfg !! name).

(** Lines 391-405 of the handler: resolve behaviour and key, then act. *)
Definition dispatch (cfg : config) (be : backend) (name ev_type : string)
  : M unit :=
  let key_name := button_key cfg name in
  let behavior := button_behavior cfg name in
  if String.eqb ev_type "press" then
    match usable key_name with
    | None => ret tt
    | Some k =>
        if String.eqb behavior "tap" then send_key_tap be k
        else hold_if_needed be name k
    end
  else
    if String.eqb behavior "hold" then release_if_held be name
    else ret tt.

Definition event_log_line (evt : event) : string :=
  "[BLE] " +:+ ev_name evt +:+ " " +:+ ev_type evt +:+ " seq=" +:+ pretty (ev_seq evt)
  +:+ " (" +:+ ev_prefix evt +:+ ev_rrHex evt +:+ ")".

Definition notification_handler (cfg : config) (be : backend)
    (data : list Byte.byte) : M unit :=
  let payload := data in
  match parse_short_frame cfg payload with
  | None =>
      fun w =>
        if debug_var w
        then msgq_put (Log ("[BLE] Other frame: " +:+ hex_upper payload)) w
        else (Ret tt, w)
  | Some evt =>
      dup <-- already_handled (ev_prefix evt) (ev_type evt) (ev_seq evt) ;;
      if dup then ret tt
      else
        msgq_put (Log (event_log_line evt)) ;;;
        dispatch cfg be (ev_name evt) (ev_type evt)
  end.

(** A quiet backend: no call raises. *)
Definition be_ok : backend := fun _ _ => None.

(** ** The auto-reconnect worker

    [_ble_main] is a coroutine: it runs until its next [await], and
    resumes when the awaited transport call or sleep completes.  The
    embedding follows that shape.  A [pc] names the [await] at which the
    coroutine is suspended, and [step] runs the code between one [await]
    and the next.  The transport, the user interface and the clock are the
    environment: they act through [env_event]s.  Local variables that live
    across an [await] are fields of [world].

    What is taken of the transport, which is not part of the repository:
    - a new client is not connected; [connect] leaves [is_connected] as its
      completion says; a dropped link makes it false and fires the
      disconnect callback; a [disconnect] that returns makes it false;
    - the handler is called only while subscribed, and an exception that
      escapes it does not reach [_ble_main];
    - [stop_event] is set by another thread; the worker can only observe
      that between two of its steps. *)

Definition emits (os : list obs) (w : world) : world :=
  World (_HELD_BY_BUTTON w) (_last_seq w) (stop_event w) (debug_var w) (dev w)
        (client w) (self_client w) (_notify_on w) (disconnected_event w)
        (is_connected w) (trace w ++ os).

(** How control leaves the [finally] block of one connection attempt. *)
Inductive after_cleanup :=
| Propagate (e : string)   (* an exception is in flight *)
| Break                    (* the [break] of line 418 *)
| Continue                 (* the [continue] of line 420 *)
| Fallthrough.             (* the [try] body ran to its end *)

Inductive pc :=
| AwaitScan                              (* line 357 *)
| AwaitConnect                           (* line 409 *)
| AwaitRetrySleep                        (* line 419 *)
| AwaitStartNotify                       (* line 423 *)
| AwaitListenSleep                       (* line 430 *)
| AwaitStopNotify (k : after_cleanup)    (* line 438 *)
| AwaitDisconnect (k : after_cleanup)    (* line 444 *)
| AwaitReconnectSleep                    (* line 463 *)
| Returned                               (* [_ble_main] returned *)
| Failed (e : string).                   (* the exception reached [_ble_worker] *)

Definition config_state : Type := pc * world.

Inductive env_event :=
| StopRequested                      (* the UI thread calls stop_event.set() *)
| DebugToggled (b : bool)            (* the Debug checkbox *)
| LinkDropped                        (* the transport calls [_on_disc] *)
| Notified (data : list Byte.byte)   (* the transport calls the handler *)
| ScanDone (r : res (list device))   (* BleakScanner.discover completes *)
| ConnectDone (r : res bool)         (* connect() completes; client.is_connected *)
| StartNotifyDone (r : res unit)
| StopNotifyDone (r : res unit)
| DisconnectDone (r : res unit)
| Slept.                             (* asyncio.sleep completes *)

Definition device_matches (prefix : string) (d : device) : bool :=
  match dev_name d with
  | Some n => truthy n && String.prefix prefix n
  | None => false
  end.

(** The loop of [find_device_by_prefix] over the discovered devices. *)
Definition find_device_by_prefix (prefix : string) (devices : list device)
  : option device :=
  List.find (device_matches prefix) devices.

Definition str_opt (s : option string) : string := default "None" s.

(** [_ble_worker]'s [except Exception as e]. *)
Definition worker_failed (e : string) (w : world) : config_state :=
  (Failed e,
   emits [ MsgqPut (Log ("[BLE] Error: " +:+ e));
           MsgqPut (Status "Error" "red");
           MsgqPut (EnableConnect true) ] w).

(** Lines 364-409: announce the device, reset the per-attempt state, create
    the client and call [connect]. *)
Definition begin_attempt (d : device) (w : world) : config_state :=
  let w := emit (MsgqPut (Log ("[BLE] Found " +:+ str_opt (dev_name d) +:+ " ("
                               +:+ dev_address d +:+ ") — connecting…"))) w in
  let w := set_disconnected_event false (set_notify_on false (set_client false w)) in
  let w := set_is_connected false (set_client true w) in
  (AwaitConnect, emit (Transport (Connect d)) w).

(** Line 352 onwards: the loop test, then scan or connect. *)
Definition loop_head (w : world) : config_state :=
  if stop_event w then (Returned, w)
  else match dev w with
       | None =>
           (AwaitScan,
            emits [ SetStatus "Scanning…" "orange";
                    MsgqPut (Log "[BLE] Scanning...");
                    Transport (Discover SCAN_TIMEOUT_S) ] w)
       | Some d => begin_attempt d w
       end.

(** Lines 357-362. *)
Definition scan_done (r : res (list device)) (w : world) : config_state :=
  match r with
  | Exc e => worker_failed e w
  | Ret devices =>
      let w := set_dev (find_device_by_prefix DEVICE_NAME_PREFIX devices) w in
      match dev w with
      | None =>
          (Returned,
           emits [ MsgqPut (Log "[BLE] Device not found. Is the bike on / advertising?");
                   MsgqPut (Status "Not found" "red");
                   MsgqPut (EnableConnect true) ] w)
      | Some d => begin_attempt d w
      end
  end.

(** Lines 454-464, or the pending [break], [continue] or exception. *)
Definition resume_after (k : after_cleanup) (w : world) : config_state :=
  match k with
  | Propagate e => worker_failed e w
  | Break => (Returned, w)
  | Continue => loop_head w
  | Fallthrough =>
      if stop_event w then
        (Returned,
         emits [ MsgqPut (Status "Disconnected" "gray");
                 MsgqPut (EnableConnect true) ] w)
      else
        (AwaitReconnectSleep,
         emits [ MsgqPut (Status "Reconnecting…" "orange");
                 MsgqPut (Log "[BLE] Will retry in 1.5s…");
                 Sleep RECONNECT_DELAY_S ] w)
  end.

(** Lines 448-452: the inner [finally]. *)
Definition cleanup_end (be : backend) (k : after_cleanup) (w : world)
  : config_state :=
  let w := set_notify_on false (set_self_client false w) in
  match release_all_held_keys be w with
  | (Exc e, w') => worker_failed e w'
  | (Ret _, w') => resume_after k w'
  end.

(** Lines 442-447. *)
Definition cleanup_disconnect (be : backend) (k : after_cleanup) (w : world)
  : config_state :=
  if is_connected w then (AwaitDisconnect k, emit (Transport Disconnect) w)
  else cleanup_end be k w.

(** Lines 432-441: entry of the outer [finally]. *)
Definition cleanup_begin (be : backend) (k : after_cleanup) (w : world)
  : config_state :=
  if client w then
    if _notify_on w
    then (AwaitStopNotify k, emit (Transport (StopNotify WAHOO_CHAR_UUID)) w)
    else cleanup_disconnect be k w
  else cleanup_end be k w.

Definition stop_notify_done (be : backend) (k : after_cleanup) (r : res unit)
    (w : world) : config_state :=
  let w := match r with
           | Ret _ => emit (MsgqPut (Log "[BLE] Notifications stopped.")) w
           | Exc e => emit (MsgqPut (Log ("[BLE] stop_notify error: " +:+ e))) w
           end in
  cleanup_disconnect be k w.

Definition disconnect_done (be : backend) (k : after_cleanup) (r : res unit)
    (w : world) : config_state :=
  let w := match r with
           | Ret _ => emit (MsgqPut (Log "[BLE] Disconnected from device."))
                           (set_is_connected false w)
           | Exc e => emit (MsgqPut (Log ("[BLE] disconnect error: " +:+ e))) w
           end in
  cleanup_end be k w.

(** Line 429: the test of the listening loop. *)
Definition listen_loop (be : backend) (w : world) : config_state :=
  if negb (stop_event w) && negb (disconnected_event w)
  then (AwaitListenSleep, emit (Sleep LISTEN_POLL_S) w)
  else cleanup_begin be Fallthrough w.

(** Lines 410-423. *)
Definition connect_done (be : backend) (r : res bool) (w : world)
  : config_state :=
  match r with
  | Exc e => cleanup_begin be (Propagate e) w
  | Ret connected =>
      let w := set_self_client true (set_is_connected connected w) in
      if negb (is_connected w) then
        let w := emits [ MsgqPut (Log "[BLE] Failed to connect.");
                         MsgqPut (Status "Error" "red") ] w in
        let w := set_dev None w in
        if stop_event w then cleanup_begin be Break w
        else (AwaitRetrySleep, emit (Sleep RECONNECT_DELAY_S) w)
      else
        (AwaitStartNotify,
         emits [ MsgqPut (Log "[BLE] Connected. Subscribing to notifications…");
                 Transport (StartNotify WAHOO_CHAR_UUID) ] w)
  end.

(** Lines 423-430. *)
Definition start_notify_done (be : backend) (r : res unit) (w : world)
  : config_state :=
  match r with
  | Exc e => cleanup_begin be (Propagate e) w
  | Ret _ =>
      let w := set_notify_on true w in
      let w := emits [ MsgqPut (Status "Connected" "green");
                       MsgqPut (Log "[BLE] Listening (short-frames only).") ] w in
      listen_loop be w
  end.

(** The handler is subscribed from [start_notify] to [stop_notify]. *)
Definition subscribed (p : pc) : bool :=
  match p with
  | AwaitListenSleep | AwaitStopNotify _ => true
  | _ => false
  end.

(** One event of the environment.  A completion that the coroutine is not
    waiting for changes nothing.  An exception escaping the handler is
    lost in the transport's callback task; the state it left stays. *)
Definition step (cfg : config) (be : backend) (c : config_state)
    (e : env_event) : config_state :=
  let '(p, w) := c in
  match e, p with
  | StopRequested, _ => (p, set_stop_event true w)
  | DebugToggled b, _ => (p, set_debug_var b w)
  | LinkDropped, _ =>
      (p, set_is_connected false (set_disconnected_event true w))
  | Notified data, _ =>
      if subscribed p then (p, snd (notification_handler cfg be data w)) else c
  | ScanDone r, AwaitScan => scan_done r w
  | ConnectDone r, AwaitConnect => connect_done be r w
  | StartNotifyDone r, AwaitStartNotify => start_notify_done be r w
  | StopNotifyDone r, AwaitStopNotify k => stop_notify_done be k r w
  | DisconnectDone r, AwaitDisconnect k => disconnect_done be k r w
  | Slept, AwaitRetrySleep => cleanup_begin be Continue w
  | Slept, AwaitListenSleep => listen_loop be w
  | Slept, AwaitReconnectSleep => loop_head w
  | _, _ => c
  end.

Definition run (cfg : config) (be : backend) (c : config_state)
    (es : list env_event) : config_state :=
  fold_left (step cfg be) es c.

(** [_ble_main] up to its first [await]. *)
Definition _ble_main (w : world) : config_state := loop_head (set_dev None w).

Definition kickr : device := Device (Some "KICKR BIKE SHIFT 1A2B") "AA:BB:CC:DD:EE:FF".

(** ** Definitions used to state the properties *)

(** The key-injection calls of a stretch of trace, in order. *)
Definition calls (t : list obs) : list key_call :=
  omap (fun o => match o with Inject c _ => Some c | _ => None end) t.

(** The queue messages of a stretch of trace, in order. *)
Definition msgs (t : list obs) : list msg :=
  omap (fun o => match o with MsgqPut m => Some m | _ => None end) t.

Definition is_key_down (c : key_call) : bool :=
  match c with KeyDown _ => true | _ => false end.
Definition is_key_up (c : key_call) : bool :=
  match c with KeyUp _ => true | _ => false end.

(** Number of keyDown and of keyUp calls issued in a trace. *)
Definition downs (t : list obs) : nat :=
  length (filter (fun c => is_key_down c = true) (calls t)).
Definition ups (t : list obs) : nat :=
  length (filter (fun c => is_key_up c = true) (calls t)).

(** The keyUp calls that releasing the given registry items issues. *)
Definition held_key_ups (items : list (string * string)) : list key_call :=
  omap (fun it => KeyUp <$> usable (_to_pydi_key (snd it))) items.

(** What a Hold button goes through: events handed to the dispatcher, and
    calls of [release_all_held_keys]. *)
Inductive hold_op :=
| Dispatched (ev_type : string)
| ReleaseAll.

Definition do_op (cfg : config) (be : backend) (name : string) (o : hold_op)
    (w : world) : world :=
  match o with
  | Dispatched ev_type => snd (dispatch cfg be name ev_type w)
  | ReleaseAll => snd (release_all_held_keys be w)
  end.

Definition do_ops (cfg : config) (be : backend) (name : string)
    (os : list hold_op) (w : world) : world :=
  fold_left (fun w o => do_op cfg be name o w) os w.

(** Value of an upper-case hexadecimal digit: its position in the digit
    string, if it occurs there. *)
Definition upper_hex_digits : string := "0123456789ABCDEF".

Fixpoint position_from (i : Z) (c : ascii) (s : string) : option Z :=
  match s with
  | EmptyString => None
  | String c' s' => if Ascii.eqb c c' then Some i else position_from (i + 1) c s'
  end.

Definition upper_hex_value (c : ascii) : option Z :=
  position_from 0 c upper_hex_digits.

(** Value of a string of upper-case hexadecimal digits. *)
Fixpoint upper_hex_decode (acc : Z) (s : string) : option Z :=
  match s with
  | EmptyString => Some acc
  | String c s' =>
      match upper_hex_value c with
      | Some v => upper_hex_decode (16 * acc + v) s'
      | None => None
      end
  end.

(** The completion the coroutine is waiting for at [p]. *)
Definition awaited (p : pc) (e : env_event) : bool :=
  match p, e with
  | AwaitScan, ScanDone _
  | AwaitConnect, ConnectDone _
  | AwaitStartNotify, StartNotifyDone _
  | AwaitStopNotify _, StopNotifyDone _
  | AwaitDisconnect _, DisconnectDone _
  | AwaitRetrySleep, Slept
  | AwaitListenSleep, Slept
  | AwaitReconnectSleep, Slept => true
  | _, _ => false
  end.

Definition terminal (p : pc) : bool :=
  match p with Returned | Failed _ => true | _ => false end.

(** Upper bound on the completions still awaited once stop is set. *)
Definition rank (p : pc) : nat :=
  match p with
  | Returned | Failed _ => 0
  | AwaitDisconnect _ | AwaitReconnectSleep => 1
  | AwaitStopNotify _ => 2
  | AwaitStartNotify | AwaitListenSleep | AwaitRetrySleep => 3
  | AwaitConnect => 4
  | AwaitScan => 5
  end.

Definition is_discover (o : obs) : bool :=
  match o with Transport (Discover _) => true | _ => false end.
Definition is_connect (o : obs) : bool :=
  match o with Transport (Connect _) => true | _ => false end.
Definition is_key_up_obs (o : obs) : bool :=
  match o with Inject (KeyUp _) _ => true | _ => false end.

(** What holds of the locals at each [await] of a run of [_ble_main]. *)
Definition worker_inv (c : config_state) : Prop :=
  let '(p, w) := c in
  match p with
  | AwaitConnect | AwaitStartNotify =>
      client w = true /\ _notify_on w = false /\ is_Some (dev w)
  | AwaitRetrySleep => client w = true /\ _notify_on w = false
  | AwaitListenSleep =>
      client w = true /\ _notify_on w = true /\ is_Some (dev w)
  | AwaitStopNotify k => k = Fallthrough /\ client w = true /\ is_Some (dev w)
  | AwaitDisconnect k =>
      (k = Break -> stop_event w = true) /\ (k = Fallthrough -> is_Some (dev w))
  | AwaitReconnectSleep => is_Some (dev w) /\ _HELD_BY_BUTTON w = []
  | AwaitScan | Returned | Failed _ => True
  end.

(** A backend whose first injection call raises. *)
Definition be_first_raises : backend :=
  fun n _ => if Nat.eqb n 0 then Some "fail-safe triggered" else None.

(** A backend whose every keyUp raises. *)
Definition be_up_raises : backend :=
  fun _ c => match c with KeyUp _ => Some "fail-safe triggered" | _ => None end.

(** A backend whose every keyDown raises. *)
Definition be_down_raises : backend :=
  fun _ c => match c with KeyDown _ => Some "fail-safe triggered" | _ => None end.

(** A registry that holds no entry but that of the button [name] with the
    key [key], and a stretch of trace whose key calls are keyDown and
    keyUp of the key [pk] only. *)
Definition own_entries (name key : string) (held : list (string * string))
  : Prop :=
  Forall (fun it => it = (name, key)) held.

Definition own_calls (pk : string) (t : list obs) : Prop :=
  Forall (fun c => c = KeyDown pk \/ c = KeyUp pk) (calls t).

(** Number of keyDown calls that returned. *)
Definition is_returned_key_down (o : obs) : bool :=
  match o with Inject (KeyDown _) true => true | _ => false end.
Definition returned_downs (t : list obs) : nat :=
  length (filter (fun o => is_returned_key_down o = true) t).

(** The bound kept by a Hold button over the calls [t] issued so far,
    for a way [cnt] of counting keyDown calls: one keyDown may be
    outstanding only while the registry holds the button with a usable
    key. *)
Definition hold_inv (cnt : list obs -> nat) (name : string)
    (held : list (string * string)) (t : list obs) : Prop :=
  match dict_get held name with
  | Some k => if truthy k then (cnt t <= ups t + 1)%nat
              else (cnt t <= ups t)%nat
  | None => (cnt t <= ups t)%nat
  end.

(** The fields that the handler and the registry never write. *)
Definition same_control (w w' : world) : Prop :=
  stop_event w' = stop_event w /\ debug_var w' = debug_var w
  /\ dev w' = dev w /\ client w' = client w /\ self_client w' = self_client w
  /\ _notify_on w' = _notify_on w
  /\ disconnected_event w' = disconnected_event w
  /\ is_connected w' = is_connected w.

(** [w'] is [w] after registry code ran: only the registry changed, and
    only key-injection calls were appended to the trace. *)
Definition injected (w w' : world) : Prop :=
  same_control w w' /\ _last_seq w' = _last_seq w
  /\ exists t, trace w' = trace w ++ t /\ Forall (fun o => is_inject o = true) t.

(** What the handler may append to the trace: log lines and key calls. *)
Definition handler_obs (o : obs) : bool :=
  match o with
  | Inject _ _ | MsgqPut (Log _) => true
  | _ => false
  end.

(** [w'] is [w] after handler or registry code ran. *)
Definition handled (w w' : world) : Prop :=
  same_control w w'
  /\ exists t, trace w' = trace w ++ t /\ Forall (fun o => handler_obs o = true) t.

(** The two frames of the end-to-end scenario. *)
Definition frame_press_1 : list Byte.byte := [Byte.x00; Byte.x01; Byte.x81].
Definition frame_release_1 : list Byte.byte := [Byte.x00; Byte.x01; Byte.x01].

(** The source configuration with "Right Up" switched to Hold. *)
Definition hold_up_config : config :=
  {| PREFIX_TO_BUTTON := PREFIX_TO_BUTTON source_config;
     BUTTON_TO_KEY := BUTTON_TO_KEY source_config;
     BUTTON_BEHAVIOR := <["Right Up" := "hold"]> (BUTTON_BEHAVIOR source_config) |}.

(** The state of the worker once it listens for the first time. *)
Definition listening_world : world :=
  Eval vm_compute in
  snd (run source_config be_ok (_ble_main fresh_world)
         [ScanDone (Ret [kickr]); ConnectDone (Ret true); StartNotifyDone (Ret tt)]).

(** A run in which Right Up is pressed and released with sequence number
    1, the link drops, and the worker connects and subscribes again. *)
Definition relisten_script : list env_event :=
  [ ScanDone (Ret [kickr]); ConnectDone (Ret true); StartNotifyDone (Ret tt);
    Notified frame_press_1; Notified frame_release_1;
    LinkDropped; Slept; StopNotifyDone (Ret tt);
    Slept; ConnectDone (Ret true); StartNotifyDone (Ret tt) ].

(** The state of the worker at the end of that run: it listens again. *)
Definition relistening_world : world :=
  Eval vm_compute in
  snd (run source_config be_ok (_ble_main fresh_world) relisten_script).

(** The state in which the inner [finally] leaves the world (lines
    449-452). *)
Definition released (be : backend) (w : world) : world :=
  snd (release_all_held_keys be (set_notify_on false (set_self_client false w))).
Arguments released : simpl never.

(** Lines 455-463: what follows the teardown, by the stop flag. *)
Definition status_after_teardown (w : world) : list obs :=
  if stop_event w
  then [ MsgqPut (Status "Disconnected" "gray"); MsgqPut (EnableConnect true) ]
  else [ MsgqPut (Status "Reconnecting…" "orange");
         MsgqPut (Log "[BLE] Will retry in 1.5s…");
         Sleep RECONNECT_DELAY_S ].

(** What the last step of the teardown after listening leaves in [c'],
    from the world [w] in which the last transport call completed: after
    the log line [lg] of that call come the keyUp calls of the registry
    sweep, then the status messages; the registry is empty. *)
Definition sweep_then_status (w : world) (lg : string) (c' : config_state)
  : Prop :=
  exists sweep,
    Forall (fun o => is_key_up_obs o = true) sweep
    /\ calls sweep = held_key_ups (_HELD_BY_BUTTON w)
    /\ trace (snd c')
       = trace w ++ [MsgqPut (Log lg)] ++ sweep ++ status_after_teardown w
    /\ _HELD_BY_BUTTON (snd c') = []
    /\ fst c' = (if stop_event w then Returned else AwaitReconnectSleep).

(** The log line of a completed [stop_notify] and [disconnect]. *)
Definition stop_notify_log (r : res unit) : string :=
  match r with
  | Ret _ => "[BLE] Notifications stopped."
  | Exc e => "[BLE] stop_notify error: " +:+ e
  end.
Definition disconnect_log (r : res unit) : string :=
  match r with
  | Ret _ => "[BLE] Disconnected from device."
  | Exc e => "[BLE] disconnect error: " +:+ e
  end.

(** A run in which Right Steer (Hold) is down when the link drops. *)
Definition link_drop_script : list env_event :=
  [ ScanDone (Ret [kickr]); ConnectDone (Ret true); StartNotifyDone (Ret tt);
    Notified [Byte.x00; Byte.x08; Byte.x81];
    LinkDropped; Slept; StopNotifyDone (Ret tt) ].

(** The texts of the status messages put on the queue, in order. *)
Definition statuses (t : list obs) : list string :=
  omap (fun o => match o with MsgqPut (Status text _) => Some text | _ => None end) t.

(** After a first connection and a link drop, the second [start_notify]
    raises. *)
Definition subscribe_failure_script : list env_event :=
  [ ScanDone (Ret [kickr]); ConnectDone (Ret true); StartNotifyDone (Ret tt);
    LinkDropped; Slept; StopNotifyDone (Ret tt);
    Slept; ConnectDone (Ret true); StartNotifyDone (Exc "subscribe failed");
    DisconnectDone (Ret tt) ].

(** After a first connection and a link drop, the reconnection attempt
    ends not connected and the scan that follows finds nothing. *)
Definition rescan_not_found_script : list env_event :=
  [ ScanDone (Ret [kickr]); ConnectDone (Ret true); StartNotifyDone (Ret tt);
    LinkDropped; Slept; StopNotifyDone (Ret tt);
    Slept; ConnectDone (Ret false); Slept; ScanDone (Ret []) ].

(** The log line of line 364. *)
Definition found_log (d : device) : string :=
  "[BLE] Found " +:+ str_opt (dev_name d) +:+ " (" +:+ dev_address d
  +:+ ") — connecting…".

(** What a step appended to the trace. *)
Definition emitted (w w' : world) : list obs :=
  drop (length (trace w)) (trace w').

(** The state of the worker when the listening loop is about to see a
    dropped link. *)
Definition dropped_world : world :=
  Eval vm_compute in
  snd (run source_config be_ok (_ble_main fresh_world)
         [ScanDone (Ret [kickr]); ConnectDone (Ret true); StartNotifyDone (Ret tt);
          LinkDropped]).

(** The state of the worker when stop is requested during the first scan. *)
Definition stopped_scanning_world : world :=
  Eval vm_compute in
  snd (run source_config be_ok (_ble_main fresh_world) [StopRequested]).

(** The state of the worker when stop is requested during the reconnect
    delay. *)
Definition stopped_reconnecting_world : world :=
  Eval vm_compute in
  snd (run source_config be_ok (_ble_main fresh_world)
         [ScanDone (Ret [kickr]); ConnectDone (Ret true); StartNotifyDone (Ret tt);
          LinkDropped; Slept; StopNotifyDone (Ret tt); StopRequested]).

(** The state of that run when [stop_notify] is about to complete. *)
Definition teardown_world : world :=
  Eval vm_compute in
  snd (run source_config be_ok (_ble_main fresh_world)
         (take 6 link_drop_script)).

(** ** The widgets written by the queue pump *)

Record ui := UI {
  log_text : string;       (* the text of self.log *)
  lbl_status : string;     (* the text of self.lbl_status *)
  dot_fg : string;         (* the colour of self.dot *)
  btn_connect : bool;      (* self.btn_connect is in state "normal" *)
  btn_disconnect : bool    (* self.btn_disconnect is in state "normal" *)
}.

(** The widgets as [_build_ui] leaves them. *)
Definition built_ui : ui := UI "" "Idle" "gray" true false.

Definition newline : string := String (ascii_of_nat 10) EmptyString.

Definition set_status (text color : string) (u : ui) : ui :=
  UI (log_text u) text color (btn_connect u) (btn_disconnect u).

Definition append_log (line : string) (u : ui) : ui :=
  UI (log_text u +:+ (line +:+ newline)) (lbl_status u) (dot_fg u)
     (btn_connect u) (btn_disconnect u).

(** The body of the [while True] loop of [_drain_queue], for the message
    that [get_nowait] returned. *)
Definition drain_msg (m : msg) (u : ui) : ui :=
  match m with
  | Log line => append_log line u
  | Status text color => set_status text color u
  | EnableConnect b =>
      UI (log_text u) (lbl_status u) (dot_fg u) b true
  end.

(** [_drain_queue] on the queue [q]: the loop ends on [queue.Empty].  The
    result is the queue left and the widgets. *)
Fixpoint _drain_queue (q : list msg) (u : ui) : list msg * ui :=
  match q with
  | [] => ([], u)
  | m :: q' => _drain_queue q' (drain_msg m u)
  end.

(** ** The window: clicks, polls and the worker thread

    The application is its widgets, the queue between the worker and the
    pump, and the worker thread with the state it shares.  Two threads
    run: the UI thread, which serves one callback at a time, and the
    worker thread.  [thread] is where [_ble_main] stands: the [await] it
    is to resume from, or a [terminal] [pc] once it has run the code
    after its last [await], or when no worker was started yet.  The
    thread itself outlives [_ble_main]: [_ble_worker] and [asyncio.run]
    still have to return, and until then [is_alive()] holds.  [alive] is
    that flag.  As in [step], the code of the worker between two [await]s
    is one act: what the UI thread does falls between such acts. *)

Record gui := Gui {
  widgets : ui;
  msgq : list msg;          (* self.msgq *)
  thread : config_state;    (* where [_ble_main] stands, and the shared state *)
  alive : bool              (* self.ble_thread and self.ble_thread.is_alive() *)
}.

(** The application after [__init__], for a process just started:
    [self.ble_thread] is [None]. *)
Definition initial_gui : gui := Gui built_ui [] (Returned, fresh_world) false.

(** Where one observable act of the worker lands: a [msgq.put] in the
    queue, a direct [set_status] on the widgets. *)
Definition deliver (a : ui * list msg) (o : obs) : ui * list msg :=
  match o with
  | MsgqPut m => (fst a, snd a ++ [m])
  | SetStatus text color => (set_status text color (fst a), snd a)
  | _ => a
  end.

(** The worker thread went on to [c']. *)
Definition worker_does (c' : config_state) (g : gui) : gui :=
  let a := fold_left deliver (emitted (snd (thread g)) (snd c'))
                     (widgets g, msgq g) in
  Gui (fst a) (snd a) c' (alive g).

(** An event of the environment reaches the worker thread. *)
Definition env (cfg : config) (be : backend) (e : env_event) (g : gui) : gui :=
  worker_does (step cfg be (thread g) e) g.

(** The worker thread ends, which it can once [_ble_main] has ended. *)
Definition thread_ends (g : gui) : gui :=
  if terminal (fst (thread g))
  then Gui (widgets g) (msgq g) (thread g) false
  else g.

Definition log_ui (line : string) (g : gui) : gui :=
  Gui (append_log line (widgets g)) (msgq g) (thread g) (alive g).

(** The UI thread writes the state it shares with the worker. *)
Definition ui_world (f : world -> world) (g : gui) : gui :=
  Gui (widgets g) (msgq g) (fst (thread g), f (snd (thread g))) (alive g).

Definition on_connect_clicked (g : gui) : gui :=
  if alive g then g   (* already running *)
  else
    let w := set_stop_event false (snd (thread g)) in
    let u := set_status "Scanning…" "orange" (widgets g) in
    let u := append_log "[UI] Scanning for device…" u in
    let u := UI (log_text u) (lbl_status u) (dot_fg u) false true in
    worker_does (_ble_main w) (Gui u (msgq g) (fst (thread g), w) true).

Definition on_disconnect_clicked (cfg : config) (be : backend) (g : gui)
  : gui :=
  env cfg be StopRequested (log_ui "[UI] Disconnect requested." g).

(** One poll of [_drain_queue]. *)
Definition poll (g : gui) : gui :=
  let r := _drain_queue (msgq g) (widgets g) in
  Gui (snd r) (fst r) (thread g) (alive g).

(** What happens to the window while it is open.  A button that is
    disabled does not call its command. *)
Inductive gui_event :=
| ClickConnect
| ClickDisconnect
| Poll
| Env (e : env_event)
| ThreadEnded.

Definition gui_step (cfg : config) (be : backend) (g : gui) (ev : gui_event)
  : gui :=
  match ev with
  | ClickConnect =>
      if btn_connect (widgets g) then on_connect_clicked g else g
  | ClickDisconnect =>
      if btn_disconnect (widgets g) then on_disconnect_clicked cfg be g else g
  | Poll => poll g
  | Env e => env cfg be e g
  | ThreadEnded => thread_ends g
  end.

Definition gui_run (cfg : config) (be : backend) (evs : list gui_event)
    (g : gui) : gui :=
  fold_left (gui_step cfg be) evs g.

(** ** Closing the window

    [_graceful_shutdown] runs in the UI thread.  While it runs no other
    callback of the window is served, but the worker thread goes on: it
    handles what the transport and the clock bring, and it may end. *)

Definition from_ui (e : env_event) : bool :=
  match e with StopRequested | DebugToggled _ => true | _ => false end.

Definition background (cfg : config) (be : backend) (g : gui) (ev : gui_event)
  : gui :=
  match ev with
  | Env e => if from_ui e then g else env cfg be e g
  | ThreadEnded => thread_ends g
  | _ => g
  end.

Definition backgrounds (cfg : config) (be : backend) (evs : list gui_event)
    (g : gui) : gui :=
  fold_left (background cfg be) evs g.

(** [self.ble_thread.join(timeout=5.0)]: the caller waits until the thread
    has ended, or for five seconds; [evs] is what the worker thread does
    in that time. *)
Fixpoint join (cfg : config) (be : backend) (evs : list gui_event) (g : gui)
  : gui :=
  match evs with
  | [] => g
  | ev :: evs' =>
      if alive g then join cfg be evs' (background cfg be g ev) else g
  end.

(** The [for] loop of [release_all_held_keys] when the UI thread runs it
    over the snapshot [items]: the worker thread shares the registry, and
    [sched n] is what it does before the [n]-th act of the UI thread.
    The acts of the UI thread are the test of [is_alive()] (act 0) and,
    for each item of the snapshot, [send_key_up] and [pop]. *)
Fixpoint release_each_shared (cfg : config) (be : backend)
    (sched : nat -> list gui_event) (n : nat) (items : list (string * string))
    (g : gui) : gui :=
  match items with
  | [] => g
  | (btn, key_name) :: rest =>
      let g := backgrounds cfg be (sched n) g in
      let g := ui_world (fun w => snd (try_pass (send_key_up be key_name) w)) g in
      let g := backgrounds cfg be (sched (S n)) g in
      let g := ui_world
                 (fun w => set_held (dict_remove (_HELD_BY_BUTTON w) btn) w) g in
      release_each_shared cfg be sched (S (S n)) rest g
  end.

(** The [try] block of [_graceful_shutdown]. *)
Definition stop_and_join (cfg : config) (be : backend)
    (joined : list gui_event) (sched : nat -> list gui_event) (g : gui) : gui :=
  let g := env cfg be StopRequested g in
  let g := backgrounds cfg be (sched 0%nat) g in
  if alive g
  then join cfg be joined (log_ui "[UI] Waiting for BLE thread to stop…" g)
  else g.

(** [_graceful_shutdown]: the [try] block, then [release_all_held_keys]
    over the registry as the UI thread finds it. *)
Definition _graceful_shutdown (cfg : config) (be : backend)
    (joined : list gui_event) (sched : nat -> list gui_event) (g : gui) : gui :=
  let g := stop_and_join cfg be joined sched g in
  release_each_shared cfg be sched 1%nat (_HELD_BY_BUTTON (snd (thread g))) g.

(** [on_close], up to [self.root.destroy()]. *)
Definition on_close (cfg : config) (be : backend) (joined : list gui_event)
    (sched : nat -> list gui_event) (g : gui) : gui :=
  _graceful_shutdown cfg be joined sched
    (log_ui "[UI] Closing window — requesting cleanup…" g).

(** ** The simulator: the frames sent by [wahoo_bike_shift_simulator.py]

    The simulator is the peripheral's side of the protocol: [send_press]
    and [send_release] build the three-byte frames that the bridge
    decodes.  Its asyncio loop and GATT server are outside the
    repository; what is kept of them is the list of payloads handed to
    [_notify_payload]. *)

Module Simulator.

(** [PREFIX_TO_BUTTON.items()], in the order of the source. *)
Definition PREFIX_TO_BUTTON_items : list (string * string) :=
  [ ("0001", "Right Up"); ("8000", "Right Down"); ("0008", "Right Steer");
    ("0004", "Right Shift Up"); ("0002", "Right Shift Down");
    ("4000", "Right Brake");
    ("0200", "Left Up"); ("0400", "Left Down"); ("2000", "Left Steer");
    ("1000", "Left Shift Up"); ("0800", "Left Shift Down");
    ("0100", "Left Brake") ].

(** [{v: k for (k, v) in items}]: a later item overwrites an earlier one. *)
Definition invert (items : list (string * string)) : gmap string string :=
  fold_left (fun m kv => <[snd kv := fst kv]> m) items ∅.

Definition BUTTON_TO_PREFIX : gmap string string :=
  invert PREFIX_TO_BUTTON_items.

Definition lower_hex_digits : string := "0123456789abcdef".

Definition hex_value (c : ascii) : option Z :=
  match upper_hex_value c with
  | Some v => Some v
  | None => position_from 0 c lower_hex_digits
  end.

(** ASCII whitespace, which [bytes.fromhex] skips between bytes. *)
Definition is_space (c : ascii) : bool :=
  let n := Z.of_nat (nat_of_ascii c) in
  (n =? 32) || ((9 <=? n) && (n <=? 13)).

(** [bytes.fromhex(s)]; [None] stands for [ValueError]. *)
Fixpoint fromhex (s : string) : option (list Byte.byte) :=
  match s with
  | EmptyString => Some []
  | String c s' =>
      if is_space c then fromhex s'
      else
        match hex_value c, s' with
        | Some hi, String d s'' =>
            match hex_value d with
            | Some lo =>
                match Byte.of_N (Z.to_N (16 * hi + lo)), fromhex s'' with
                | Some b, Some bs => Some (b :: bs)
                | _, _ => None
                end
            | None => None
            end
        | _, _ => None
        end
  end.

(** [bytes([n])]; [None] stands for [ValueError]. *)
Definition bytes_of_int (n : Z) : option Byte.byte :=
  if (0 <=? n) && (n <? 256) then Byte.of_N (Z.to_N n) else None.

Record sim := Sim {
  seq_by_prefix : gmap string Z;        (* defaultdict(int) *)
  loop : bool;                          (* self.loop is not None *)
  sim_log : list string;                (* the lines passed to self.log *)
  scheduled : list (list Byte.byte)     (* payloads handed to _notify_payload *)
}.

Inductive outcome :=
| Done
| ValueError.

(** [self.seq_by_prefix[prefix]], the value read. *)
Definition seq_of (s : sim) (prefix : string) : Z :=
  default 0 (seq_by_prefix s !! prefix).

Definition set_seq (prefix : string) (seq : Z) (s : sim) : sim :=
  Sim (<[prefix := seq]> (seq_by_prefix s)) (loop s) (sim_log s) (scheduled s).

Definition log (line : string) (s : sim) : sim :=
  Sim (seq_by_prefix s) (loop s) (sim_log s ++ [line]) (scheduled s).

(** Lines 204-205: the payload is scheduled only when the loop exists. *)
Definition notify (payload : list Byte.byte) (s : sim) : sim :=
  if loop s
  then Sim (seq_by_prefix s) (loop s) (sim_log s) (scheduled s ++ [payload])
  else s.

Definition send_press (b2p : gmap string string) (button_name : string)
    (s : sim) : outcome * sim :=
  match b2p !! button_name with
  | None => (Done, s)
  | Some prefix =>
      if negb (truthy prefix) then (Done, s)
      else
        let seq := Z.land (seq_of s prefix + 1) 0x7F in
        let s := set_seq prefix seq s in
        let rr := Z.lor 0x80 seq in
        match fromhex prefix with
        | None => (ValueError, s)
        | Some pq =>
            match bytes_of_int rr with
            | None => (ValueError, s)
            | Some r =>
                let payload := pq ++ [r] in
                let s := log ("[SIM] " +:+ button_name +:+ " press seq="
                              +:+ pretty seq +:+ " (" +:+ prefix
                              +:+ fmt_02X r +:+ ")") s in
                (Done, notify payload s)
            end
        end
  end.

Definition send_release (b2p : gmap string string) (button_name : string)
    (s : sim) : outcome * sim :=
  match b2p !! button_name with
  | None => (Done, s)
  | Some prefix =>
      if negb (truthy prefix) then (Done, s)
      else
        let seq := Z.land (seq_of s prefix) 0x7F in
        (* reading a missing key of a defaultdict stores the default *)
        let s := set_seq prefix (seq_of s prefix) s in
        let rr := seq in
        match fromhex prefix with
        | None => (ValueError, s)
        | Some pq =>
            match bytes_of_int rr with
            | None => (ValueError, s)
            | Some r =>
                let payload := pq ++ [r] in
                let s := log ("[SIM] " +:+ button_name +:+ " release seq="
                              +:+ pretty seq +:+ " (" +:+ prefix
                              +:+ fmt_02X r +:+ ")") s in
                (Done, notify payload s)
            end
        end
  end.

(** A simulator that has just been started, its loop running. *)
Definition started : sim := Sim ∅ true [] [].

End Simulator.

(** ** The command-line bridge of [wahoo_bike_shift_to_button.py]

    The first version of the bridge: every button taps, through pynput.
    Its tables [PREFIX_TO_BUTTON] and [BUTTON_TO_KEY] are those of the
    [config].  What it prints and the keyboard calls it makes are
    recorded in order. *)

Module Cli.

(** A key as pynput takes it: a member of [Key], or the string itself. *)
Inductive key :=
| Special (member : string)
| Literal (s : string).

Definition _NAME_TO_SPECIAL : gmap string string :=
  list_to_map
    [ ("ArrowUp", "up"); ("ArrowDown", "down"); ("ArrowLeft", "left");
      ("ArrowRight", "right"); ("Space", "space"); ("Enter", "enter");
      ("Tab", "tab"); ("Esc", "esc"); ("Escape", "esc");
      ("Backspace", "backspace"); ("Delete", "delete"); ("Home", "home");
      ("End", "end"); ("PageUp", "page_up"); ("PageDown", "page_down") ].

Inductive out :=
| Print (line : string)
| Press (k : key) (ok : bool)      (* _keyboard.press(k), and whether it returned *)
| Release (k : key) (ok : bool).   (* _keyboard.release(k) *)

(** The keyboard controller is outside the repository: [kb n c] is the
    text of the exception raised by the call [c] when [n] calls were made
    before it, and [None] when the call returns.  A call is a key and
    whether it is a press. *)
Definition controller := nat -> bool * key -> option string.

Record state := State {
  _last_seq : gmap (string * string) Z;
  output : list out
}.

Definition is_keyboard (o : out) : bool :=
  match o with Print _ => false | _ => true end.

Definition emit (o : out) (s : state) : state :=
  State (_last_seq s) (output s ++ [o]).

Definition keyboard_call (kb : controller) (is_press : bool) (k : key)
    (s : state) : res unit * state :=
  let record := if is_press then Press k else Release k in
  match kb (length (List.filter is_keyboard (output s))) (is_press, k) with
  | None => (Ret tt, emit (record true) s)
  | Some e => (Exc e, emit (record false) s)
  end.

(** [_NAME_TO_SPECIAL.get(key_name, key_name)] *)
Definition to_key (key_name : string) : key :=
  match _NAME_TO_SPECIAL !! key_name with
  | Some member => Special member
  | None => Literal key_name
  end.

Definition _send_key_tap (kb : controller) (key_name : string) (s : state)
  : res unit * state :=
  if negb (truthy key_name) then (Ret tt, s)
  else
    let key := to_key key_name in
    match keyboard_call kb true key s with
    | (Ret _, s1) => keyboard_call kb false key s1
    | (Exc e, s1) => (Exc e, s1)
    end.

Definition TRIGGER_ON_PRESS_ONLY : bool := true.

Definition _handle_short_frame (cfg : config) (kb : controller)
    (payload : list Byte.byte) (s : state) : res unit * state :=
  match payload with
  | [p; q; r] =>
      let prefix := fmt_02X p +:+ fmt_02X q in
      match PREFIX_TO_BUTTON cfg !! prefix with
      | None => (Ret tt, s)
      | Some button_name =>
          let pressed := negb (Z.eqb (Z.land (byte_int r) 0x80) 0) in
          let seq := Z.land (byte_int r) 0x7F in
          let ev_type := if pressed then "press" else "release" in
          let key := (prefix, ev_type) in
          if decide (_last_seq s !! key = Some seq) then (Ret tt, s)
          else
            let s := State (<[key := seq]> (_last_seq s)) (output s) in
            let should_fire := pressed || negb TRIGGER_ON_PRESS_ONLY in
            let s := emit (Print ("[BLE] " +:+ button_name +:+ " " +:+ ev_type
                                  +:+ " seq=" +:+ pretty seq
                                  +:+ " (prefix=" +:+ prefix +:+ ")")) s in
            if should_fire then
              match usable (button_key cfg button_name) with
              | Some key_name => _send_key_tap kb key_name s
              | None => (Ret tt, s)
              end
            else (Ret tt, s)
      end
  | _ => (Ret tt, s)
  end.

(** A quiet controller: no call raises. *)
Definition kb_ok : controller := fun _ _ => None.

End Cli.

(** ** Definitions used to state the further properties *)

(** A call that appended at most one key injection to the trace, and
    raised only if that injection raised. *)
Definition one_call (w : world) (r : res unit * world) : Prop :=
  exists t,
    trace (snd r) = trace w ++ t
    /\ ((t = [] /\ fst r = Ret tt)
        \/ (exists c, t = [Inject c true] /\ fst r = Ret tt)
        \/ (exists c e, t = [Inject c false] /\ fst r = Exc e)).

(** The pydirectinput key of a call. *)
Definition call_key (c : key_call) : string :=
  match c with KeyDown k | KeyUp k | KeyPress k => k end.

(** Whether the last injection call on the key [pk] in [t] is a keyDown
    that returned; [acc] when [t] has no call on [pk]. *)
Fixpoint left_down_from (acc : bool) (pk : string) (t : list obs) : bool :=
  match t with
  | [] => acc
  | Inject c ok :: t' =>
      if String.eqb (call_key c) pk
      then left_down_from (is_key_down c && ok) pk t'
      else left_down_from acc pk t'
  | _ :: t' => left_down_from acc pk t'
  end.

Definition left_down (pk : string) (t : list obs) : bool :=
  left_down_from false pk t.

(** The [await]s between [start_notify] and the end of the teardown. *)
Definition in_session (p : pc) : bool :=
  match p with
  | AwaitListenSleep | AwaitStopNotify _ | AwaitDisconnect _ => true
  | _ => false
  end.

(** A registry entry that the handler can have made: a button of the
    prefix table, with its configured key, whose behaviour is not Tap. *)
Definition hold_entry (cfg : config) (it : string * string) : Prop :=
  (exists prefix, PREFIX_TO_BUTTON cfg !! prefix = Some (fst it))
  /\ usable (button_key cfg (fst it)) = Some (snd it)
  /\ button_behavior cfg (fst it) <> "tap".

Definition registry_ok (cfg : config) (held : list (string * string)) : Prop :=
  NoDup (map fst held) /\ Forall (hold_entry cfg) held.

(** A call that the configuration accounts for: a press of the key of a
    Tap button, or a keyDown or keyUp of the key of a button that is not
    Tap. *)
Definition call_ok (cfg : config) (c : key_call) : Prop :=
  exists prefix name key pk,
    PREFIX_TO_BUTTON cfg !! prefix = Some name
    /\ usable (button_key cfg name) = Some key
    /\ _to_pydi_key key = Some pk
    /\ ((c = KeyPress pk /\ button_behavior cfg name = "tap")
        \/ ((c = KeyDown pk \/ c = KeyUp pk)
            /\ button_behavior cfg name <> "tap")).

Definition is_notified (e : env_event) : bool :=
  match e with Notified _ => true | _ => false end.

(** What the registry sweep of the teardown may append between the
    worker's own messages: of the key calls, only keyUp. *)
Definition sweep_obs (o : obs) : bool :=
  match o with Inject c _ => is_key_up c | _ => true end.

(** What [dispatch] does to the registry [held] for the button [name],
    with the calls [t] it issues: nothing; a tap; a keyDown that adds the
    entry if it returns; or the removal of the entry with its keyUp. *)
Definition dispatch_outcome (cfg : config) (name : string)
    (held held' : list (string * string)) (t : list obs) : Prop :=
  (held' = held /\ t = [])
  \/ (exists key pk ok,
        held' = held
        /\ usable (button_key cfg name) = Some key
        /\ button_behavior cfg name = "tap"
        /\ _to_pydi_key key = Some pk
        /\ t = [Inject (KeyPress pk) ok])
  \/ (exists key pk ok,
        usable (button_key cfg name) = Some key
        /\ button_behavior cfg name <> "tap"
        /\ _to_pydi_key key = Some pk
        /\ dict_get held name = None
        /\ t = [Inject (KeyDown pk) ok]
        /\ held' = (if ok then held ++ [(name, key)] else held))
  \/ (exists key,
        button_behavior cfg name = "hold"
        /\ dict_get held name = Some key
        /\ held' = dict_remove held name
        /\ ((truthy key = false /\ t = [])
            \/ exists pk ok,
                 truthy key = true /\ _to_pydi_key key = Some pk
                 /\ t = [Inject (KeyUp pk) ok])).

(** The registry accounts for the keys that are down: every entry has a
    non-empty key, and a key whose last call in [t] is a keyDown that
    returned is the key of some entry. *)
Definition keys_accounted (held : list (string * string)) (t : list obs)
  : Prop :=
  (forall name key, dict_get held name = Some key -> truthy key = true)
  /\ (forall pk, left_down pk t = true ->
        exists name key,
          dict_get held name = Some key /\ _to_pydi_key key = Some pk).

(** The state of the worker at the end of [link_drop_script], waiting to
    reconnect. *)
Definition reconnecting_world : world :=
  Eval vm_compute in
  snd (run source_config be_ok (_ble_main fresh_world) link_drop_script).

(** What the de-duplication table can hold: entries of known prefixes, for
    the two kinds of event, with 7-bit sequence numbers. *)
Definition table_ok (cfg : config) (m : gmap (string * string) Z) : Prop :=
  forall prefix ev_type seq,
    m !! (prefix, ev_type) = Some seq ->
    is_Some (PREFIX_TO_BUTTON cfg !! prefix)
    /\ (ev_type = "press" \/ ev_type = "release")
    /\ 0 <= seq <= 127.

(** Whether a connection attempt may come next: after [t], has the
    reconnect delay been slept since the last [connect]?  [armed] is the
    answer before [t]. *)
Fixpoint armed_after (armed : bool) (t : list obs) : bool :=
  match t with
  | [] => armed
  | Transport (Connect _) :: t' => armed_after false t'
  | Sleep s :: t' => armed_after (armed || Qeq_bool s RECONNECT_DELAY_S) t'
  | _ :: t' => armed_after armed t'
  end.

(** Whether every [connect] of [t] comes when a connection attempt may
    come. *)
Fixpoint spaced (armed : bool) (t : list obs) : bool :=
  match t with
  | [] => true
  | Transport (Connect _) :: t' => armed && spaced false t'
  | Sleep s :: t' => spaced (armed || Qeq_bool s RECONNECT_DELAY_S) t'
  | _ :: t' => spaced armed t'
  end.

(** The [await]s from which the next transport call can be a [connect]. *)
Definition may_connect (p : pc) : bool :=
  match p with
  | AwaitScan | AwaitRetrySleep | AwaitReconnectSleep
  | AwaitStopNotify Continue | AwaitDisconnect Continue => true
  | _ => false
  end.

(** Number of sessions announced ("Connected") and of [stop_notify] calls
    in a trace. *)
Definition is_connected_status (o : obs) : bool :=
  match o with
  | MsgqPut (Status text _) => String.eqb text "Connected"
  | _ => false
  end.
Definition is_stop_notify (o : obs) : bool :=
  match o with Transport (StopNotify _) => true | _ => false end.
Definition sessions (t : list obs) : nat :=
  length (List.filter is_connected_status t).
Definition stop_notifies (t : list obs) : nat :=
  length (List.filter is_stop_notify t).
Arguments sessions : simpl never.
Arguments stop_notifies : simpl never.

(** The session that is still to be torn down, if any. *)
Definition open_session (p : pc) : nat :=
  match p with AwaitListenSleep => 1 | _ => 0 end.

(** The ways out of the worker that put nothing more on the queue than
    what the failed connection attempt already put: stop is set, and the
    worker is waiting to retry or to reconnect, or finishing the teardown
    of a failed attempt, or learning that the connect failed. *)
Definition silent_exit (p : pc) (w : world) (e : env_event) : Prop :=
  stop_event w = true
  /\ (p = AwaitReconnectSleep \/ p = AwaitRetrySleep
      \/ p = AwaitDisconnect Continue \/ p = AwaitDisconnect Break
      \/ (p = AwaitConnect /\ e = ConnectDone (Ret false))).

Definition is_enable_connect (m : msg) : bool :=
  match m with EnableConnect _ => true | _ => false end.

(** The last two messages of a list. *)
Fixpoint last_two (ms : list msg) : option (msg * msg) :=
  match ms with
  | [] | [_] => None
  | [a; b] => Some (a, b)
  | _ :: ms' => last_two ms'
  end.

(** The log lines, the statuses and the [enable_connect] flags of a queue,
    in order. *)
Definition log_lines (q : list msg) : list string :=
  omap (fun m => match m with Log line => Some line | _ => None end) q.
Definition status_msgs (q : list msg) : list (string * string) :=
  omap (fun m => match m with Status t c => Some (t, c) | _ => None end) q.
Definition enable_msgs (q : list msg) : list bool :=
  omap (fun m => match m with EnableConnect b => Some b | _ => None end) q.

(** The text that a list of log lines adds to the log widget. *)
Fixpoint log_block (lines : list string) : string :=
  match lines with
  | [] => ""
  | l :: ls => l +:+ newline +:+ log_block ls
  end.

(** No [enable_connect] among the messages. *)
Definition no_enable (q : list msg) : Prop :=
  Forall (fun m => is_enable_connect m = false) q.

(** What is kept of the keys at every [await]: the registry accounts for
    the keys that are down, and outside a session the registry is empty
    and no key is down. *)
Definition keys_inv (c : config_state) : Prop :=
  keys_accounted (_HELD_BY_BUTTON (snd c)) (trace (snd c))
  /\ (in_session (fst c) = false ->
      _HELD_BY_BUTTON (snd c) = []
      /\ forall pk, left_down pk (trace (snd c)) = false).

(** The Connect button and the worker agree: while [_ble_main] is to
    resume the button is disabled and no [enable_connect] is pending, and
    none is pending while the button is enabled. *)
Definition connect_inv (g : gui) : Prop :=
  (terminal (fst (thread g)) = false ->
   btn_connect (widgets g) = false /\ no_enable (msgq g))
  /\ (btn_connect (widgets g) = true -> no_enable (msgq g)).

(** A thread that is not alive has no [_ble_main] to resume. *)
Definition alive_inv (g : gui) : Prop :=
  alive g = false -> terminal (fst (thread g)) = true.

(** [_ble_main] has ended, the Connect button is disabled, and nothing
    in the queue will enable it. *)
Definition stuck (g : gui) : Prop :=
  terminal (fst (thread g)) = true
  /\ btn_connect (widgets g) = false
  /\ no_enable (msgq g).

(** The frames of a list handled one after the other, by the handler of
    the GUI bridge and by that of the command-line bridge. *)
Definition handle_all (cfg : config) (be : backend)
    (frames : list (list Byte.byte)) (w : world) : world :=
  fold_left (fun w f => snd (notification_handler cfg be f w)) frames w.

Definition cli_handle_all (cfg : config) (kb : Cli.controller)
    (frames : list (list Byte.byte)) (s : Cli.state) : Cli.state :=
  fold_left (fun s f => snd (Cli._handle_short_frame cfg kb f s)) frames s.

(** The calls that tapping the keys [names] makes, in either bridge. *)
Definition gui_taps (names : list string) : list key_call :=
  omap (fun n => KeyPress <$> _to_pydi_key n) names.

Definition cli_taps (names : list string) : list Cli.out :=
  flat_map (fun n => [Cli.Press (Cli.to_key n) true;
                      Cli.Release (Cli.to_key n) true]) names.

(** The window after a session was lost and Disconnect was clicked during
    the reconnect delay: the worker thread has ended, the queue is
    drained. *)
Definition stop_while_reconnecting : list gui_event :=
  [ ClickConnect; Env (ScanDone (Ret [kickr])); Env (ConnectDone (Ret true));
    Env (StartNotifyDone (Ret tt)); Poll; Env LinkDropped; Env Slept;
    Env (StopNotifyDone (Ret tt)); Poll; ClickDisconnect; Env Slept;
    ThreadEnded; Poll ].

Definition stuck_gui : gui :=
  Eval vm_compute in gui_run source_config be_ok stop_while_reconnecting initial_gui.

(** The window while the first scan is under way. *)
Definition scanning_gui : gui :=
  Eval vm_compute in gui_run source_config be_ok [ClickConnect] initial_gui.

(** The window while the worker listens and Right Steer is held. *)
Definition steer_held : list gui_event :=
  [ ClickConnect; Env (ScanDone (Ret [kickr])); Env (ConnectDone (Ret true));
    Env (StartNotifyDone (Ret tt)); Env (Notified [Byte.x00; Byte.x08; Byte.x81]) ].

Definition steer_held_gui : gui :=
  Eval vm_compute in gui_run source_config be_ok steer_held initial_gui.

(** The worker does nothing but what is listed. *)
Definition idle_but (slots : list (nat * list gui_event)) (n : nat)
  : list gui_event :=
  default [] (snd <$> List.find (fun s => Nat.eqb (fst s) n) slots).

(** The window after a scan that found no device: [_ble_main] has returned
    and its messages are drained, the thread has not ended yet. *)
Definition not_found_gui : gui :=
  Eval vm_compute in
  gui_run source_config be_ok [ClickConnect; Env (ScanDone (Ret [])); Poll]
          initial_gui.

(** * Properties *)

(** ** Sanity checks on concrete inputs *)

Example parse_press :
  parse_short_frame source_config [Byte.x00; Byte.x01; Byte.x81]
  = Some (Event "0001" "Right Up" "press" 1 "81").
Proof. vm_compute. reflexivity. Qed.

Example parse_release :
  parse_short_frame source_config [Byte.x00; Byte.x01; Byte.x01]
  = Some (Event "0001" "Right Up" "release" 1 "01").
Proof. vm_compute. reflexivity. Qed.

Example parse_wrong_length :
  parse_short_frame source_config [Byte.x00; Byte.x01] = None
  /\ parse_short_frame source_config [Byte.x00; Byte.x01; Byte.x81; Byte.x00] = None.
Proof. split; reflexivity. Qed.

Example handler_press_trace :
  trace (snd (notification_handler source_config be_ok
                [Byte.x00; Byte.x08; Byte.x85] fresh_world))
  = [ MsgqPut (Log "[BLE] Right Steer press seq=5 (000885)");
      Inject (KeyDown "right") true ].
Proof. vm_compute. reflexivity. Qed.

Example listening_world_reached :
  run source_config be_ok (_ble_main fresh_world)
      [ScanDone (Ret [kickr]); ConnectDone (Ret true); StartNotifyDone (Ret tt)]
  = (AwaitListenSleep, listening_world).
Proof. vm_compute. reflexivity. Qed.

Example dropped_world_reached :
  run source_config be_ok (_ble_main fresh_world)
      [ScanDone (Ret [kickr]); ConnectDone (Ret true); StartNotifyDone (Ret tt);
       LinkDropped]
  = (AwaitListenSleep, dropped_world).
Proof. vm_compute. reflexivity. Qed.

Example stopped_scanning_world_reached :
  run source_config be_ok (_ble_main fresh_world) [StopRequested]
  = (AwaitScan, stopped_scanning_world).
Proof. vm_compute. reflexivity. Qed.

Example stopped_reconnecting_world_reached :
  run source_config be_ok (_ble_main fresh_world)
      [ScanDone (Ret [kickr]); ConnectDone (Ret true); StartNotifyDone (Ret tt);
       LinkDropped; Slept; StopNotifyDone (Ret tt); StopRequested]
  = (AwaitReconnectSleep, stopped_reconnecting_world).
Proof. vm_compute. reflexivity. Qed.

(** ** The frame decoder *)

Lemma byte_bits (b : Byte.byte) :
  Z.land (byte_int b) 0x7F = byte_int b mod 128
  /\ negb (Z.eqb (Z.land (byte_int b) 0x80) 0) = Z.testbit (byte_int b) 7
  /\ byte_int b = (if Z.testbit (byte_int b) 7 then 128 else 0) + byte_int b mod 128.
Proof. destruct b; vm_compute; repeat split; reflexivity. Qed.

Lemma fmt_02X_digits (b : Byte.byte) :
  exists hi lo,
    fmt_02X b = String hi (String lo EmptyString)
    /\ upper_hex_value hi = Some (byte_int b / 16)
    /\ upper_hex_value lo = Some (byte_int b mod 16).
Proof.
  destruct b; do 2 eexists; (split; [reflexivity | split; reflexivity]).
Qed.

Lemma prefix_decodes (p q : Byte.byte) :
  String.length (fmt_02X p +:+ fmt_02X q) = 4%nat
  /\ upper_hex_decode 0 (fmt_02X p +:+ fmt_02X q)
     = Some (256 * byte_int p + byte_int q).
Proof.
  destruct (fmt_02X_digits p) as (a & b & -> & Ha & Hb).
  destruct (fmt_02X_digits q) as (c & d & -> & Hc & Hd).
  split; [reflexivity |].
  change (upper_hex_decode 0 (String a (String b (String c (String d EmptyString))))
          = Some (256 * byte_int p + byte_int q)).
  cbn [upper_hex_decode]. rewrite Ha, Hb, Hc, Hd.
  f_equal.
  pose proof (Z.div_mod (byte_int p) 16 ltac:(lia)).
  pose proof (Z.div_mod (byte_int q) 16 ltac:(lia)).
  lia.
Qed.

(** C3. [parse_short_frame] returns [None] exactly when the payload is not
    3 bytes long or the prefix of its first two bytes is not a key of
    [PREFIX_TO_BUTTON].  Otherwise it returns an event with that prefix,
    which is 4 upper-case hexadecimal digits spelling the big-endian value
    of the two bytes, and the name the table gives; its kind is "press" iff
    bit 7 of the third byte is set and "release" otherwise; its sequence is
    the low 7 bits of the third byte, whatever the kind. *)
Theorem parse_short_frame_spec (cfg : config) (payload : list Byte.byte) :
  (parse_short_frame cfg payload = None <->
     (length payload <> 3%nat
      \/ exists p q r, payload = [p; q; r]
           /\ PREFIX_TO_BUTTON cfg !! (fmt_02X p +:+ fmt_02X q) = None))
  /\ (forall p q r name,
        payload = [p; q; r] ->
        PREFIX_TO_BUTTON cfg !! (fmt_02X p +:+ fmt_02X q) = Some name ->
        exists evt,
          parse_short_frame cfg payload = Some evt
          /\ ev_prefix evt = fmt_02X p +:+ fmt_02X q
          /\ String.length (ev_prefix evt) = 4%nat
          /\ upper_hex_decode 0 (ev_prefix evt)
             = Some (256 * byte_int p + byte_int q)
          /\ ev_name evt = name
          /\ ev_type evt
             = (if Z.testbit (byte_int r) 7 then "press" else "release")
          /\ ev_seq evt = byte_int r mod 128
          /\ 0 <= ev_seq evt <= 127
          /\ byte_int r
             = (if String.eqb (ev_type evt) "press" then 128 else 0)
               + ev_seq evt).
Proof.
  split.
  - split.
    + intros H.
      destruct payload as [|p [|q [|r [|x rest]]]]; cbn [length];
        try (left; lia).
      right. exists p, q, r. split; [reflexivity |].
      unfold parse_short_frame in H.
      destruct (PREFIX_TO_BUTTON cfg !! (fmt_02X p +:+ fmt_02X q));
        [discriminate | reflexivity].
    + intros [H | (p & q & r & -> & H)].
      * destruct payload as [|p [|q [|r [|x rest]]]]; try reflexivity.
        cbn [length] in H. lia.
      * unfold parse_short_frame. rewrite H. reflexivity.
  - intros p q r name -> Hname.
    unfold parse_short_frame. rewrite Hname.
    destruct (byte_bits r) as (Hseq & Hbit & Hsplit).
    destruct (prefix_decodes p q) as (Hlen & Hdec).
    pose proof (Z.mod_pos_bound (byte_int r) 128 ltac:(lia)) as Hmod.
    eexists. split; [reflexivity |]. cbn [ev_prefix ev_name ev_type ev_seq].
    rewrite Hbit, Hseq.
    repeat split; try assumption; try lia.
    destruct (Z.testbit (byte_int r) 7); cbn [String.eqb]; exact Hsplit.
Qed.

(** The reference frames of the two kinds decode as C3 says. *)
Lemma parse_short_frame_spec_witness :
  exists evt,
    parse_short_frame source_config [Byte.x00; Byte.x01; Byte.x81] = Some evt
    /\ ev_name evt = "Right Up" /\ ev_type evt = "press" /\ ev_seq evt = 1.
Proof.
  destruct (proj2 (parse_short_frame_spec source_config
                     [Byte.x00; Byte.x01; Byte.x81])
              Byte.x00 Byte.x01 Byte.x81 "Right Up" eq_refl eq_refl)
    as (evt & H & _ & _ & _ & Hn & Ht & Hs & _).
  exists evt. repeat split; assumption.
Defined.

(** ** The de-duplication table *)

Lemma already_handled_hit (prefix ev_type : string) (seq : Z) (w : world) :
  _last_seq w !! (prefix, ev_type) = Some seq ->
  already_handled prefix ev_type seq w = (Ret true, w).
Proof. intros H. unfold already_handled. rewrite decide_True; auto. Qed.

Lemma already_handled_miss (prefix ev_type : string) (seq : Z) (w : world) :
  _last_seq w !! (prefix, ev_type) <> Some seq ->
  already_handled prefix ev_type seq w
  = (Ret false, set_last_seq (<[(prefix, ev_type) := seq]> (_last_seq w)) w).
Proof. intros H. unfold already_handled. rewrite decide_False; auto. Qed.

Lemma already_handled_stored (prefix ev_type : string) (seq : Z) (w : world) :
  _last_seq (snd (already_handled prefix ev_type seq w)) !! (prefix, ev_type)
  = Some seq.
Proof.
  unfold already_handled. case_decide; cbn; [assumption |].
  apply lookup_insert_eq.
Qed.

(** C4. [already_handled] answers [True] (the event is suppressed; the
    spec's [shouldProcess] is its negation) if and only if the sequence
    stored for [(prefix, ev_type)] equals the incoming one, and then leaves
    the table alone; otherwise it stores the new sequence and answers
    [False].  On first sight of a pair it creates the entry and answers
    [False].  Whatever the first answer, the same triple fed again is
    suppressed and changes nothing, and a different sequence for the same
    pair after that is accepted. *)
Theorem already_handled_spec (prefix ev_type : string) (seq : Z) (w : world) :
  let key := (prefix, ev_type) in
  let r := already_handled prefix ev_type seq w in
  (fst r = Ret true <-> _last_seq w !! key = Some seq)
  /\ (fst r = Ret true -> snd r = w)
  /\ (fst r <> Ret true ->
        fst r = Ret false
        /\ snd r = set_last_seq (<[key := seq]> (_last_seq w)) w)
  /\ (_last_seq w !! key = None ->
        fst r = Ret false /\ _last_seq (snd r) !! key = Some seq)
  /\ already_handled prefix ev_type seq (snd r) = (Ret true, snd r)
  /\ (forall seq', seq' <> seq ->
        fst (already_handled prefix ev_type seq' (snd r)) = Ret false
        /\ _last_seq (snd (already_handled prefix ev_type seq' (snd r))) !! key
           = Some seq').
Proof.
  intros key r. subst key r.
  pose proof (already_handled_stored prefix ev_type seq w) as Hst.
  destruct (decide (_last_seq w !! (prefix, ev_type) = Some seq)) as [Heq | Hne].
  - rewrite (already_handled_hit _ _ _ _ Heq) in *. cbn [fst snd] in *.
    repeat split; try tauto; try congruence.
    + apply already_handled_hit; assumption.
    + rewrite already_handled_miss by congruence. reflexivity.
    + apply already_handled_stored.
  - rewrite (already_handled_miss _ _ _ _ Hne) in *. cbn [fst snd] in *.
    repeat split; try tauto; try congruence.
    + apply already_handled_hit; assumption.
    + rewrite already_handled_miss by congruence. reflexivity.
    + apply already_handled_stored.
Qed.

(** The same press twice, then the next sequence: accepted, suppressed,
    accepted. *)
Lemma already_handled_spec_witness :
  let w1 := snd (already_handled "0001" "press" 1 fresh_world) in
  fst (already_handled "0001" "press" 1 fresh_world) = Ret false
  /\ already_handled "0001" "press" 1 w1 = (Ret true, w1)
  /\ fst (already_handled "0001" "press" 2 w1) = Ret false.
Proof.
  intros w1.
  destruct (already_handled_spec "0001" "press" 1 fresh_world)
    as (_ & _ & _ & Hnew & Hdup & Hother).
  split; [apply Hnew; reflexivity |].
  split; [exact Hdup |].
  apply (Hother 2). discriminate.
Defined.

(** ** The held-key registry *)

Lemma world_eta (w : world) : set_held (_HELD_BY_BUTTON w) w = w.
Proof. destruct w; reflexivity. Qed.

Lemma emits_nil (w : world) : emits [] w = w.
Proof. destruct w; unfold emits; cbn. rewrite app_nil_r. reflexivity. Qed.

Lemma calls_app (a b : list obs) : calls (a ++ b) = calls a ++ calls b.
Proof. apply omap_app. Qed.

Lemma downs_app (a b : list obs) : downs (a ++ b) = (downs a + downs b)%nat.
Proof. unfold downs. rewrite calls_app, filter_app, length_app. reflexivity. Qed.

Lemma ups_app (a b : list obs) : ups (a ++ b) = (ups a + ups b)%nat.
Proof. unfold ups. rewrite calls_app, filter_app, length_app. reflexivity. Qed.

Lemma dict_get_remove (d : list (string * string)) (k : string) :
  dict_get (dict_remove d k) k = None.
Proof.
  induction d as [|[k' v] d IH]; [reflexivity |].
  cbn [dict_remove]. destruct (String.eqb k' k) eqn:E; [exact IH |].
  cbn [dict_get]. rewrite E. exact IH.
Qed.

Lemma dict_remove_absent (d : list (string * string)) (k : string) :
  dict_get d k = None -> dict_remove d k = d.
Proof.
  induction d as [|[k' v] d IH]; [reflexivity |].
  cbn [dict_get dict_remove]. destruct (String.eqb k' k); [discriminate |].
  intros H. rewrite IH by exact H. reflexivity.
Qed.

Lemma dict_get_set (d : list (string * string)) (k v : string) :
  dict_get (dict_set d k v) k = Some v.
Proof.
  induction d as [|[k' v'] d IH]; cbn [dict_set dict_get].
  - rewrite String.eqb_refl. reflexivity.
  - destruct (String.eqb k' k) eqn:E; cbn [dict_get]; rewrite E; auto.
Qed.

Lemma dict_remove_elem (d : list (string * string)) (k k' v' : string) :
  (k', v') ∈ dict_remove d k -> (k', v') ∈ d /\ k' <> k.
Proof.
  induction d as [|[k0 v0] d IH]; cbn [dict_remove].
  - intros H. inversion H.
  - destruct (String.eqb k0 k) eqn:E.
    + intros H. destruct (IH H). split; [right; assumption | assumption].
    + intros H. apply elem_of_cons in H as [H | H].
      * inversion H; subst. split; [left |].
        apply String.eqb_neq. exact E.
      * destruct (IH H). split; [right; assumption | assumption].
Qed.

Lemma to_pydi_usable (k : string) :
  truthy k = true -> is_Some (usable (_to_pydi_key k)).
Proof.
  intros H. unfold _to_pydi_key. rewrite H. cbn [negb].
  destruct (KEY_NAME_MAP !! k) as [m|]; cbn [usable].
  - destruct (truthy m) eqn:E; cbn [usable]; [rewrite E | rewrite H]; eauto.
  - rewrite H. eauto.
Qed.

Lemma usable_truthy (o : option string) (k : string) :
  usable o = Some k -> o = Some k /\ truthy k = true.
Proof.
  destruct o as [s|]; cbn [usable]; [| discriminate].
  destruct (truthy s) eqn:E; [| discriminate]. intros [= ->]. auto.
Qed.

(** A call into the backend appends exactly one [Inject] to the trace. *)
Lemma inject_spec (be : backend) (c : key_call) (w : world) :
  exists r ok, inject be c w = (r, emit (Inject c ok) w)
               /\ (forall e, r = Exc e -> ok = false)
               /\ (r = Ret tt <-> ok = true).
Proof.
  unfold inject. destruct (be _ c) as [e|].
  - exists (Exc e), false. split; [reflexivity |]. split; [auto |].
    split; discriminate.
  - exists (Ret tt), true. split; [reflexivity |]. split; [discriminate |].
    split; auto.
Qed.

Lemma send_key_up_spec (be : backend) (k : string) (w : world) :
  match usable (_to_pydi_key k) with
  | None => send_key_up be k w = (Ret tt, w)
  | Some pk => exists r ok, send_key_up be k w = (r, emit (Inject (KeyUp pk) ok) w)
  end.
Proof.
  unfold send_key_up. destruct (usable (_to_pydi_key k)) as [pk|].
  - destruct (inject_spec be (KeyUp pk) w) as (r & ok & H & _). eauto.
  - reflexivity.
Qed.

Lemma held_key_ups_cons (btn k : string) (items : list (string * string)) :
  held_key_ups ((btn, k) :: items)
  = match usable (_to_pydi_key k) with
    | Some pk => KeyUp pk :: held_key_ups items
    | None => held_key_ups items
    end.
Proof.
  unfold held_key_ups. cbn. destruct (usable (_to_pydi_key k)); reflexivity.
Qed.

(** What the loop of [release_all_held_keys] does over a snapshot: it
    never raises, appends one keyUp per item whose key is usable, touches
    nothing but the registry and the trace, and removes every listed
    button from the registry. *)
Lemma release_each_spec (be : backend) (items : list (string * string)) :
  forall w, exists t,
    release_each be items w
    = (Ret tt,
       emits t (set_held (fold_left dict_remove (map fst items)
                                    (_HELD_BY_BUTTON w)) w))
    /\ Forall (fun o => is_key_up_obs o = true) t
    /\ calls t = held_key_ups items.
Proof.
  induction items as [|[btn k] items IH]; intros w.
  - exists []. cbn. rewrite world_eta, emits_nil. auto.
  - cbn [release_each map fst fold_left].
    unfold bind at 1. unfold bind at 1. unfold try_pass, modify.
    pose proof (send_key_up_spec be k w) as Hup.
    destruct (usable (_to_pydi_key k)) as [pk|] eqn:Hpk.
    + destruct Hup as (r & ok & ->).
      destruct (IH (set_held (dict_remove
                                (_HELD_BY_BUTTON (emit (Inject (KeyUp pk) ok) w)) btn)
                             (emit (Inject (KeyUp pk) ok) w)))
        as (t & Ht & Hall & Hcalls).
      exists (Inject (KeyUp pk) ok :: t).
      split; [| split].
      * destruct r; rewrite Ht; cbn; unfold emits; cbn;
          rewrite <- app_assoc; reflexivity.
      * constructor; [reflexivity | assumption].
      * change (calls (Inject (KeyUp pk) ok :: t)) with (KeyUp pk :: calls t).
        rewrite Hcalls, held_key_ups_cons, Hpk. reflexivity.
    + rewrite Hup.
      destruct (IH (set_held (dict_remove (_HELD_BY_BUTTON w) btn) w))
        as (t & Ht & Hall & Hcalls).
      exists t. split; [exact Ht | split]; [assumption |].
      rewrite Hcalls, held_key_ups_cons, Hpk. reflexivity.
Qed.

Lemma remove_all_keys (items d : list (string * string)) :
  (forall k v, (k, v) ∈ d -> k ∈ map fst items) ->
  fold_left dict_remove (map fst items) d = [].
Proof.
  revert d. induction items as [|[k0 v0] items IH]; intros d H.
  - destruct d as [|[k v] d]; [reflexivity |].
    specialize (H k v ltac:(left)). inversion H.
  - cbn [map fst fold_left]. apply IH. intros k v Hin.
    apply dict_remove_elem in Hin as [Hin Hne].
    specialize (H k v Hin). cbn [map fst] in H.
    apply elem_of_cons in H as [-> | H]; [contradiction | assumption].
Qed.

Lemma release_all_spec (be : backend) (w : world) :
  exists t,
    release_all_held_keys be w = (Ret tt, emits t (set_held [] w))
    /\ Forall (fun o => is_key_up_obs o = true) t
    /\ calls t = held_key_ups (_HELD_BY_BUTTON w).
Proof.
  unfold release_all_held_keys.
  destruct (release_each_spec be (_HELD_BY_BUTTON w) w) as (t & Ht & Hall & Hc).
  exists t. split; [| auto].
  rewrite Ht, remove_all_keys; [reflexivity |].
  intros k v Hin. apply list_elem_of_fmap. exists (k, v). auto.
Qed.

Lemma held_key_ups_length (items : list (string * string)) :
  Forall (fun it => truthy (snd it) = true) items ->
  length (held_key_ups items) = length items.
Proof.
  induction 1 as [|[b k] items Hk _ IH]; [reflexivity |].
  rewrite held_key_ups_cons. cbn [snd] in Hk.
  destruct (to_pydi_usable k Hk) as [pk ->]. cbn [length]. f_equal. exact IH.
Qed.

(** C5. [release_all_held_keys] walks every entry of the registry and
    issues a keyUp for each (for each entry whose key name is usable, which
    is every entry when the key names are non-empty, as those recorded by
    [hold_if_needed] from the handler are); whichever of these calls raise,
    the others are still issued, the function itself returns normally, and
    the registry is left empty.  It issues nothing but keyUp calls and
    touches nothing else. *)
Theorem release_all_held_keys_spec (be : backend) (w : world) :
  exists t,
    release_all_held_keys be w = (Ret tt, emits t (set_held [] w))
    /\ _HELD_BY_BUTTON (snd (release_all_held_keys be w)) = []
    /\ Forall (fun o => is_key_up_obs o = true) t
    /\ calls t = held_key_ups (_HELD_BY_BUTTON w)
    /\ (Forall (fun it => truthy (snd it) = true) (_HELD_BY_BUTTON w) ->
        length (calls t) = length (_HELD_BY_BUTTON w)).
Proof.
  destruct (release_all_spec be w) as (t & Ht & Hall & Hc).
  exists t. rewrite Ht. repeat split; try assumption.
  intros Htr. rewrite Hc. apply held_key_ups_length. exact Htr.
Qed.

(** Two held buttons, the first keyUp raising: both are released. *)
Lemma release_all_held_keys_spec_witness :
  let w := set_held [("Right Steer", "ArrowRight"); ("Left Steer", "ArrowLeft")]
                    fresh_world in
  exists t,
    release_all_held_keys be_first_raises w = (Ret tt, emits t (set_held [] w))
    /\ length (calls t) = 2%nat.
Proof.
  intros w.
  destruct (release_all_held_keys_spec be_first_raises w)
    as (t & Heq & _ & _ & _ & Hlen).
  exists t. split; [exact Heq |].
  apply Hlen. repeat constructor.
Defined.

Example release_all_with_failure :
  trace (snd (release_all_held_keys be_first_raises
                (set_held [("Right Steer", "ArrowRight"); ("Left Steer", "ArrowLeft")]
                          fresh_world)))
  = [Inject (KeyUp "right") false; Inject (KeyUp "left") true].
Proof. vm_compute. reflexivity. Qed.

Lemma send_key_up_held (be : backend) (k : string) (w : world) :
  _HELD_BY_BUTTON (snd (send_key_up be k w)) = _HELD_BY_BUTTON w.
Proof.
  pose proof (send_key_up_spec be k w) as H.
  destruct (usable (_to_pydi_key k)).
  - destruct H as (r & ok & ->). reflexivity.
  - rewrite H. reflexivity.
Qed.

Lemma release_if_held_held (be : backend) (name : string) (w : world) :
  _HELD_BY_BUTTON (snd (release_if_held be name w))
  = dict_remove (_HELD_BY_BUTTON w) name.
Proof.
  unfold release_if_held.
  destruct (dict_get (_HELD_BY_BUTTON w) name) as [k|]; [| reflexivity].
  destruct (truthy k); [| reflexivity].
  rewrite send_key_up_held. reflexivity.
Qed.

Lemma release_if_held_absent (be : backend) (name : string) (w : world) :
  dict_get (_HELD_BY_BUTTON w) name = None ->
  release_if_held be name w = (Ret tt, w).
Proof.
  intros H. unfold release_if_held. rewrite H.
  rewrite dict_remove_absent by exact H. rewrite world_eta. reflexivity.
Qed.

(** What one call of [release_if_held] adds to the trace: nothing, or one
    keyUp. *)
Lemma release_if_held_trace (be : backend) (name : string) (w : world) :
  exists t,
    trace (snd (release_if_held be name w)) = trace w ++ t
    /\ match dict_get (_HELD_BY_BUTTON w) name with
       | Some k => if truthy k then exists pk ok, t = [Inject (KeyUp pk) ok]
                   else t = []
       | None => t = []
       end.
Proof.
  unfold release_if_held.
  destruct (dict_get (_HELD_BY_BUTTON w) name) as [k|];
    [| exists []; cbn; rewrite app_nil_r; auto].
  destruct (truthy k) eqn:Hk; [| exists []; cbn; rewrite app_nil_r; auto].
  set (w1 := set_held _ w).
  pose proof (send_key_up_spec be k w1) as H.
  destruct (to_pydi_usable k Hk) as [pk Hpk]. rewrite Hpk in H.
  destruct H as (r & ok & ->). exists [Inject (KeyUp pk) ok]. eauto.
Qed.


Example release_if_held_raising :
  let w := set_held [("Right Steer", "ArrowRight")] fresh_world in
  let r := release_if_held be_up_raises "Right Steer" w in
  fst r = Exc "fail-safe triggered"
  /\ _HELD_BY_BUTTON (snd r) = []
  /\ trace (snd r) = [Inject (KeyUp "right") false]
  /\ release_if_held be_up_raises "Right Steer" (snd r) = (Ret tt, snd r).
Proof. vm_compute. repeat split; reflexivity. Qed.

(** ** The dispatcher and the Hold lifecycle *)

Lemma held_key_ups_counts (items : list (string * string)) (t : list obs) :
  calls t = held_key_ups items ->
  downs t = 0%nat /\ ups t = length (held_key_ups items).
Proof.
  unfold downs, ups. intros ->. clear t.
  induction items as [|[b k] items [IHd IHu]]; [split; reflexivity |].
  rewrite held_key_ups_cons. destruct (usable (_to_pydi_key k)); [| auto].
  rewrite !filter_cons. cbn [is_key_down is_key_up].
  rewrite decide_False by discriminate. rewrite decide_True by reflexivity.
  cbn [length]. auto.
Qed.

Lemma held_key_ups_present (items : list (string * string)) (name k : string) :
  dict_get items name = Some k -> truthy k = true ->
  (1 <= length (held_key_ups items))%nat.
Proof.
  induction items as [|[b k0] items IH]; cbn [dict_get]; [discriminate |].
  rewrite held_key_ups_cons.
  destruct (String.eqb b name).
  - intros [= ->] Hk. destruct (to_pydi_usable k Hk) as [pk ->]. cbn. lia.
  - intros H Hk. specialize (IH H Hk).
    destruct (usable (_to_pydi_key k0)); cbn [length]; lia.
Qed.

Lemma key_ups_counts (t : list obs) :
  Forall (fun o => is_key_up_obs o = true) t ->
  downs t = 0%nat /\ returned_downs t = 0%nat /\ ups t = length t.
Proof.
  unfold downs, returned_downs, ups, calls.
  induction 1 as [|o t Ho _ (IHd & IHr & IHu)]; [repeat split |].
  destruct o as [[] ?| | | |]; try discriminate.
  cbn [omap list_omap]. rewrite !filter_cons.
  cbn [is_key_down is_key_up is_returned_key_down].
  rewrite !decide_False by discriminate. rewrite decide_True by reflexivity.
  cbn [length]. fold (omap (fun o => match o with Inject c _ => Some c | _ => None end) t).
  auto.
Qed.

Lemma ups_key_down (pk : string) (ok : bool) :
  ups [Inject (KeyDown pk) ok] = 0%nat.
Proof. reflexivity. Qed.

Lemma ups_key_up (pk : string) (ok : bool) :
  ups [Inject (KeyUp pk) ok] = 1%nat.
Proof. reflexivity. Qed.

Lemma returned_downs_app (a b : list obs) :
  returned_downs (a ++ b) = (returned_downs a + returned_downs b)%nat.
Proof. unfold returned_downs. rewrite filter_app, length_app. reflexivity. Qed.

(** A press of a button that is not held: the keyDown is issued, and the
    entry is recorded if and only if it returned. *)
Lemma hold_if_needed_absent (be : backend) (name key : string) (w : world) :
  truthy key = true ->
  dict_get (_HELD_BY_BUTTON w) name = None ->
  exists pk,
    usable (_to_pydi_key key) = Some pk
    /\ match be (length (filter (fun o => is_inject o = true) (trace w)))
                (KeyDown pk) with
       | None =>
           hold_if_needed be name key w
           = (Ret tt, set_held (dict_set (_HELD_BY_BUTTON w) name key)
                               (emit (Inject (KeyDown pk) true) w))
       | Some e =>
           hold_if_needed be name key w
           = (Exc e, emit (Inject (KeyDown pk) false) w)
       end.
Proof.
  intros Htr Hnone. unfold hold_if_needed. rewrite Hnone.
  destruct (to_pydi_usable key Htr) as [pk Hpk]. exists pk.
  split; [exact Hpk |].
  unfold bind, send_key_down, modify. rewrite Hpk.
  unfold inject. destruct (be _ (KeyDown pk)); reflexivity.
Qed.

Lemma hold_if_needed_new (be : backend) (name key : string) (w : world) :
  truthy key = true ->
  (forall n k, be n (KeyDown k) = None) ->
  dict_get (_HELD_BY_BUTTON w) name = None ->
  exists pk,
    usable (_to_pydi_key key) = Some pk
    /\ hold_if_needed be name key w
       = (Ret tt, set_held (dict_set (_HELD_BY_BUTTON w) name key)
                           (emit (Inject (KeyDown pk) true) w)).
Proof.
  intros Htr Hdown Hnone.
  destruct (hold_if_needed_absent be name key w Htr Hnone) as (pk & Hpk & H).
  rewrite Hdown in H. eauto.
Qed.

Section HoldButton.
Variables (cfg : config) (be : backend) (name key : string).
Hypothesis Hbehavior : button_behavior cfg name = "hold".
Hypothesis Hkey : usable (button_key cfg name) = Some key.

(** A way of counting keyDown calls: every one issued, or those that
    returned. *)
Variable cnt : list obs -> nat.
Hypothesis cnt_app : forall a b, cnt (a ++ b) = (cnt a + cnt b)%nat.
Hypothesis cnt_key_ups :
  forall t, Forall (fun o => is_key_up_obs o = true) t -> cnt t = 0%nat.
Hypothesis cnt_returned : forall pk, cnt [Inject (KeyDown pk) true] = 1%nat.
Hypothesis cnt_raised :
  forall n pk e, be n (KeyDown pk) = Some e ->
                 cnt [Inject (KeyDown pk) false] = 0%nat.

Lemma dispatch_press_hold (w : world) :
  dispatch cfg be name "press" w = hold_if_needed be name key w.
Proof. unfold dispatch. rewrite Hkey, Hbehavior. reflexivity. Qed.

Lemma dispatch_release_hold (ev_type : string) (w : world) :
  String.eqb ev_type "press" = false ->
  dispatch cfg be name ev_type w = release_if_held be name w.
Proof. intros H. unfold dispatch. rewrite H, Hbehavior. reflexivity. Qed.

Lemma cnt_nil : cnt [] = 0%nat.
Proof. apply cnt_key_ups. constructor. Qed.

Lemma do_op_keeps_inv (o : hold_op) (w : world) :
  exists t1,
    trace (do_op cfg be name o w) = trace w ++ t1
    /\ forall t, hold_inv cnt name (_HELD_BY_BUTTON w) t ->
                 hold_inv cnt name (_HELD_BY_BUTTON (do_op cfg be name o w))
                          (t ++ t1).
Proof.
  destruct (usable_truthy _ _ Hkey) as [_ Htr].
  destruct o as [ev_type |]; cbn [do_op].
  - destruct (String.eqb ev_type "press") eqn:Hty.
    + apply String.eqb_eq in Hty. subst ev_type.
      rewrite dispatch_press_hold.
      destruct (dict_get (_HELD_BY_BUTTON w) name) as [k|] eqn:Hget.
      * exists []. unfold hold_if_needed. rewrite Hget. cbn [snd].
        rewrite app_nil_r. split; [reflexivity |].
        intros t. rewrite app_nil_r. auto.
      * destruct (hold_if_needed_absent be name key w Htr Hget)
          as (pk & _ & Hcase).
        destruct (be _ (KeyDown pk)) as [e|] eqn:Hbe; rewrite Hcase; cbn [snd].
        -- exists [Inject (KeyDown pk) false]. split; [reflexivity |].
           intros t. unfold hold_inv. cbn [_HELD_BY_BUTTON emit].
           rewrite Hget, cnt_app, ups_app, (cnt_raised _ _ _ Hbe), ups_key_down.
           lia.
        -- exists [Inject (KeyDown pk) true]. split; [reflexivity |].
           intros t. unfold hold_inv. cbn [_HELD_BY_BUTTON set_held].
           rewrite Hget, dict_get_set, Htr, cnt_app, ups_app, cnt_returned,
             ups_key_down.
           lia.
    + rewrite dispatch_release_hold by exact Hty.
      destruct (release_if_held_trace be name w) as (t1 & Ht1 & Hcase).
      exists t1. split; [exact Ht1 |]. intros t.
      unfold hold_inv. rewrite release_if_held_held, dict_get_remove.
      rewrite cnt_app, ups_app.
      destruct (dict_get (_HELD_BY_BUTTON w) name) as [k|].
      * destruct (truthy k).
        -- destruct Hcase as (pk & ok & ->).
           rewrite (cnt_key_ups [Inject (KeyUp pk) ok]) by (repeat constructor).
           rewrite ups_key_up. lia.
        -- subst t1. rewrite cnt_nil. cbn. lia.
      * subst t1. rewrite cnt_nil. cbn. lia.
  - destruct (release_all_spec be w) as (t1 & Heq & Hall & Hcalls).
    rewrite Heq. cbn [snd]. exists t1. split; [reflexivity |].
    intros t. unfold hold_inv. cbn [_HELD_BY_BUTTON emits set_held dict_get].
    rewrite cnt_app, ups_app, (cnt_key_ups t1 Hall).
    destruct (held_key_ups_counts _ _ Hcalls) as [_ ->].
    destruct (dict_get (_HELD_BY_BUTTON w) name) as [k|] eqn:Hget; [| lia].
    destruct (truthy k) eqn:Hk; [| lia].
    pose proof (held_key_ups_present _ _ _ Hget Hk). lia.
Qed.

Lemma do_ops_keep_inv (os : list hold_op) :
  forall w t0,
    hold_inv cnt name (_HELD_BY_BUTTON w) t0 ->
    exists t,
      trace (do_ops cfg be name os w) = trace w ++ t
      /\ hold_inv cnt name (_HELD_BY_BUTTON (do_ops cfg be name os w)) (t0 ++ t).
Proof.
  induction os as [|o os IH]; intros w t0 Hinv.
  - exists []. cbn. rewrite !app_nil_r. auto.
  - cbn [do_ops fold_left].
    destruct (do_op_keeps_inv o w) as (t1 & Ht1 & Hstep).
    destruct (IH (do_op cfg be name o w) (t0 ++ t1) (Hstep t0 Hinv))
      as (t & Ht & Hinv').
    exists (t1 ++ t). unfold do_ops in *.
    rewrite Ht, Ht1, <- !app_assoc. rewrite <- app_assoc in Hinv'. auto.
Qed.

Lemma hold_inv_bound (held : list (string * string)) (t : list obs) :
  hold_inv cnt name held t -> (cnt t <= ups t + 1)%nat.
Proof.
  unfold hold_inv. destruct (dict_get held name) as [k|]; [| lia].
  destruct (truthy k); lia.
Qed.

Lemma hold_inv_start (held : list (string * string)) :
  hold_inv cnt name held [].
Proof.
  unfold hold_inv. rewrite cnt_nil.
  destruct (dict_get held name) as [k|]; [| cbn; lia].
  destruct (truthy k); cbn; lia.
Qed.

Lemma hold_bound (os : list hold_op) (w : world) :
  exists t,
    trace (do_ops cfg be name os w) = trace w ++ t
    /\ (cnt t <= ups t + 1)%nat.
Proof.
  destruct (do_ops_keep_inv os w [] (hold_inv_start _)) as (t & Ht & Hinv).
  exists t. split; [exact Ht |]. apply (hold_inv_bound _ _ Hinv).
Qed.

End HoldButton.

Lemma do_ops_snoc cfg be name (os : list hold_op) (o : hold_op) (w : world) :
  do_ops cfg be name (os ++ [o]) w
  = do_op cfg be name o (do_ops cfg be name os w).
Proof. unfold do_ops. rewrite fold_left_app. reflexivity. Qed.

Section OwnCalls.
Variables (cfg : config) (be : backend) (name key pk : string).
Hypothesis Hbehavior : button_behavior cfg name = "hold".
Hypothesis Hkey : usable (button_key cfg name) = Some key.
Hypothesis Hpk : usable (_to_pydi_key key) = Some pk.

Lemma own_entries_get (held : list (string * string)) :
  own_entries name key held ->
  (dict_get held name = None -> held = [])
  /\ (forall k, dict_get held name = Some k -> k = key)
  /\ dict_remove held name = [].
Proof.
  induction 1 as [| it held -> Hall (IH1 & IH2 & IH3)];
    [split; [auto | split; [discriminate | reflexivity]] |].
  cbn [dict_get dict_remove]. rewrite String.eqb_refl.
  split; [discriminate |]. split; [congruence | exact IH3].
Qed.

Lemma own_held_key_ups (held : list (string * string)) :
  own_entries name key held ->
  Forall (fun c => c = KeyDown pk \/ c = KeyUp pk) (held_key_ups held).
Proof.
  induction 1 as [| it held -> Hall IH]; [constructor |].
  rewrite held_key_ups_cons, Hpk. constructor; auto.
Qed.

Lemma own_calls_app (a b : list obs) :
  own_calls pk a -> own_calls pk b -> own_calls pk (a ++ b).
Proof. unfold own_calls. rewrite calls_app. apply Forall_app_2. Qed.

Lemma release_if_held_key_up (w : world) :
  dict_get (_HELD_BY_BUTTON w) name = Some key ->
  exists ok,
    trace (snd (release_if_held be name w)) = trace w ++ [Inject (KeyUp pk) ok].
Proof.
  intros Hget. destruct (usable_truthy _ _ Hkey) as [_ Htr].
  unfold release_if_held. rewrite Hget, Htr.
  pose proof (send_key_up_spec be key
                (set_held (dict_remove (_HELD_BY_BUTTON w) name) w)) as H.
  rewrite Hpk in H. destruct H as (r & ok & ->). exists ok. reflexivity.
Qed.

Lemma do_op_own (o : hold_op) (w : world) :
  own_entries name key (_HELD_BY_BUTTON w) ->
  own_entries name key (_HELD_BY_BUTTON (do_op cfg be name o w))
  /\ exists t1,
       trace (do_op cfg be name o w) = trace w ++ t1 /\ own_calls pk t1.
Proof.
  intros Hown.
  destruct (usable_truthy _ _ Hkey) as [_ Htr].
  destruct (own_entries_get _ Hown) as (Hnil & Hsame & Hrm).
  destruct o as [ev_type |]; cbn [do_op].
  - destruct (String.eqb ev_type "press") eqn:Hty.
    + apply String.eqb_eq in Hty. subst ev_type.
      rewrite (dispatch_press_hold cfg be name key Hbehavior Hkey).
      destruct (dict_get (_HELD_BY_BUTTON w) name) as [k |] eqn:Hget.
      * unfold hold_if_needed. rewrite Hget. cbn [snd].
        split; [exact Hown |]. exists []. rewrite app_nil_r.
        split; [reflexivity | constructor].
      * destruct (hold_if_needed_absent be name key w Htr Hget)
          as (pk' & Hpk' & Hcase).
        assert (pk' = pk) by congruence. subst pk'.
        rewrite (Hnil eq_refl) in Hcase.
        destruct (be _ (KeyDown pk)) as [e |]; rewrite Hcase; cbn.
        -- split; [exact Hown |]. exists [Inject (KeyDown pk) false].
           split; [reflexivity | constructor; [now left | constructor]].
        -- split; [repeat constructor |]. exists [Inject (KeyDown pk) true].
           split; [reflexivity | constructor; [now left | constructor]].
    + rewrite (dispatch_release_hold cfg be name Hbehavior ev_type w Hty).
      rewrite release_if_held_held, Hrm. split; [constructor |].
      destruct (dict_get (_HELD_BY_BUTTON w) name) as [k |] eqn:Hget.
      * rewrite (Hsame k eq_refl) in Hget.
        destruct (release_if_held_key_up w Hget) as (ok & ->).
        exists [Inject (KeyUp pk) ok].
        split; [reflexivity | constructor; [now right | constructor]].
      * exists []. unfold release_if_held. rewrite Hget. cbn.
        rewrite app_nil_r. split; [reflexivity | constructor].
  - destruct (release_all_spec be w) as (t1 & Heq & _ & Hcalls).
    rewrite Heq. cbn. split; [constructor |].
    exists t1. split; [reflexivity |].
    unfold own_calls. rewrite Hcalls.
    now apply own_held_key_ups.
Qed.

Lemma do_ops_own (os : list hold_op) :
  forall w,
    own_entries name key (_HELD_BY_BUTTON w) ->
    exists t,
      trace (do_ops cfg be name os w) = trace w ++ t /\ own_calls pk t.
Proof.
  induction os as [| o os IH]; intros w Hown.
  - exists []. cbn. rewrite app_nil_r. split; [reflexivity | constructor].
  - cbn [do_ops fold_left].
    destruct (do_op_own o w Hown) as (Hown1 & t1 & Ht1 & Hc1).
    destruct (IH _ Hown1) as (t & Ht & Hc).
    exists (t1 ++ t). unfold do_ops in *. rewrite Ht, Ht1, <- app_assoc.
    split; [reflexivity | now apply own_calls_app].
Qed.

End OwnCalls.

(** C1, as the code has it.  Hold lifecycle.  Take a button whose
    behaviour is "hold" and whose output key is configured.  Whatever
    press and release events the dispatcher is handed for that button,
    with calls of [release_all_held_keys] in between, from whatever state
    and whichever calls raise: after every prefix of them, the keyDown
    calls that returned exceed the keyUp calls issued by at most 1; the
    keyDown calls issued do so too, provided that no keyDown raises; when
    the registry holds at the start no entry but, possibly, that of the
    button with its configured key, every call made is a keyDown or a
    keyUp of the key of that button, so that the calls counted are its
    own; and right after every [release_all_held_keys] the registry is
    empty. *)
Theorem hold_lifecycle (cfg : config) (be : backend) (name key : string) :
  button_behavior cfg name = "hold" ->
  usable (button_key cfg name) = Some key ->
  exists pk,
    usable (_to_pydi_key key) = Some pk
    /\ forall (os : list hold_op) (w : world) (n : nat),
         (exists t,
            trace (do_ops cfg be name (take n os) w) = trace w ++ t
            /\ (returned_downs t <= ups t + 1)%nat
            /\ ((forall i k, be i (KeyDown k) = None) ->
                (downs t <= ups t + 1)%nat)
            /\ (own_entries name key (_HELD_BY_BUTTON w) -> own_calls pk t))
         /\ (os !! n = Some ReleaseAll ->
             _HELD_BY_BUTTON (do_ops cfg be name (take (S n) os) w) = []).
Proof.
  intros Hb Hk.
  destruct (usable_truthy _ _ Hk) as [_ Htr].
  destruct (to_pydi_usable key Htr) as [pk Hpk].
  exists pk. split; [exact Hpk |].
  intros os w n. split.
  - destruct (hold_bound cfg be name key Hb Hk returned_downs
                returned_downs_app
                (fun t H => proj1 (proj2 (key_ups_counts t H)))
                (fun _ => eq_refl) (fun _ _ _ _ => eq_refl) (take n os) w)
      as (t & Ht & Hreturned).
    exists t. split; [exact Ht |]. split; [exact Hreturned |]. split.
    + intros Hdown.
      destruct (hold_bound cfg be name key Hb Hk downs downs_app
                  (fun t H => proj1 (key_ups_counts t H))
                  (fun _ => eq_refl)
                  (fun i pk e H => ltac:(rewrite Hdown in H; discriminate))
                  (take n os) w)
        as (t' & Ht' & Hissued).
      rewrite Ht in Ht'. apply app_inv_head in Ht'. subst t'. exact Hissued.
    + intros Hown.
      destruct (do_ops_own cfg be name key pk Hb Hk Hpk (take n os) w Hown)
        as (t' & Ht' & Hcalls).
      rewrite Ht in Ht'. apply app_inv_head in Ht'. subst t'. exact Hcalls.
  - intros Hn. rewrite (take_S_r _ _ _ Hn), do_ops_snoc. cbn [do_op].
    destruct (release_all_spec be (do_ops cfg be name (take n os) w))
      as (t & -> & _). reflexivity.
Qed.

(** Right Steer is a Hold button of the source configuration: pressed
    twice, released, pressed again, with every keyUp raising. *)
Lemma hold_lifecycle_witness :
  let os := [Dispatched "press"; Dispatched "press"; Dispatched "release";
             Dispatched "press"; ReleaseAll] in
  (exists t,
     trace (do_ops source_config be_up_raises "Right Steer" (take 4 os) fresh_world)
     = trace fresh_world ++ t
     /\ (returned_downs t <= ups t + 1)%nat
     /\ (downs t <= ups t + 1)%nat
     /\ own_calls "right" t)
  /\ _HELD_BY_BUTTON
       (do_ops source_config be_up_raises "Right Steer" (take 5 os) fresh_world)
     = [].
Proof.
  intros os.
  destruct (hold_lifecycle source_config be_up_raises "Right Steer" "ArrowRight"
              eq_refl eq_refl) as (pk & Hpk & H).
  assert (Epk : pk = "right") by (vm_compute in Hpk; congruence).
  subst pk.
  destruct (H os fresh_world 4%nat) as [(t & Ht & Hreturned & Hissued & Hown) H5].
  split; [| apply H5; reflexivity].
  exists t. split; [exact Ht |]. split; [exact Hreturned |].
  split; [apply Hissued; reflexivity | apply Hown; constructor].
Defined.

(** What the assumption on keyDown is for: a keyDown that raises records
    no entry, so the next press issues keyDown again. *)
Example hold_key_down_raising :
  let w := do_ops source_config be_first_raises "Right Steer"
             [Dispatched "press"; Dispatched "press"] fresh_world in
  trace w = [Inject (KeyDown "right") false; Inject (KeyDown "right") true]
  /\ _HELD_BY_BUTTON w = [("Right Steer", "ArrowRight")].
Proof. vm_compute. split; reflexivity. Qed.

(** With keyDown raising, Right Steer pressed three times: three keyDown
    calls are issued and no keyUp, since no entry was recorded. *)
Lemma hold_key_downs_unbounded :
  button_behavior source_config "Right Steer" = "hold"
  /\ usable (button_key source_config "Right Steer") = Some "ArrowRight"
  /\ let w := do_ops source_config be_down_raises "Right Steer"
                [Dispatched "press"; Dispatched "press"; Dispatched "press"]
                fresh_world in
     trace w = [ Inject (KeyDown "right") false; Inject (KeyDown "right") false;
                 Inject (KeyDown "right") false ]
     /\ _HELD_BY_BUTTON w = []
     /\ downs (trace w) = 3%nat
     /\ ups (trace w) = 0%nat
     /\ ~ (downs (trace w) <= ups (trace w) + 1)%nat.
Proof.
  split; [reflexivity |]. split; [reflexivity |].
  vm_compute. repeat split. lia.
Qed.

Example hold_lifecycle_trace :
  trace (do_ops source_config be_up_raises "Right Steer"
           [Dispatched "press"; Dispatched "press"; Dispatched "release";
            Dispatched "press"; ReleaseAll] fresh_world)
  = [ Inject (KeyDown "right") true; Inject (KeyUp "right") false;
      Inject (KeyDown "right") true; Inject (KeyUp "right") false ].
Proof. vm_compute. reflexivity. Qed.

(** ** The notification handler *)

Ltac break_match :=
  match goal with
  | |- context [match ?x with _ => _ end] => destruct x eqn:?
  end.

Lemma injected_refl (w : world) : injected w w.
Proof.
  split; [repeat split |]. split; [reflexivity |].
  exists []. rewrite app_nil_r. auto.
Qed.

Lemma injected_trans (w1 w2 w3 : world) :
  injected w1 w2 -> injected w2 w3 -> injected w1 w3.
Proof.
  intros (C1 & L1 & t1 & T1 & F1) (C2 & L2 & t2 & T2 & F2). split; [| split].
  - unfold same_control in *. intuition congruence.
  - congruence.
  - exists (t1 ++ t2). rewrite T2, T1, app_assoc. split; [reflexivity |].
    apply Forall_app; auto.
Qed.

Lemma injected_set_held (h : list (string * string)) (w : world) :
  injected w (set_held h w).
Proof.
  split; [repeat split |]. split; [reflexivity |].
  exists []. cbn. rewrite app_nil_r. auto.
Qed.

Lemma injected_inject (be : backend) (c : key_call) (w : world) :
  injected w (snd (inject be c w)).
Proof.
  destruct (inject_spec be c w) as (r & ok & -> & _).
  split; [repeat split |]. split; [reflexivity |].
  exists [Inject c ok]. split; [reflexivity |]. repeat constructor.
Qed.

Lemma injected_bind {A B} (m : M A) (k : A -> M B) (w : world) :
  injected w (snd (m w)) ->
  (forall a w', injected w' (snd (k a w'))) ->
  injected w (snd (bind m k w)).
Proof.
  intros Hm Hk. unfold bind. destruct (m w) as [[a | e] w'] eqn:E;
    cbn [snd] in *; [| exact Hm].
  eapply injected_trans; [exact Hm | apply Hk].
Qed.

Lemma injected_send_key_tap be k w : injected w (snd (send_key_tap be k w)).
Proof.
  unfold send_key_tap. destruct (usable _);
    [apply injected_inject | apply injected_refl].
Qed.

Lemma injected_send_key_down be k w : injected w (snd (send_key_down be k w)).
Proof.
  unfold send_key_down. destruct (usable _);
    [apply injected_inject | apply injected_refl].
Qed.

Lemma injected_send_key_up be k w : injected w (snd (send_key_up be k w)).
Proof.
  unfold send_key_up. destruct (usable _);
    [apply injected_inject | apply injected_refl].
Qed.

Lemma injected_hold_if_needed be name k w :
  injected w (snd (hold_if_needed be name k w)).
Proof.
  unfold hold_if_needed. destruct (dict_get _ _); [apply injected_refl |].
  apply injected_bind; [apply injected_send_key_down |].
  intros _ w'. apply injected_set_held.
Qed.

Lemma injected_release_if_held be name w :
  injected w (snd (release_if_held be name w)).
Proof.
  unfold release_if_held.
  destruct (dict_get _ _) as [k|]; [| apply injected_set_held].
  destruct (truthy k); [| apply injected_set_held].
  eapply injected_trans; [apply injected_set_held | apply injected_send_key_up].
Qed.

Lemma injected_dispatch cfg be name ev_type w :
  injected w (snd (dispatch cfg be name ev_type w)).
Proof.
  unfold dispatch. repeat break_match;
    auto using injected_refl, injected_send_key_tap, injected_hold_if_needed,
               injected_release_if_held.
Qed.

Lemma injected_release_all be w :
  injected w (snd (release_all_held_keys be w)).
Proof.
  destruct (release_all_spec be w) as (t & -> & Hall & _). cbn [snd].
  split; [repeat split |]. split; [reflexivity |].
  exists t. split; [reflexivity |].
  eapply Forall_impl; [exact Hall |]. intros [[]| | | |]; cbn; congruence.
Qed.

Lemma handled_refl (w : world) : handled w w.
Proof.
  split; [repeat split |]. exists []. rewrite app_nil_r. auto.
Qed.

Lemma handled_trans (w1 w2 w3 : world) :
  handled w1 w2 -> handled w2 w3 -> handled w1 w3.
Proof.
  intros [C1 (t1 & T1 & F1)] [C2 (t2 & T2 & F2)]. split.
  - unfold same_control in *. intuition congruence.
  - exists (t1 ++ t2). rewrite T2, T1, app_assoc. split; [reflexivity |].
    apply Forall_app; auto.
Qed.

Lemma injected_handled (w w' : world) : injected w w' -> handled w w'.
Proof.
  intros (C & _ & t & T & F). split; [exact C |]. exists t.
  split; [exact T |]. eapply Forall_impl; [exact F |].
  intros [| | | |]; cbn; congruence.
Qed.

Lemma handled_emit (o : obs) (w : world) :
  handler_obs o = true -> handled w (emit o w).
Proof.
  intros H. split; [repeat split |]. exists [o]. split; [reflexivity |].
  constructor; [exact H | constructor].
Qed.

Lemma handled_set_last_seq (m : gmap (string * string) Z) (w : world) :
  handled w (set_last_seq m w).
Proof.
  split; [repeat split |]. exists []. cbn. rewrite app_nil_r. auto.
Qed.

Lemma handled_bind {A B} (m : M A) (k : A -> M B) (w : world) :
  handled w (snd (m w)) ->
  (forall a w', handled w' (snd (k a w'))) ->
  handled w (snd (bind m k w)).
Proof.
  intros Hm Hk. unfold bind. destruct (m w) as [[a | e] w'] eqn:E;
    cbn [snd] in *; [| exact Hm].
  eapply handled_trans; [exact Hm | apply Hk].
Qed.

Lemma handled_notification_handler cfg be data w :
  handled w (snd (notification_handler cfg be data w)).
Proof.
  unfold notification_handler. destruct (parse_short_frame cfg data) as [evt|].
  - apply handled_bind.
    + unfold already_handled. case_decide;
        [apply handled_refl | apply handled_set_last_seq].
    + intros [|] w'; [apply handled_refl |].
      apply handled_bind; [apply handled_emit; reflexivity |].
      intros _ w''. apply injected_handled, injected_dispatch.
  - destruct (debug_var w); [| apply handled_refl].
    apply handled_emit. reflexivity.
Qed.

Lemma dispatch_last_seq cfg be name ev_type w :
  _last_seq (snd (dispatch cfg be name ev_type w)) = _last_seq w.
Proof. apply (injected_dispatch cfg be name ev_type w). Qed.

Lemma msgs_of_injects (t : list obs) :
  Forall (fun o => is_inject o = true) t -> msgs t = [].
Proof.
  induction 1 as [|o t Ho _ IH]; [reflexivity |].
  destruct o; try discriminate. exact IH.
Qed.

Lemma msgs_app (a b : list obs) : msgs (a ++ b) = msgs a ++ msgs b.
Proof. apply omap_app. Qed.

Lemma handler_duplicate cfg be data evt w :
  parse_short_frame cfg data = Some evt ->
  _last_seq w !! (ev_prefix evt, ev_type evt) = Some (ev_seq evt) ->
  notification_handler cfg be data w = (Ret tt, w).
Proof.
  intros Hp Hl. unfold notification_handler. rewrite Hp.
  unfold bind. rewrite already_handled_hit by exact Hl. reflexivity.
Qed.

Lemma handler_accepted cfg be data evt w :
  parse_short_frame cfg data = Some evt ->
  _last_seq w !! (ev_prefix evt, ev_type evt) <> Some (ev_seq evt) ->
  notification_handler cfg be data w
  = dispatch cfg be (ev_name evt) (ev_type evt)
      (emit (MsgqPut (Log (event_log_line evt)))
            (set_last_seq (<[(ev_prefix evt, ev_type evt) := ev_seq evt]> (_last_seq w)) w)).
Proof.
  intros Hp Hl. unfold notification_handler. rewrite Hp.
  unfold bind at 1. rewrite already_handled_miss by exact Hl.
  reflexivity.
Qed.

Lemma release_if_held_present (be : backend) (name k pk : string) (w : world) :
  dict_get (_HELD_BY_BUTTON w) name = Some k ->
  usable (_to_pydi_key k) = Some pk ->
  truthy k = true ->
  exists r ok,
    release_if_held be name w
    = (r, emit (Inject (KeyUp pk) ok)
               (set_held (dict_remove (_HELD_BY_BUTTON w) name) w)).
Proof.
  intros Hget Hpk Hk. unfold release_if_held. rewrite Hget, Hk.
  pose proof (send_key_up_spec be k
                (set_held (dict_remove (_HELD_BY_BUTTON w) name) w)) as H.
  rewrite Hpk in H. exact H.
Qed.

Lemma dispatch_press_tap cfg be name key pk w :
  usable (button_key cfg name) = Some key ->
  button_behavior cfg name = "tap" ->
  usable (_to_pydi_key key) = Some pk ->
  exists r ok,
    dispatch cfg be name "press" w = (r, emit (Inject (KeyPress pk) ok) w).
Proof.
  intros Hk Hb Hpk. unfold dispatch. rewrite Hk, Hb. cbn [String.eqb].
  unfold send_key_tap. rewrite Hpk.
  destruct (inject_spec be (KeyPress pk) w) as (r & ok & H & _). eauto.
Qed.

Lemma dispatch_release_tap cfg be name w :
  button_behavior cfg name = "tap" ->
  dispatch cfg be name "release" w = (Ret tt, w).
Proof. intros Hb. unfold dispatch. rewrite Hb. reflexivity. Qed.

Lemma parse_frame_press_1 cfg name :
  PREFIX_TO_BUTTON cfg !! "0001" = Some name ->
  parse_short_frame cfg frame_press_1 = Some (Event "0001" name "press" 1 "81").
Proof.
  intros H. unfold parse_short_frame, frame_press_1.
  change (fmt_02X Byte.x00 +:+ fmt_02X Byte.x01) with "0001".
  rewrite H. reflexivity.
Qed.

Lemma parse_frame_release_1 cfg name :
  PREFIX_TO_BUTTON cfg !! "0001" = Some name ->
  parse_short_frame cfg frame_release_1 = Some (Event "0001" name "release" 1 "01").
Proof.
  intros H. unfold parse_short_frame, frame_release_1.
  change (fmt_02X Byte.x00 +:+ fmt_02X Byte.x01) with "0001".
  rewrite H. reflexivity.
Qed.

(** C9, as the code has it.  End to end, while listening: the frames
    00 01 81, 00 01 81 and 00 01 01, in this order, with "Right Up" mapped
    to a key and sequence 1 not already the last one seen for this prefix.  The duplicate changes
    nothing at all: no log line, no key call.  The three frames put the two
    log lines of the press and of the release on the queue; they issue
    exactly one tap when the button is a Tap button, and exactly one
    keyDown followed by one keyUp, leaving the button released, when it is
    a Hold button that is not held and keyDown returns. *)
Theorem right_up_scenario (cfg : config) (be : backend) (key : string)
    (w : world) :
  PREFIX_TO_BUTTON cfg !! "0001" = Some "Right Up" ->
  usable (button_key cfg "Right Up") = Some key ->
  _last_seq w !! ("0001", "press") <> Some 1 ->
  _last_seq w !! ("0001", "release") <> Some 1 ->
  let c1 := step cfg be (AwaitListenSleep, w) (Notified frame_press_1) in
  let c2 := step cfg be c1 (Notified frame_press_1) in
  let c3 := step cfg be c2 (Notified frame_release_1) in
  exists pk t,
    usable (_to_pydi_key key) = Some pk
    /\ c2 = c1
    /\ fst c3 = AwaitListenSleep
    /\ trace (snd c3) = trace w ++ t
    /\ msgs t = [ Log "[BLE] Right Up press seq=1 (000181)";
                  Log "[BLE] Right Up release seq=1 (000101)" ]
    /\ (button_behavior cfg "Right Up" = "tap" -> calls t = [KeyPress pk])
    /\ (button_behavior cfg "Right Up" = "hold" ->
        dict_get (_HELD_BY_BUTTON w) "Right Up" = None ->
        (forall n k, be n (KeyDown k) = None) ->
        calls t = [KeyDown pk; KeyUp pk]
        /\ dict_get (_HELD_BY_BUTTON (snd c3)) "Right Up" = None).
Proof.
  intros Hprefix Hkey Hpress Hrelease c1 c2 c3.
  destruct (usable_truthy _ _ Hkey) as [_ Htr].
  destruct (to_pydi_usable key Htr) as [pk Hpk].
  pose proof (parse_frame_press_1 cfg _ Hprefix) as Hp1.
  pose proof (parse_frame_release_1 cfg _ Hprefix) as Hp2.
  set (W1 := emit (MsgqPut (Log "[BLE] Right Up press seq=1 (000181)"))
               (set_last_seq (<[("0001", "press") := 1]> (_last_seq w)) w)).
  set (w1 := snd (dispatch cfg be "Right Up" "press" W1)).
  assert (Hc1 : c1 = (AwaitListenSleep, w1)).
  { subst c1. cbn [step subscribed].
    rewrite (handler_accepted cfg be _ _ w Hp1) by exact Hpress. reflexivity. }
  assert (Hseq1 : _last_seq w1 = <[("0001", "press") := 1]> (_last_seq w)).
  { subst w1. rewrite dispatch_last_seq. reflexivity. }
  assert (Hc2 : c2 = c1).
  { subst c2. rewrite Hc1. cbn [step subscribed].
    rewrite (handler_duplicate cfg be _ _ w1 Hp1); [reflexivity |].
    cbn [ev_prefix ev_type ev_seq]. rewrite Hseq1. apply lookup_insert_eq. }
  set (W2 := emit (MsgqPut (Log "[BLE] Right Up release seq=1 (000101)"))
               (set_last_seq (<[("0001", "release") := 1]> (_last_seq w1)) w1)).
  set (w3 := snd (dispatch cfg be "Right Up" "release" W2)).
  assert (Hc3 : c3 = (AwaitListenSleep, w3)).
  { subst c3. rewrite Hc2, Hc1. cbn [step subscribed].
    rewrite (handler_accepted cfg be _ _ w1 Hp2); [reflexivity |].
    cbn [ev_prefix ev_type ev_seq]. rewrite Hseq1.
    rewrite lookup_insert_ne by discriminate. exact Hrelease. }
  destruct (injected_dispatch cfg be "Right Up" "press" W1)
    as (_ & _ & t1 & Ht1 & Hf1). fold w1 in Ht1.
  destruct (injected_dispatch cfg be "Right Up" "release" W2)
    as (_ & _ & t2 & Ht2 & Hf2). fold w3 in Ht2.
  exists pk,
    ([MsgqPut (Log "[BLE] Right Up press seq=1 (000181)")] ++ t1
     ++ [MsgqPut (Log "[BLE] Right Up release seq=1 (000101)")] ++ t2).
  split; [exact Hpk |]. split; [exact Hc2 |].
  rewrite Hc3. cbn [fst snd]. split; [reflexivity |].
  split.
  { rewrite Ht2. subst W2. cbn [trace emit set_last_seq]. rewrite Ht1.
    subst W1. cbn [trace emit set_last_seq]. rewrite <- !app_assoc. reflexivity. }
  assert (Htap : button_behavior cfg "Right Up" = "tap" ->
                 exists ok, t1 = [Inject (KeyPress pk) ok] /\ t2 = []).
  { intros Hb.
    destruct (dispatch_press_tap cfg be _ _ _ W1 Hkey Hb Hpk) as (r & ok & E1).
    exists ok. split.
    - subst w1. rewrite E1 in Ht1. cbn [snd trace emit] in Ht1.
      apply app_inv_head in Ht1. auto.
    - subst w3. rewrite (dispatch_release_tap cfg be _ W2 Hb) in Ht2.
      cbn [snd] in Ht2. rewrite <- (app_nil_r (trace W2)) in Ht2 at 1.
      apply app_inv_head in Ht2. auto. }
  assert (Hhold : button_behavior cfg "Right Up" = "hold" ->
                  dict_get (_HELD_BY_BUTTON w) "Right Up" = None ->
                  (forall n k, be n (KeyDown k) = None) ->
                  exists ok, t1 = [Inject (KeyDown pk) true]
                             /\ t2 = [Inject (KeyUp pk) ok]
                             /\ dict_get (_HELD_BY_BUTTON w3) "Right Up" = None).
  { intros Hb Hfree Hdown.
    destruct (hold_if_needed_new be "Right Up" key W1 Htr Hdown Hfree)
      as (pk' & Hpk' & E1).
    rewrite Hpk in Hpk'. injection Hpk' as <-.
    assert (Ew1 : w1 = set_held (dict_set (_HELD_BY_BUTTON W1) "Right Up" key)
                                (emit (Inject (KeyDown pk) true) W1)).
    { subst w1. rewrite (dispatch_press_hold cfg be _ key Hb Hkey), E1.
      reflexivity. }
    assert (Hheld : dict_get (_HELD_BY_BUTTON W2) "Right Up" = Some key).
    { subst W2. cbn [_HELD_BY_BUTTON emit set_last_seq]. rewrite Ew1.
      cbn [_HELD_BY_BUTTON set_held]. apply dict_get_set. }
    destruct (release_if_held_present be _ _ _ W2 Hheld Hpk Htr)
      as (r & ok & E2).
    assert (Ew3 : w3 = emit (Inject (KeyUp pk) ok)
                         (set_held (dict_remove (_HELD_BY_BUTTON W2) "Right Up") W2)).
    { subst w3.
      rewrite (dispatch_release_hold cfg be _ Hb "release" W2 eq_refl), E2.
      reflexivity. }
    exists ok. split; [| split].
    - rewrite Ew1 in Ht1. cbn [trace emit set_held] in Ht1.
      apply app_inv_head in Ht1. auto.
    - rewrite Ew3 in Ht2. cbn [trace emit set_held] in Ht2.
      apply app_inv_head in Ht2. auto.
    - rewrite Ew3. cbn [_HELD_BY_BUTTON emit set_held]. apply dict_get_remove. }
  split; [| split].
  - rewrite !msgs_app, (msgs_of_injects _ Hf1), (msgs_of_injects _ Hf2).
    reflexivity.
  - intros Hb. destruct (Htap Hb) as (ok & -> & ->). reflexivity.
  - intros Hb Hfree Hdown.
    destruct (Hhold Hb Hfree Hdown) as (ok & -> & -> & Hnone).
    split; [reflexivity | exact Hnone].
Qed.

(** The scenario on the source configuration (Tap) and with "Right Up"
    switched to Hold, from the state in which the worker first listens. *)
Lemma right_up_scenario_witness :
  (exists pk t,
     trace (snd (run source_config be_ok (AwaitListenSleep, listening_world)
                   [Notified frame_press_1; Notified frame_press_1;
                    Notified frame_release_1]))
     = trace listening_world ++ t
     /\ calls t = [KeyPress pk])
  /\ (exists pk t,
        trace (snd (run hold_up_config be_ok (AwaitListenSleep, listening_world)
                      [Notified frame_press_1; Notified frame_press_1;
                       Notified frame_release_1]))
        = trace listening_world ++ t
        /\ calls t = [KeyDown pk; KeyUp pk]).
Proof.
  split.
  - destruct (right_up_scenario source_config be_ok "7" listening_world)
      as (pk & t & _ & _ & _ & Ht & _ & Htap & _);
      [reflexivity | reflexivity | vm_compute; discriminate
       | vm_compute; discriminate |].
    exists pk, t. split; [exact Ht | apply Htap; reflexivity].
  - destruct (right_up_scenario hold_up_config be_ok "7" listening_world)
      as (pk & t & _ & _ & _ & Ht & _ & _ & Hhold);
      [reflexivity | reflexivity | vm_compute; discriminate
       | vm_compute; discriminate |].
    exists pk, t. split; [exact Ht |].
    apply Hhold; [reflexivity | reflexivity | reflexivity].
Defined.

Example relistening_world_reached :
  run source_config be_ok (_ble_main fresh_world) relisten_script
  = (AwaitListenSleep, relistening_world).
Proof. vm_compute. reflexivity. Qed.

(** Listening again after a reconnection, with sequence number 1 the last
    one handled for the press and for the release of Right Up before the
    link dropped: the three frames change nothing, so that no tap is
    issued and no line is logged. *)
Lemma right_up_scenario_after_reconnect :
  PREFIX_TO_BUTTON source_config !! "0001" = Some "Right Up"
  /\ usable (button_key source_config "Right Up") = Some "7"
  /\ fst (run source_config be_ok (_ble_main fresh_world) relisten_script)
     = AwaitListenSleep
  /\ (let w := snd (run source_config be_ok (_ble_main fresh_world)
                      relisten_script) in
      let c1 := step source_config be_ok (AwaitListenSleep, w)
                     (Notified frame_press_1) in
      let c2 := step source_config be_ok c1 (Notified frame_press_1) in
      let c3 := step source_config be_ok c2 (Notified frame_release_1) in
      c3 = (AwaitListenSleep, w)
      /\ calls (emitted w (snd c3)) = []
      /\ msgs (emitted w (snd c3)) = []).
Proof.
  split; [reflexivity |]. split; [reflexivity |].
  rewrite relistening_world_reached. cbn [fst snd].
  split; [reflexivity |]. vm_compute. repeat split.
Qed.

Example right_up_scenario_trace :
  trace (snd (run source_config be_ok (AwaitListenSleep, fresh_world)
                [Notified frame_press_1; Notified frame_press_1;
                 Notified frame_release_1]))
  = [ MsgqPut (Log "[BLE] Right Up press seq=1 (000181)");
      Inject (KeyPress "7") true;
      MsgqPut (Log "[BLE] Right Up release seq=1 (000101)") ].
Proof. vm_compute. reflexivity. Qed.

(** A frame that is not a known short frame, with Debug output unchecked,
    leaves no trace at all: nothing is put on the queue. *)
Lemma other_frame_dropped_silently :
  debug_var listening_world = false
  /\ parse_short_frame source_config [Byte.x00; Byte.x01] = None
  /\ parse_short_frame source_config [Byte.xff; Byte.xff; Byte.x81] = None
  /\ step source_config be_ok (AwaitListenSleep, listening_world)
          (Notified [Byte.x00; Byte.x01])
     = (AwaitListenSleep, listening_world)
  /\ step source_config be_ok (AwaitListenSleep, listening_world)
          (Notified [Byte.xff; Byte.xff; Byte.x81])
     = (AwaitListenSleep, listening_world).
Proof. vm_compute. repeat split; reflexivity. Qed.

(** C8, as the code has it.  A frame received while listening that is not
    a known short frame is put on the queue as the log line
    "[BLE] Other frame: <hex>" exactly when Debug output is checked, and
    is dropped without any message when it is not.  In both cases it never
    reaches the dispatcher: no key call is issued, and the registry and
    the de-duplication table are unchanged. *)
Theorem other_frame_logged_iff_debug (cfg : config) (be : backend)
    (data : list Byte.byte) (w : world) :
  parse_short_frame cfg data = None ->
  step cfg be (AwaitListenSleep, w) (Notified data)
  = (AwaitListenSleep,
     if debug_var w
     then emit (MsgqPut (Log ("[BLE] Other frame: " +:+ hex_upper data))) w
     else w)
  /\ calls (trace (snd (step cfg be (AwaitListenSleep, w) (Notified data))))
     = calls (trace w)
  /\ _HELD_BY_BUTTON (snd (step cfg be (AwaitListenSleep, w) (Notified data)))
     = _HELD_BY_BUTTON w
  /\ _last_seq (snd (step cfg be (AwaitListenSleep, w) (Notified data)))
     = _last_seq w.
Proof.
  intros Hp.
  assert (E : step cfg be (AwaitListenSleep, w) (Notified data)
              = (AwaitListenSleep,
                 if debug_var w
                 then emit (MsgqPut (Log ("[BLE] Other frame: " +:+ hex_upper data))) w
                 else w)).
  { cbn [step subscribed]. unfold notification_handler. rewrite Hp.
    destruct (debug_var w); reflexivity. }
  rewrite E. split; [reflexivity |]. cbn [snd].
  destruct (debug_var w); cbn [trace emit _HELD_BY_BUTTON _last_seq];
    rewrite ?calls_app, ?app_nil_r; auto.
Qed.

(** A 2-byte frame with Debug output checked, and unchecked. *)
Lemma other_frame_logged_iff_debug_witness :
  step source_config be_ok
       (AwaitListenSleep, set_debug_var true listening_world)
       (Notified [Byte.x00; Byte.x01])
  = (AwaitListenSleep,
     emit (MsgqPut (Log "[BLE] Other frame: 0001"))
          (set_debug_var true listening_world))
  /\ step source_config be_ok (AwaitListenSleep, listening_world)
          (Notified [Byte.x00; Byte.x01])
     = (AwaitListenSleep, listening_world).
Proof.
  split.
  - exact (proj1 (other_frame_logged_iff_debug source_config be_ok
                    [Byte.x00; Byte.x01]
                    (set_debug_var true listening_world) eq_refl)).
  - exact (proj1 (other_frame_logged_iff_debug source_config be_ok
                    [Byte.x00; Byte.x01] listening_world eq_refl)).
Defined.

(** ** The worker: what holds at every [await] *)

Lemma released_spec (be : backend) (w : world) :
  exists t,
    released be w
    = emits t (set_held [] (set_notify_on false (set_self_client false w)))
    /\ Forall (fun o => is_key_up_obs o = true) t
    /\ calls t = held_key_ups (_HELD_BY_BUTTON w).
Proof.
  unfold released.
  destruct (release_all_spec be (set_notify_on false (set_self_client false w)))
    as (t & -> & Hall & Hc).
  exists t. auto.
Qed.

Lemma cleanup_end_released (be : backend) (k : after_cleanup) (w : world) :
  cleanup_end be k w = resume_after k (released be w).
Proof.
  unfold cleanup_end, released.
  destruct (release_all_spec be (set_notify_on false (set_self_client false w)))
    as (t & -> & _). reflexivity.
Qed.

(** Unfold one step of the worker down to the registry sweep, case by
    case, and replace every sweep by the trace it appends. *)
Ltac unfold_worker :=
  unfold scan_done, connect_done, start_notify_done, stop_notify_done,
    disconnect_done, listen_loop, cleanup_begin, cleanup_disconnect,
    loop_head, begin_attempt, worker_failed in *;
  cbv zeta in *.

Ltac use_released :=
  match goal with
  | |- context [released ?be ?W] =>
      let t := fresh "t" in
      let E := fresh "E" in
      destruct (released_spec be W) as (t & E & ? & ?);
      rewrite E in *; clear E
  end.

Ltac worker_step :=
  first [ rewrite cleanup_end_released
        | progress unfold resume_after, loop_head, begin_attempt, worker_failed
        | use_released
        | break_match ];
  cbn in *; subst; try congruence.

Ltac worker_crunch := unfold_worker; repeat worker_step.

Lemma worker_inv_ble_main (w0 : world) : worker_inv (_ble_main w0).
Proof.
  unfold _ble_main, loop_head.
  destruct w0 as [h ls [|] dbg dv cl scl nt disc conn tr]; cbn; auto.
Qed.

Lemma worker_inv_step cfg be (c : config_state) (e : env_event) :
  worker_inv c -> worker_inv (step cfg be c e).
Proof.
  destruct c as [p w]. intros Hinv.
  destruct e; cbn [step].
  - (* StopRequested *) destruct p; cbn in *; intuition auto.
  - destruct p; cbn in *; intuition auto.
  - destruct p; cbn in *; intuition auto.
  - (* Notified *)
    destruct (subscribed p) eqn:Hs; [| exact Hinv].
    pose proof (handled_notification_handler cfg be data w) as [Hc _].
    destruct Hc as (? & ? & Hd & Hcl & ? & Hn & ? & ?).
    destruct p; try discriminate; cbn in *; rewrite ?Hd, ?Hcl, ?Hn; auto.
  - (* ScanDone *)
    destruct p; try exact Hinv. unfold_worker.
    destruct r as [devices | x]; cbn; [| exact I].
    destruct (find_device_by_prefix DEVICE_NAME_PREFIX devices) eqn:Hf;
      cbn; [| exact I]. eauto.
  - (* ConnectDone *)
    destruct p; try exact Hinv. cbn in Hinv. destruct Hinv as (Hc & Hn & Hd).
    destruct w as [h ls stop dbg dv cl scl nt disc conn tr]; cbn in *; subst.
    destruct r as [[|] | x]; worker_crunch; intuition (auto; discriminate).
  - (* StartNotifyDone *)
    destruct p; try exact Hinv. cbn in Hinv. destruct Hinv as (Hc & Hn & Hd).
    destruct w as [h ls stop dbg dv cl scl nt disc conn tr]; cbn in *; subst.
    destruct r as [[] | x]; worker_crunch; intuition (auto; discriminate).
  - (* StopNotifyDone *)
    destruct p; try exact Hinv. cbn in Hinv. destruct Hinv as (-> & Hc & Hd).
    destruct w as [h ls stop dbg dv cl scl nt disc conn tr]; cbn in *; subst.
    destruct r as [[] | x]; worker_crunch; intuition (auto; discriminate).
  - (* DisconnectDone *)
    destruct p; try exact Hinv. cbn in Hinv. destruct Hinv as (Hb & Hf).
    destruct w as [h ls stop dbg dv cl scl nt disc conn tr]; cbn in *; subst.
    destruct r as [[] | x]; destruct k; worker_crunch;
      intuition (auto; discriminate).
  - (* Slept *)
    destruct p; try exact Hinv; cbn in Hinv;
      destruct w as [h ls stop dbg dv cl scl nt disc conn tr]; cbn in *;
      worker_crunch; intuition (auto; discriminate).
Qed.

Lemma worker_inv_run cfg be (es : list env_event) (c : config_state) :
  worker_inv c -> worker_inv (run cfg be c es).
Proof.
  revert c. induction es as [|e es IH]; intros c H; [exact H |].
  cbn [run fold_left]. apply IH, worker_inv_step, H.
Qed.

Lemma worker_inv_reachable cfg be (w0 : world) (es : list env_event) :
  worker_inv (run cfg be (_ble_main w0) es).
Proof. apply worker_inv_run, worker_inv_ble_main. Qed.

(** ** Leaving the listening state *)

Example link_drop_trace :
  run source_config be_ok (_ble_main fresh_world) link_drop_script
  = (AwaitReconnectSleep,
     World [] (<[("0008", "press") := 1]> ∅) false false (Some kickr)
           true false false true false
       [ SetStatus "Scanning…" "orange";
         MsgqPut (Log "[BLE] Scanning...");
         Transport (Discover SCAN_TIMEOUT_S);
         MsgqPut (Log "[BLE] Found KICKR BIKE SHIFT 1A2B (AA:BB:CC:DD:EE:FF) — connecting…");
         Transport (Connect kickr);
         MsgqPut (Log "[BLE] Connected. Subscribing to notifications…");
         Transport (StartNotify WAHOO_CHAR_UUID);
         MsgqPut (Status "Connected" "green");
         MsgqPut (Log "[BLE] Listening (short-frames only).");
         Sleep LISTEN_POLL_S;
         MsgqPut (Log "[BLE] Right Steer press seq=1 (000881)");
         Inject (KeyDown "right") true;
         Transport (StopNotify WAHOO_CHAR_UUID);
         MsgqPut (Log "[BLE] Notifications stopped.");
         Inject (KeyUp "right") true;
         MsgqPut (Status "Reconnecting…" "orange");
         MsgqPut (Log "[BLE] Will retry in 1.5s…");
         Sleep RECONNECT_DELAY_S ]).
Proof. vm_compute. reflexivity. Qed.

(** With Right Steer held when the link drops, the only keyUp of the run
    is issued after the [stop_notify] transport call, not before it. *)
Lemma release_not_before_teardown :
  exists before after,
    trace (snd (run source_config be_ok (_ble_main fresh_world) link_drop_script))
    = before ++ [Transport (StopNotify WAHOO_CHAR_UUID)] ++ after
    /\ calls before = [KeyDown "right"]
    /\ calls after = [KeyUp "right"].
Proof.
  eexists (_ :: _ :: _ :: _ :: _ :: _ :: _ :: _ :: _ :: _ :: _ :: _ :: []), _.
  split; [vm_compute; reflexivity |]. split; reflexivity.
Qed.

(** C2, as the code has it.  The listening loop is left only by entering
    the [finally] block, whose first action is the [stop_notify] transport
    call: no key is released before it.  [release_all_held_keys] runs in
    the last step of the teardown, after [stop_notify] has completed (and
    after [disconnect] has, when the client is still connected), whether
    these returned or raised; its keyUp calls, one per held entry, come
    after the log line of that call and before the "Reconnecting…" (or
    "Disconnected") status message, and the registry is then empty. *)
Theorem release_after_teardown (cfg : config) (be : backend) (w0 : world)
    (es : list env_event) (w : world) :
  run cfg be (_ble_main w0) es = (AwaitListenSleep, w) ->
  (forall e,
      fst (step cfg be (AwaitListenSleep, w) e) = AwaitListenSleep
      \/ (e = Slept
          /\ step cfg be (AwaitListenSleep, w) e
             = (AwaitStopNotify Fallthrough,
                emit (Transport (StopNotify WAHOO_CHAR_UUID)) w)))
  /\ (forall w1 r,
        let c' := step cfg be (AwaitStopNotify Fallthrough, w1) (StopNotifyDone r) in
        if is_connected w1
        then c' = (AwaitDisconnect Fallthrough,
                   emits [MsgqPut (Log (stop_notify_log r)); Transport Disconnect] w1)
        else sweep_then_status w1 (stop_notify_log r) c')
  /\ (forall w1 r,
        sweep_then_status w1 (disconnect_log r)
          (step cfg be (AwaitDisconnect Fallthrough, w1) (DisconnectDone r))).
Proof.
  intros Hrun.
  pose proof (worker_inv_reachable cfg be w0 es) as Hinv.
  rewrite Hrun in Hinv. cbn in Hinv. destruct Hinv as (Hc & Hn & _).
  split; [| split].
  - intros e. destruct e; cbn [step subscribed fst]; auto.
    unfold listen_loop, cleanup_begin. rewrite Hc, Hn.
    destruct (negb (stop_event w) && negb (disconnected_event w)); auto.
  - intros w1 r c'. subst c'. cbn [step].
    destruct w1 as [h ls stop dbg dv cl scl nt disc conn tr].
    destruct conn; cbn [is_connected].
    + destruct r as [[] | x]; unfold stop_notify_done, cleanup_disconnect;
        cbn; unfold emit, emits; cbn; rewrite <- app_assoc; reflexivity.
    + destruct r as [[] | x];
        unfold sweep_then_status, status_after_teardown;
        worker_crunch; eexists; (split; [eassumption |]);
        (split; [eassumption |]); rewrite <- ?app_assoc; auto.
  - intros w1 r.
    destruct w1 as [h ls stop dbg dv cl scl nt disc conn tr].
    cbn [step].
    destruct r as [[] | x];
      unfold sweep_then_status, status_after_teardown;
      worker_crunch; eexists; (split; [eassumption |]);
      (split; [eassumption |]); rewrite <- ?app_assoc; auto.
Qed.

Example link_drop_teardown :
  run source_config be_ok (_ble_main fresh_world) (take 6 link_drop_script)
  = (AwaitStopNotify Fallthrough, teardown_world).
Proof. vm_compute. reflexivity. Qed.

(** The last step of [link_drop_script]: the teardown of a dropped link
    with Right Steer held. *)
Lemma release_after_teardown_witness :
  sweep_then_status teardown_world "[BLE] Notifications stopped."
    (step source_config be_ok (AwaitStopNotify Fallthrough, teardown_world)
          (StopNotifyDone (Ret tt))).
Proof.
  assert (Hrun : run source_config be_ok (_ble_main fresh_world)
                   (take 3 link_drop_script)
                 = (AwaitListenSleep, listening_world))
    by (vm_compute; reflexivity).
  pose proof (release_after_teardown source_config be_ok fresh_world
                (take 3 link_drop_script) listening_world Hrun) as (_ & H & _).
  exact (H teardown_world (Ret tt)).
Defined.

(** ** Reconnection *)

(** After a first successful connection and a link drop, with stop never
    requested, the worker ends on its own: with "Error" when the next
    [start_notify] raises, and with "Not found" when the next connect
    attempt ends not connected and the scan that follows finds nothing. *)
Lemma reconnect_gives_up :
  (let c := run source_config be_ok (_ble_main fresh_world)
                subscribe_failure_script in
   fst c = Failed "subscribe failed"
   /\ stop_event (snd c) = false
   /\ statuses (trace (snd c)) = ["Connected"; "Reconnecting…"; "Error"])
  /\ (let c := run source_config be_ok (_ble_main fresh_world)
                   rescan_not_found_script in
      fst c = Returned
      /\ stop_event (snd c) = false
      /\ statuses (trace (snd c))
         = ["Connected"; "Reconnecting…"; "Error"; "Not found"]).
Proof. vm_compute. repeat split; reflexivity. Qed.

(** C6, as the code has it.  At any point of a run of the worker:
    - a dropped link seen by the listening loop, stop not requested, goes
      through the teardown into the "Reconnecting…" status and a sleep of
      the fixed [RECONNECT_DELAY_S];
    - when that delay has elapsed, stop still not requested, the worker
      connects again to the same device, without scanning;
    - a connect attempt that ends not connected, stop not requested, puts
      the "Error" status, sleeps the same fixed delay, and scans again;
    - the worker ends only in these ways: it returns when stop is
      requested or when a scan finds no device, and it fails when a scan,
      a connect or a start_notify raises. *)
Theorem reconnect_policy (cfg : config) (be : backend) (w0 : world)
    (es : list env_event) (p : pc) (w : world) :
  run cfg be (_ble_main w0) es = (p, w) ->
  (p = AwaitListenSleep -> stop_event w = false ->
   disconnected_event w = true -> is_connected w = false ->
   forall r, exists t,
     let c' := run cfg be (p, w) [Slept; StopNotifyDone r] in
     fst c' = AwaitReconnectSleep
     /\ trace (snd c')
        = trace w ++ t ++ [ MsgqPut (Status "Reconnecting…" "orange");
                            MsgqPut (Log "[BLE] Will retry in 1.5s…");
                            Sleep RECONNECT_DELAY_S ]
     /\ dev (snd c') = dev w /\ stop_event (snd c') = false)
  /\ (p = AwaitReconnectSleep -> stop_event w = false ->
      exists d, dev w = Some d
        /\ fst (step cfg be (p, w) Slept) = AwaitConnect
        /\ trace (snd (step cfg be (p, w) Slept))
           = trace w ++ [MsgqPut (Log (found_log d)); Transport (Connect d)]
        /\ dev (snd (step cfg be (p, w) Slept)) = Some d)
  /\ (p = AwaitConnect -> stop_event w = false ->
      exists sweep,
        let c' := run cfg be (p, w) [ConnectDone (Ret false); Slept] in
        fst c' = AwaitScan
        /\ trace (snd c')
           = trace w ++ [ MsgqPut (Log "[BLE] Failed to connect.");
                          MsgqPut (Status "Error" "red");
                          Sleep RECONNECT_DELAY_S ]
             ++ sweep
             ++ [ SetStatus "Scanning…" "orange";
                  MsgqPut (Log "[BLE] Scanning...");
                  Transport (Discover SCAN_TIMEOUT_S) ]
        /\ Forall (fun o => is_key_up_obs o = true) sweep)
  /\ (terminal p = false ->
      forall e,
        let c' := step cfg be (p, w) e in
        (fst c' = Returned ->
           stop_event w = true
           \/ (p = AwaitScan
               /\ exists devices, e = ScanDone (Ret devices)
                    /\ find_device_by_prefix DEVICE_NAME_PREFIX devices = None))
        /\ (forall x, fst c' = Failed x ->
              (p = AwaitScan /\ e = ScanDone (Exc x))
              \/ (p = AwaitConnect /\ e = ConnectDone (Exc x))
              \/ (p = AwaitStartNotify /\ e = StartNotifyDone (Exc x))
              \/ (p = AwaitDisconnect (Propagate x)
                  /\ exists r, e = DisconnectDone r))
        /\ (forall x, fst c' = AwaitDisconnect (Propagate x) ->
              p = AwaitDisconnect (Propagate x)
              \/ (p = AwaitConnect /\ e = ConnectDone (Exc x))
              \/ (p = AwaitStartNotify /\ e = StartNotifyDone (Exc x)))).
Proof.
  intros Hrun.
  pose proof (worker_inv_reachable cfg be w0 es) as Hinv.
  rewrite Hrun in Hinv. clear Hrun.
  split; [| split; [| split]].
  - intros -> Hstop Hdisc Hconn r. cbn in Hinv. destruct Hinv as (Hc & Hn & Hd).
    destruct w as [h ls stop dbg dv cl scl nt disc conn tr]; cbn in *; subst.
    destruct r as [[] | x]; cbn; worker_crunch;
      match goal with H : Forall _ ?t |- _ => eexists (_ :: _ :: t) end;
      (split; [reflexivity |]); (split; [| auto]);
      rewrite <- !app_assoc; reflexivity.
  - intros -> Hstop. cbn in Hinv. destruct Hinv as ([d Hd] & _).
    exists d. split; [exact Hd |].
    destruct w as [h ls stop dbg dv cl scl nt disc conn tr]; cbn in *; subst.
    unfold found_log, loop_head, begin_attempt. cbn.
    rewrite <- app_assoc. auto.
  - intros -> Hstop. cbn in Hinv. destruct Hinv as (Hc & Hn & Hd).
    destruct w as [h ls stop dbg dv cl scl nt disc conn tr]; cbn in *; subst.
    cbn. worker_crunch.
    match goal with H : Forall _ ?t |- _ => exists t end.
    split; [reflexivity |]. rewrite <- !app_assoc. split; [reflexivity | assumption].
  - intros Hterm e.
    destruct w as [h ls stop dbg dv cl scl nt disc conn tr].
    destruct p; try discriminate; cbn in Hinv;
      destruct e; cbn [step subscribed fst];
      try solve [repeat split; intros; (discriminate || auto)].
    all: try match goal with r : res _ |- _ => destruct r as [? | ?] end.
    all: try match goal with k : after_cleanup |- _ => destruct k end.
    all: cbn in *; worker_crunch;
      repeat split; intros; try discriminate;
      repeat match goal with
        | H : Failed _ = Failed _ |- _ => injection H as <-
        | H : AwaitDisconnect _ = AwaitDisconnect _ |- _ => injection H as <-
        end;
      try solve [intuition congruence]; eauto 10.
Qed.

(** A link dropped while listening, stop not requested: the teardown ends
    in the reconnect delay. *)
Lemma reconnect_policy_witness :
  exists t,
    let c' := run source_config be_ok (AwaitListenSleep, dropped_world)
                  [Slept; StopNotifyDone (Ret tt)] in
    fst c' = AwaitReconnectSleep
    /\ trace (snd c')
       = trace dropped_world ++ t
         ++ [ MsgqPut (Status "Reconnecting…" "orange");
              MsgqPut (Log "[BLE] Will retry in 1.5s…");
              Sleep RECONNECT_DELAY_S ]
    /\ dev (snd c') = dev dropped_world /\ stop_event (snd c') = false.
Proof.
  assert (Hrun : run source_config be_ok (_ble_main fresh_world)
                   [ScanDone (Ret [kickr]); ConnectDone (Ret true);
                    StartNotifyDone (Ret tt); LinkDropped]
                 = (AwaitListenSleep, dropped_world))
    by (vm_compute; reflexivity).
  pose proof (reconnect_policy source_config be_ok fresh_world _ _ _ Hrun)
    as (P1 & _).
  apply P1; vm_compute; reflexivity.
Defined.

(** ** Stopping *)

Lemma key_ups_no_transport (t : list obs) :
  Forall (fun o => is_key_up_obs o = true) t ->
  Forall (fun o => is_discover o = false) t
  /\ Forall (fun o => is_connect o = false) t.
Proof.
  intros H. split; (eapply Forall_impl; [exact H |]);
    intros [[]| | | |]; cbn; congruence.
Qed.

Lemma handler_obs_no_transport (t : list obs) :
  Forall (fun o => handler_obs o = true) t ->
  Forall (fun o => is_discover o = false) t
  /\ Forall (fun o => is_connect o = false) t.
Proof.
  intros H. split; (eapply Forall_impl; [exact H |]);
    intros [| | | |]; cbn; congruence.
Qed.

(** Stop is requested while the first scan is still in progress; the scan
    then finds the device, and the worker starts a connect attempt. *)
Lemma connect_started_after_stop :
  stop_event stopped_scanning_world = true
  /\ step source_config be_ok (AwaitScan, stopped_scanning_world)
          (ScanDone (Ret [kickr]))
     = (AwaitConnect,
        emits [ MsgqPut (Log (found_log kickr)); Transport (Connect kickr) ]
          (set_client true (set_dev (Some kickr) stopped_scanning_world)))
  /\ fst (run source_config be_ok (AwaitScan, stopped_scanning_world)
             [ScanDone (Ret [])]) = Returned
  /\ statuses (trace (snd (run source_config be_ok
                             (AwaitScan, stopped_scanning_world)
                             [ScanDone (Ret [])])))
     = ["Not found"].
Proof. vm_compute. repeat split; reflexivity. Qed.

Ltac finish_forall :=
  repeat first [ assumption
               | apply Forall_app; split
               | constructor; [reflexivity |]
               | constructor ].

Ltac note_sweeps :=
  repeat match goal with
    | H : Forall (fun o => is_key_up_obs o = true) ?t |- _ =>
        destruct (key_ups_no_transport t H); clear H
    end.

(** C7, as the code has it.  Once stop is requested it stays requested,
    and every later step of the worker starts no scan; it starts a connect
    attempt only when the step completes a scan that was in progress when
    stop was requested.  Each awaited completion then brings the worker
    strictly closer to its end, and nothing else moves it, so it ends
    after at most [rank p] completions.  In particular, when stop is
    requested during the reconnect delay, the worker returns as soon as
    the delay elapses, and does nothing else. *)
Theorem stop_drains (cfg : config) (be : backend) (p : pc) (w : world)
    (e : env_event) :
  stop_event w = true ->
  let c' := step cfg be (p, w) e in
  let t := emitted w (snd c') in
  stop_event (snd c') = true
  /\ trace (snd c') = trace w ++ t
  /\ Forall (fun o => is_discover o = false) t
  /\ (Forall (fun o => is_connect o = false) t
      \/ (p = AwaitScan /\ exists devices, e = ScanDone (Ret devices)))
  /\ (awaited p e = true -> (rank (fst c') < rank p)%nat)
  /\ (awaited p e = false -> fst c' = p)
  /\ (rank (fst c') = 0%nat <-> terminal (fst c') = true)
  /\ (p = AwaitReconnectSleep -> e = Slept -> c' = (Returned, w)).
Proof.
  intros Hstop c' t. subst t c'.
  assert (Hrank : forall q, rank q = 0%nat <-> terminal q = true).
  { intros q. destruct q; cbn; split; intros; (discriminate || reflexivity). }
  destruct e.
  1-3: destruct w as [h ls stop dbg dv cl scl nt disc conn tr];
       cbn in *; subst; unfold emitted; cbn; rewrite drop_all, app_nil_r;
       repeat split; auto; try apply Hrank; try discriminate;
       destruct p; cbn; intros; (discriminate || apply Hrank; auto).
  1: { (* Notified *)
    cbn [step]. destruct (subscribed p) eqn:Hs.
    - pose proof (handled_notification_handler cfg be data w)
        as [Hc (t & Ht & Hf)].
      destruct Hc as (Hst & _).
      destruct (handler_obs_no_transport t Hf).
      cbn [fst snd]. unfold emitted. rewrite Ht, drop_app_length, Hst.
      repeat split; auto; try apply Hrank;
        destruct p; cbn; intros; (discriminate || apply Hrank; auto).
    - cbn [fst snd]. unfold emitted. rewrite drop_all, app_nil_r.
      repeat split; auto; try apply Hrank;
        destruct p; cbn; intros; (discriminate || apply Hrank; auto). }
  all: destruct w as [h ls stop dbg dv cl scl nt disc conn tr];
    cbn in Hstop; subst stop.
  all: destruct p; cbn [step];
    try solve [ cbn [fst snd]; unfold emitted; rewrite drop_all, app_nil_r;
                repeat split; auto; try apply Hrank; try discriminate;
                cbn; intros; (discriminate || apply Hrank; auto) ].
  all: try match goal with r : res _ |- _ => destruct r as [? | ?] end.
  all: try match goal with k : after_cleanup |- _ => destruct k end.
  all: cbn; worker_crunch; unfold emitted; cbn [trace length];
    rewrite <- ?app_assoc, ?drop_app_length, ?drop_all, ?app_nil_r;
    note_sweeps;
    repeat split; auto; try apply Hrank; try discriminate;
    try solve [finish_forall];
    try solve [left; finish_forall];
    try solve [right; eauto];
    try solve [intros; cbn; lia].
Qed.

(** Stop requested during the reconnect delay: when the delay elapses the
    worker returns, and nothing is added to the trace. *)
Lemma stop_drains_witness :
  stop_event stopped_reconnecting_world = true
  /\ fst (run source_config be_ok (_ble_main fresh_world)
             [ScanDone (Ret [kickr]); ConnectDone (Ret true);
              StartNotifyDone (Ret tt); LinkDropped; Slept;
              StopNotifyDone (Ret tt); StopRequested])
     = AwaitReconnectSleep
  /\ step source_config be_ok (AwaitReconnectSleep, stopped_reconnecting_world)
          Slept
     = (Returned, stopped_reconnecting_world).
Proof.
  assert (Hstop : stop_event stopped_reconnecting_world = true)
    by (vm_compute; reflexivity).
  split; [exact Hstop |]. split; [vm_compute; reflexivity |].
  pose proof (stop_drains source_config be_ok AwaitReconnectSleep
                stopped_reconnecting_world Slept Hstop)
    as (_ & _ & _ & _ & _ & _ & _ & H).
  exact (H eq_refl eq_refl).
Defined.

(** * Further properties *)

(** ** Key names *)

Lemma KEY_NAME_MAP_values (k m : string) :
  KEY_NAME_MAP !! k = Some m -> truthy m = true /\ KEY_NAME_MAP !! m = None.
Proof.
  intros H. apply elem_of_list_to_map_2 in H.
  repeat (apply elem_of_cons in H as [H | H];
          [injection H as -> ->; split; reflexivity |]).
  apply elem_of_nil in H as [].
Qed.

Lemma truthy_empty (s : string) : truthy s = false <-> s = "".
Proof.
  unfold truthy. rewrite negb_false_iff. apply String.eqb_eq.
Qed.

Lemma KEY_NAME_MAP_keys (k m : string) :
  KEY_NAME_MAP !! k = Some m -> truthy k = true.
Proof.
  intros H. apply elem_of_list_to_map_2 in H.
  repeat (apply elem_of_cons in H as [H | H];
          [injection H as -> ->; reflexivity |]).
  apply elem_of_nil in H as [].
Qed.

Lemma to_pydi_key_mapped (key_name mapped : string) :
  KEY_NAME_MAP !! key_name = Some mapped -> _to_pydi_key key_name = Some mapped.
Proof.
  intros Hm. unfold _to_pydi_key.
  rewrite (KEY_NAME_MAP_keys _ _ Hm), Hm. cbn [negb].
  now destruct (KEY_NAME_MAP_values _ _ Hm) as [-> _].
Qed.

Lemma to_pydi_key_plain (key_name : string) :
  key_name <> "" -> KEY_NAME_MAP !! key_name = None ->
  _to_pydi_key key_name = Some key_name.
Proof.
  intros Hne Hm. unfold _to_pydi_key. rewrite Hm.
  destruct (truthy key_name) eqn:Ht; [reflexivity |].
  now apply truthy_empty in Ht.
Qed.

(** X1. [_to_pydi_key] answers [None] for the empty name only.  A name
    that [KEY_NAME_MAP] lists gets the key listed for it; any other
    non-empty name gets itself.  The key returned is never empty, it is
    usable, and [_to_pydi_key] maps it to itself. *)
Theorem to_pydi_key_spec (key_name : string) :
  (_to_pydi_key key_name = None <-> key_name = "")
  /\ (forall mapped, KEY_NAME_MAP !! key_name = Some mapped ->
        _to_pydi_key key_name = Some mapped)
  /\ (key_name <> "" -> KEY_NAME_MAP !! key_name = None ->
        _to_pydi_key key_name = Some key_name)
  /\ (forall pk, _to_pydi_key key_name = Some pk ->
        truthy pk = true
        /\ _to_pydi_key pk = Some pk
        /\ usable (_to_pydi_key key_name) = Some pk).
Proof.
  split; [| split; [apply to_pydi_key_mapped |
                    split; [apply to_pydi_key_plain |]]].
  - unfold _to_pydi_key.
    destruct (truthy key_name) eqn:Ht; cbn [negb].
    + split.
      * repeat break_match; discriminate.
      * intros ->. discriminate.
    + split; [intros _; now apply truthy_empty | reflexivity].
  - intros pk. unfold _to_pydi_key.
    destruct (truthy key_name) eqn:Ht; cbn [negb]; [| discriminate].
    destruct (KEY_NAME_MAP !! key_name) as [m |] eqn:Hm.
    + destruct (KEY_NAME_MAP_values _ _ Hm) as [Htm Hnone].
      rewrite Htm. intros [= E]. subst pk. rewrite Htm, Hnone.
      cbn [negb usable]. rewrite Htm. repeat split; congruence.
    + intros [= E]. subst pk. rewrite Ht, Hm. cbn [negb usable]. rewrite Ht.
      repeat split; reflexivity.
Qed.

Lemma to_pydi_key_spec_witness :
  _to_pydi_key "ArrowRight" = Some "right"
  /\ _to_pydi_key "k" = Some "k"
  /\ truthy "right" = true
  /\ _to_pydi_key "right" = Some "right".
Proof.
  destruct (to_pydi_key_spec "ArrowRight") as (_ & Hmapped & _ & Hkey).
  destruct (to_pydi_key_spec "k") as (_ & _ & Hplain & _).
  pose proof (Hmapped "right" eq_refl) as E.
  destruct (Hkey "right" E) as (H1 & H2 & _).
  split; [exact E |].
  split; [apply Hplain; [discriminate | reflexivity] |].
  split; [exact H1 | exact H2].
Defined.

(** ** The registry as a dict *)

Lemma dict_set_absent (d : list (string * string)) (k v : string) :
  dict_get d k = None -> dict_set d k v = d ++ [(k, v)].
Proof.
  induction d as [| [k' v'] d IH]; cbn; [reflexivity |].
  destruct (String.eqb k' k); [discriminate |].
  intros H. now rewrite IH.
Qed.

Lemma dict_get_app_absent (d : list (string * string)) (k k' v : string) :
  k' <> k -> dict_get (d ++ [(k, v)]) k' = dict_get d k'.
Proof.
  intros Hne. induction d as [| [k0 v0] d IH]; cbn.
  - destruct (String.eqb_spec k k'); congruence.
  - now rewrite IH.
Qed.

Lemma dict_remove_app_absent (d : list (string * string)) (k v : string) :
  dict_get d k = None -> dict_remove (d ++ [(k, v)]) k = d.
Proof.
  induction d as [| [k' v'] d IH]; cbn.
  - now rewrite String.eqb_refl.
  - destruct (String.eqb k' k); [discriminate |].
    intros H. now rewrite IH.
Qed.

Lemma dict_get_remove_ne (d : list (string * string)) (k k' : string) :
  k' <> k -> dict_get (dict_remove d k) k' = dict_get d k'.
Proof.
  intros Hne. induction d as [| [k0 v0] d IH]; cbn; [reflexivity |].
  destruct (String.eqb_spec k0 k) as [-> | Hk].
  - rewrite IH. destruct (String.eqb_spec k k'); congruence.
  - cbn. now rewrite IH.
Qed.

Lemma send_key_down_held (be : backend) (k : string) (w : world) :
  _HELD_BY_BUTTON (snd (send_key_down be k w)) = _HELD_BY_BUTTON w.
Proof.
  unfold send_key_down, inject, ret. repeat break_match; reflexivity.
Qed.

Lemma hold_if_needed_held (be : backend) (name key : string) (w : world) :
  dict_get (_HELD_BY_BUTTON w) name = None ->
  match fst (hold_if_needed be name key w) with
  | Ret _ => _HELD_BY_BUTTON (snd (hold_if_needed be name key w))
             = _HELD_BY_BUTTON w ++ [(name, key)]
  | Exc _ => _HELD_BY_BUTTON (snd (hold_if_needed be name key w))
             = _HELD_BY_BUTTON w
  end.
Proof.
  intros Hnone. unfold hold_if_needed, bind, modify. rewrite Hnone.
  pose proof (send_key_down_held be key w) as Hh.
  destruct (send_key_down be key w) as [[[] | e] w1]; cbn in *.
  - rewrite Hh. now apply dict_set_absent.
  - exact Hh.
Qed.

Lemma hold_if_needed_no_key (be : backend) (name key : string) (w : world) :
  dict_get (_HELD_BY_BUTTON w) name = None ->
  usable (_to_pydi_key key) = None ->
  hold_if_needed be name key w
  = (Ret tt, set_held (_HELD_BY_BUTTON w ++ [(name, key)]) w).
Proof.
  intros Hnone Hpk. unfold hold_if_needed, bind, send_key_down, modify, ret.
  rewrite Hnone, Hpk. now rewrite dict_set_absent.
Qed.

Lemma hold_if_needed_key (be : backend) (name key pk : string) (w : world) :
  dict_get (_HELD_BY_BUTTON w) name = None ->
  usable (_to_pydi_key key) = Some pk ->
  hold_if_needed be name key w
  = match be (length (filter (fun o => is_inject o = true) (trace w)))
             (KeyDown pk) with
    | None => (Ret tt, set_held (_HELD_BY_BUTTON w ++ [(name, key)])
                                (emit (Inject (KeyDown pk) true) w))
    | Some e => (Exc e, emit (Inject (KeyDown pk) false) w)
    end.
Proof.
  intros Hnone Hpk. unfold hold_if_needed, bind, send_key_down, modify, inject.
  rewrite Hnone, Hpk. destruct (be _ (KeyDown pk)); [reflexivity |].
  cbn [_HELD_BY_BUTTON emit]. now rewrite dict_set_absent.
Qed.

(** X2. [hold_if_needed] does nothing for a button that is already in the
    registry, whatever key is passed: no call, no change.  For a button
    that is not, and a key name with a pydirectinput key, it makes
    exactly one call, the keyDown of that key: if the call returns, the
    entry is appended after the existing ones; if it raises, the
    exception goes to the caller and the registry is left as it was.
    For a button that is not in the registry and an empty key name it
    makes no call and records the entry all the same.  Nothing else of
    the state changes; entries of other buttons are never touched, and a
    second call after a first that returned does nothing. *)
Theorem hold_if_needed_spec (be : backend) (name key : string) (w : world) :
  let r := hold_if_needed be name key w in
  (is_Some (dict_get (_HELD_BY_BUTTON w) name) -> r = (Ret tt, w))
  /\ (dict_get (_HELD_BY_BUTTON w) name = None ->
      match usable (_to_pydi_key key) with
      | Some pk =>
          match be (length (filter (fun o => is_inject o = true) (trace w)))
                   (KeyDown pk) with
          | None =>
              fst r = Ret tt
              /\ trace (snd r) = trace w ++ [Inject (KeyDown pk) true]
              /\ _HELD_BY_BUTTON (snd r) = _HELD_BY_BUTTON w ++ [(name, key)]
          | Some e =>
              fst r = Exc e
              /\ trace (snd r) = trace w ++ [Inject (KeyDown pk) false]
              /\ _HELD_BY_BUTTON (snd r) = _HELD_BY_BUTTON w
          end
      | None =>
          fst r = Ret tt
          /\ trace (snd r) = trace w
          /\ _HELD_BY_BUTTON (snd r) = _HELD_BY_BUTTON w ++ [(name, key)]
      end)
  /\ _last_seq (snd r) = _last_seq w
  /\ same_control w (snd r)
  /\ (forall other, other <> name ->
        dict_get (_HELD_BY_BUTTON (snd r)) other
        = dict_get (_HELD_BY_BUTTON w) other)
  /\ (forall key', fst r = Ret tt ->
        hold_if_needed be name key' (snd r) = (Ret tt, snd r)).
Proof.
  cbn zeta.
  assert (Hheld : is_Some (dict_get (_HELD_BY_BUTTON w) name) ->
                  hold_if_needed be name key w = (Ret tt, w)).
  { intros [k Hk]. unfold hold_if_needed. now rewrite Hk. }
  split; [exact Hheld |].
  split.
  { intros Hnone. destruct (usable (_to_pydi_key key)) as [pk |] eqn:Hpk.
    - rewrite (hold_if_needed_key be name key pk w Hnone Hpk).
      destruct (be _ (KeyDown pk)); cbn; auto.
    - rewrite (hold_if_needed_no_key be name key w Hnone Hpk). cbn. auto. }
  destruct (injected_hold_if_needed be name key w) as (Hctl & Hseq & _).
  split; [exact Hseq |]. split; [exact Hctl |].
  destruct (dict_get (_HELD_BY_BUTTON w) name) as [k |] eqn:Hget.
  - rewrite (Hheld (ltac:(eauto))). cbn. split; [reflexivity |].
    intros key' _. unfold hold_if_needed. now rewrite Hget.
  - pose proof (hold_if_needed_held be name key w Hget) as Hh.
    destruct (hold_if_needed be name key w) as [[[] | e] w1]; cbn in *.
    + split.
      * intros other Hne. rewrite Hh. now apply dict_get_app_absent.
      * intros key' _. unfold hold_if_needed. rewrite Hh.
        rewrite <- (dict_set_absent _ _ _ Hget), dict_get_set. reflexivity.
    + split; [intros; now rewrite Hh | discriminate].
Qed.

Lemma hold_if_needed_spec_witness :
  let w := set_held [("Right Steer", "ArrowRight")] fresh_world in
  hold_if_needed be_ok "Right Steer" "ArrowLeft" w = (Ret tt, w)
  /\ trace (snd (hold_if_needed be_ok "Left Steer" "ArrowLeft" w))
     = [Inject (KeyDown "left") true]
  /\ _HELD_BY_BUTTON (snd (hold_if_needed be_ok "Left Steer" "ArrowLeft" w))
     = [("Right Steer", "ArrowRight"); ("Left Steer", "ArrowLeft")].
Proof.
  cbn zeta. split.
  - apply (hold_if_needed_spec be_ok "Right Steer" "ArrowLeft"
             (set_held [("Right Steer", "ArrowRight")] fresh_world)).
    cbn. eauto.
  - pose proof (proj1 (proj2 (hold_if_needed_spec be_ok "Left Steer" "ArrowLeft"
                  (set_held [("Right Steer", "ArrowRight")] fresh_world)))
                eq_refl) as (_ & Ht & Hh).
    split; [exact Ht | exact Hh].
Defined.

(** A keyDown that raises, and a button configured with the empty key. *)
Example hold_if_needed_raising :
  hold_if_needed be_first_raises "Right Steer" "ArrowRight" fresh_world
  = (Exc "fail-safe triggered",
     emit (Inject (KeyDown "right") false) fresh_world).
Proof. reflexivity. Qed.

Example hold_if_needed_empty_key :
  hold_if_needed be_ok "Right Steer" "" fresh_world
  = (Ret tt, set_held [("Right Steer", "")] fresh_world).
Proof. reflexivity. Qed.

(** X3. Holding and then releasing a button gives the key back: from a
    registry without the button, a [hold_if_needed] whose keyDown returns
    followed by [release_if_held] issues keyDown and then keyUp for one
    and the same pydirectinput key, and leaves the registry exactly as it
    was before. *)
Theorem hold_release_round_trip (be : backend) (name key : string) (w : world) :
  truthy key = true ->
  dict_get (_HELD_BY_BUTTON w) name = None ->
  fst (hold_if_needed be name key w) = Ret tt ->
  let w2 := snd (release_if_held be name (snd (hold_if_needed be name key w))) in
  exists pk ok,
    _to_pydi_key key = Some pk
    /\ trace w2 = trace w ++ [Inject (KeyDown pk) true; Inject (KeyUp pk) ok]
    /\ _HELD_BY_BUTTON w2 = _HELD_BY_BUTTON w.
Proof.
  intros Hkey Hnone Hret. cbn zeta.
  destruct (hold_if_needed_absent be name key w Hkey Hnone) as (pk & Hpk & H).
  destruct (be _ (KeyDown pk)) as [e |].
  { rewrite H in Hret. discriminate. }
  rewrite H. cbn [snd].
  set (w1 := set_held _ _).
  assert (Hget : dict_get (_HELD_BY_BUTTON w1) name = Some key).
  { subst w1. cbn. apply dict_get_set. }
  destruct (release_if_held_present be name key pk w1 Hget Hpk Hkey)
    as (r & ok & E).
  rewrite E. exists pk, ok. split; [| split].
  - now apply usable_truthy in Hpk as [? _].
  - subst w1. cbn. now rewrite <- app_assoc.
  - subst w1. cbn. rewrite dict_set_absent by assumption.
    now apply dict_remove_app_absent.
Qed.

Lemma hold_release_round_trip_witness :
  let w := set_held [("Left Steer", "ArrowLeft")] fresh_world in
  exists pk ok,
    _to_pydi_key "ArrowRight" = Some pk
    /\ trace (snd (release_if_held be_ok "Right Steer"
                     (snd (hold_if_needed be_ok "Right Steer" "ArrowRight" w))))
       = trace w ++ [Inject (KeyDown pk) true; Inject (KeyUp pk) ok]
    /\ _HELD_BY_BUTTON
         (snd (release_if_held be_ok "Right Steer"
                 (snd (hold_if_needed be_ok "Right Steer" "ArrowRight" w))))
       = _HELD_BY_BUTTON w.
Proof.
  cbn zeta.
  apply (hold_release_round_trip be_ok "Right Steer" "ArrowRight"
           (set_held [("Left Steer", "ArrowLeft")] fresh_world));
    vm_compute; reflexivity.
Defined.

(** ** More on the de-duplication table *)

(** X4. [already_handled] reads and writes one entry of the table, the one
    of its own (prefix, type): the answer for any other prefix or type is
    not affected, so a press never hides the release that reuses its
    sequence number, and two calls on different entries can be swapped. *)
Theorem already_handled_independent (prefix ev_type : string) (seq : Z)
    (prefix' ev_type' : string) (seq' : Z) (w : world) :
  (prefix', ev_type') <> (prefix, ev_type) ->
  let w1 := snd (already_handled prefix ev_type seq w) in
  _last_seq w1 !! (prefix', ev_type') = _last_seq w !! (prefix', ev_type')
  /\ fst (already_handled prefix' ev_type' seq' w1)
     = fst (already_handled prefix' ev_type' seq' w)
  /\ snd (already_handled prefix' ev_type' seq' w1)
     = snd (already_handled prefix ev_type seq
              (snd (already_handled prefix' ev_type' seq' w))).
Proof.
  intros Hne. cbn zeta.
  assert (H1 : _last_seq (snd (already_handled prefix ev_type seq w))
               !! (prefix', ev_type') = _last_seq w !! (prefix', ev_type')).
  { unfold already_handled. destruct (decide _); cbn; [reflexivity |].
    now rewrite lookup_insert_ne. }
  split; [exact H1 |].
  unfold already_handled in *. cbn zeta in *.
  destruct w as [h ls stop dbg dv cl scl nt disc conn tr].
  cbn in *.
  destruct (decide (ls !! (prefix, ev_type) = Some seq)) as [Ha | Ha];
    destruct (decide (ls !! (prefix', ev_type') = Some seq')) as [Hb | Hb];
    cbn in *;
    repeat match goal with
      | |- context [decide ?P] => destruct (decide P); cbn
      end;
    rewrite ?lookup_insert_ne in * by congruence;
    try congruence; try (split; reflexivity).
  split; [reflexivity |]. unfold set_last_seq. cbn. f_equal.
  apply insert_insert_ne. congruence.
Qed.

Lemma already_handled_independent_witness :
  let w1 := snd (already_handled "0008" "press" 5 fresh_world) in
  fst (already_handled "0008" "release" 5 w1) = Ret false.
Proof.
  cbn zeta.
  rewrite (proj1 (proj2 (already_handled_independent
             "0008" "press" 5 "0008" "release" 5 fresh_world
             ltac:(congruence)))).
  reflexivity.
Defined.

(** ** More on the notification handler *)

Lemma one_call_ret (w w' : world) :
  trace w' = trace w -> one_call w (Ret tt, w').
Proof.
  intros E. exists []. cbn. rewrite app_nil_r. split; [exact E | left; auto].
Qed.

Lemma one_call_inject (be : backend) (c : key_call) (w w' : world) :
  trace w' = trace w -> one_call w (inject be c w').
Proof.
  intros E. unfold inject. destruct (be _ c) as [e |]; cbn.
  - exists [Inject c false]. cbn. rewrite E. split; [reflexivity |].
    right; right. eauto.
  - exists [Inject c true]. cbn. rewrite E. split; [reflexivity |].
    right; left. eauto.
Qed.

Lemma dispatch_effects cfg be name ev_type w :
  one_call w (dispatch cfg be name ev_type w).
Proof.
  unfold dispatch. cbv zeta.
  destruct (String.eqb ev_type "press").
  - destruct (usable (button_key cfg name)) as [k |]; [| now apply one_call_ret].
    destruct (String.eqb (button_behavior cfg name) "tap").
    + unfold send_key_tap.
      destruct (usable (_to_pydi_key k));
        [now apply one_call_inject | now apply one_call_ret].
    + unfold hold_if_needed.
      destruct (dict_get (_HELD_BY_BUTTON w) name); [now apply one_call_ret |].
      unfold bind, modify, send_key_down.
      destruct (usable (_to_pydi_key k)) as [pk |]; [| now apply one_call_ret].
      destruct (one_call_inject be (KeyDown pk) w w eq_refl) as (t & Ht & Hc).
      exists t. destruct (inject be (KeyDown pk) w) as [[[] | e] w1]; cbn in *;
        split; assumption.
  - destruct (String.eqb (button_behavior cfg name) "hold");
      [| now apply one_call_ret].
    unfold release_if_held. cbv zeta.
    destruct (dict_get (_HELD_BY_BUTTON w) name) as [k |];
      [| now apply one_call_ret].
    destruct (truthy k); [| now apply one_call_ret].
    unfold send_key_up.
    destruct (usable (_to_pydi_key k));
      [now apply one_call_inject | now apply one_call_ret].
Qed.

(** X5. What one notification can do.  The handler changes none of the
    worker's connection variables nor the stop flag; it appends to the
    trace at most one log line, followed by at most one key-injection
    call; and it raises only when that call raised. *)
Theorem notification_handler_effects (cfg : config) (be : backend)
    (data : list Byte.byte) (w : world) :
  let r := notification_handler cfg be data w in
  same_control w (snd r)
  /\ exists t,
       trace (snd r) = trace w ++ t
       /\ ((t = [] /\ fst r = Ret tt)
           \/ (exists line, t = [MsgqPut (Log line)] /\ fst r = Ret tt)
           \/ (exists line c,
                 t = [MsgqPut (Log line); Inject c true] /\ fst r = Ret tt)
           \/ (exists line c e,
                 t = [MsgqPut (Log line); Inject c false] /\ fst r = Exc e)).
Proof.
  cbn zeta. split; [apply handled_notification_handler |].
  unfold notification_handler.
  destruct (parse_short_frame cfg data) as [evt |].
  - unfold bind, already_handled.
    destruct (decide _) as [Hd | Hd]; cbn.
    + exists []. split; [now rewrite app_nil_r | left; split; reflexivity].
    + unfold msgq_put, modify. cbn.
      match goal with
      | |- context [dispatch cfg be ?n ?ty ?W] =>
          destruct (dispatch_effects cfg be n ty W)
            as (t & Ht & [[-> Hr] | [(c & -> & Hr) | (c & e & -> & Hr)]]);
          rewrite Ht, Hr; cbn; rewrite <- app_assoc; cbn
      end.
      * eexists. split; [reflexivity |]. right; left. eauto.
      * eexists. split; [reflexivity |]. right; right; left. eauto.
      * eexists. split; [reflexivity |]. right; right; right. eauto.
  - destruct (debug_var w); cbn.
    + eexists. split; [reflexivity |]. right; left. eauto.
    + exists []. split; [now rewrite app_nil_r | left; split; reflexivity].
Qed.

(** X6. Delivering a decodable frame a second time, right after the first,
    does nothing at all, whether the first delivery was itself a
    duplicate, acted on a key, or ended in an exception of the key
    call: once the log line is due, the event counts as handled. *)
Theorem handler_redelivery (cfg : config) (be : backend)
    (data : list Byte.byte) (w : world) :
  is_Some (parse_short_frame cfg data) ->
  let w1 := snd (notification_handler cfg be data w) in
  notification_handler cfg be data w1 = (Ret tt, w1).
Proof.
  intros [evt Hp]. cbn zeta.
  apply (handler_duplicate cfg be data evt); [exact Hp |].
  destruct (decide (_last_seq w !! (ev_prefix evt, ev_type evt)
                    = Some (ev_seq evt))) as [Hd | Hd].
  - now rewrite (handler_duplicate cfg be data evt w Hp Hd).
  - rewrite (handler_accepted cfg be data evt w Hp Hd).
    rewrite dispatch_last_seq. cbn. apply lookup_insert_eq.
Qed.

Lemma handler_redelivery_witness :
  let w1 := snd (notification_handler source_config be_first_raises
                   [Byte.x00; Byte.x08; Byte.x81] fresh_world) in
  notification_handler source_config be_first_raises
    [Byte.x00; Byte.x08; Byte.x81] w1 = (Ret tt, w1).
Proof.
  apply (handler_redelivery source_config be_first_raises
           [Byte.x00; Byte.x08; Byte.x81] fresh_world).
  vm_compute. eauto.
Defined.

Example handler_redelivery_after_exception :
  let r := notification_handler source_config be_first_raises
             [Byte.x00; Byte.x08; Byte.x81] fresh_world in
  fst r = Exc "fail-safe triggered"
  /\ _HELD_BY_BUTTON (snd r) = []
  /\ trace (snd r) = [ MsgqPut (Log "[BLE] Right Steer press seq=1 (000881)");
                       Inject (KeyDown "right") false ].
Proof. vm_compute. repeat split; reflexivity. Qed.

(** ** One step of the worker, seen from the registry *)

Lemma emitted_app (w w' : world) (t : list obs) :
  trace w' = trace w ++ t -> emitted w w' = t.
Proof.
  intros E. unfold emitted. rewrite E. apply drop_app_length.
Qed.

Lemma key_up_sweep_obs (t : list obs) :
  Forall (fun o => is_key_up_obs o = true) t ->
  Forall (fun o => sweep_obs o = true) t.
Proof.
  intros H. eapply Forall_impl; [exact H |].
  intros [[] |  | | |]; cbn; congruence.
Qed.

Ltac norm_emitted :=
  unfold emitted; cbn [trace length]; rewrite <- ?app_assoc;
  rewrite ?drop_app_length, ?drop_all.

Ltac step_case_control :=
  right; left; repeat split; cbn; try congruence; try reflexivity;
  norm_emitted; try reflexivity; cbn; congruence.

Ltac step_case_sweep :=
  right; right; repeat split; cbn; try reflexivity;
  norm_emitted;
  [ rewrite ?calls_app; cbn; rewrite ?app_nil_r; assumption
  | repeat first [ apply Forall_app; split
                 | apply key_up_sweep_obs; assumption
                 | constructor; [reflexivity |]
                 | constructor ] ].

Lemma step_cases cfg be (p : pc) (w : world) (e : env_event) :
  let c' := step cfg be (p, w) e in
  trace (snd c') = trace w ++ emitted w (snd c')
  /\ ((exists data, e = Notified data /\ subscribed p = true
         /\ c' = (p, snd (notification_handler cfg be data w)))
      \/ (_HELD_BY_BUTTON (snd c') = _HELD_BY_BUTTON w
          /\ _last_seq (snd c') = _last_seq w
          /\ calls (emitted w (snd c')) = []
          /\ (in_session (fst c') = false -> in_session p = false))
      \/ (_HELD_BY_BUTTON (snd c') = []
          /\ _last_seq (snd c') = _last_seq w
          /\ calls (emitted w (snd c')) = held_key_ups (_HELD_BY_BUTTON w)
          /\ Forall (fun o => sweep_obs o = true) (emitted w (snd c')))).
Proof.
  cbn zeta.
  destruct e as [| b | | data | r | r | r | r | r |].
  4: { cbn [step]. destruct (subscribed p) eqn:Hs.
       - split.
         + destruct (handled_notification_handler cfg be data w)
             as (_ & t & Ht & _).
           cbn [snd]. now rewrite (emitted_app _ _ _ Ht).
         + left. eauto.
       - destruct w as [h ls stop dbg dv cl scl nt disc conn tr].
         split; [cbn; norm_emitted; now rewrite app_nil_r |].
         step_case_control. }
  all: destruct w as [h ls stop dbg dv cl scl nt disc conn tr].
  all: destruct p as [| | | | | k | k | | | e0]; cbn [step].
  all: try (split; [cbn; norm_emitted; now rewrite ?app_nil_r
                   | step_case_control ]).
  all: try destruct r as [a | e1]; try destruct k; cbn; worker_crunch.
  all: split; [norm_emitted; rewrite ?app_nil_r; reflexivity |].
  all: first [ step_case_control | step_case_sweep ].
Qed.

(** ** The dispatcher, case by case *)

Lemma usable_to_pydi (key pk : string) :
  usable (_to_pydi_key key) = Some pk -> _to_pydi_key key = Some pk.
Proof. intros H. now apply usable_truthy in H as [? _]. Qed.

Lemma dispatch_outcome_spec cfg be name ev_type w :
  exists t,
    trace (snd (dispatch cfg be name ev_type w)) = trace w ++ t
    /\ dispatch_outcome cfg name (_HELD_BY_BUTTON w)
         (_HELD_BY_BUTTON (snd (dispatch cfg be name ev_type w))) t.
Proof.
  assert (Hnil : forall w', trace w' = trace w ->
            _HELD_BY_BUTTON w' = _HELD_BY_BUTTON w ->
            exists t, trace w' = trace w ++ t
                      /\ dispatch_outcome cfg name (_HELD_BY_BUTTON w)
                           (_HELD_BY_BUTTON w') t).
  { intros w' E1 E2. exists []. rewrite app_nil_r. split; [exact E1 |].
    left. auto. }
  unfold dispatch. cbv zeta.
  destruct (String.eqb ev_type "press").
  - destruct (usable (button_key cfg name)) as [key |] eqn:Hkey;
      [| now apply Hnil].
    destruct (usable_truthy _ _ Hkey) as [_ Htr].
    destruct (to_pydi_usable key Htr) as [pk Hpk].
    destruct (String.eqb_spec (button_behavior cfg name) "tap") as [Hb | Hb].
    + unfold send_key_tap. rewrite Hpk.
      destruct (inject_spec be (KeyPress pk) w) as (r & ok & E & _).
      rewrite E. cbn. exists [Inject (KeyPress pk) ok].
      split; [reflexivity |]. right; left.
      exists key, pk, ok. repeat split; auto using usable_to_pydi.
    + destruct (dict_get (_HELD_BY_BUTTON w) name) as [k0 |] eqn:Hget.
      * unfold hold_if_needed. rewrite Hget. now apply Hnil.
      * destruct (hold_if_needed_absent be name key w Htr Hget)
          as (pk' & Hpk' & H).
        assert (pk' = pk) as -> by congruence.
        destruct (be _ (KeyDown pk)) as [e |]; rewrite H; cbn.
        -- exists [Inject (KeyDown pk) false]. split; [reflexivity |].
           right; right; left. exists key, pk, false.
           repeat split; auto using usable_to_pydi.
        -- exists [Inject (KeyDown pk) true]. split; [reflexivity |].
           right; right; left. exists key, pk, true.
           repeat split; auto using usable_to_pydi, dict_set_absent.
  - destruct (String.eqb_spec (button_behavior cfg name) "hold") as [Hb | Hb];
      [| now apply Hnil].
    destruct (dict_get (_HELD_BY_BUTTON w) name) as [key |] eqn:Hget.
    + destruct (truthy key) eqn:Htr.
      * destruct (to_pydi_usable key Htr) as [pk Hpk].
        destruct (release_if_held_present be name key pk w Hget Hpk Htr)
          as (r & ok & E).
        rewrite E. cbn. exists [Inject (KeyUp pk) ok].
        split; [reflexivity |]. right; right; right. exists key.
        repeat split; auto. right. exists pk, ok.
        repeat split; auto using usable_to_pydi.
      * unfold release_if_held. cbv zeta. rewrite Hget, Htr. cbn.
        exists []. rewrite app_nil_r. split; [reflexivity |].
        right; right; right. exists key. repeat split; auto.
    + rewrite release_if_held_absent by assumption. now apply Hnil.
Qed.

Lemma handler_outcome cfg be data w :
  let w' := snd (notification_handler cfg be data w) in
  exists l t,
    trace w' = trace w ++ l ++ t
    /\ calls l = []
    /\ ((_HELD_BY_BUTTON w' = _HELD_BY_BUTTON w /\ t = [])
        \/ exists prefix name,
             PREFIX_TO_BUTTON cfg !! prefix = Some name
             /\ dispatch_outcome cfg name (_HELD_BY_BUTTON w)
                  (_HELD_BY_BUTTON w') t).
Proof.
  cbn zeta. unfold notification_handler.
  destruct (parse_short_frame cfg data) as [evt |] eqn:Hp.
  - unfold bind, already_handled.
    destruct (decide _) as [Hd | Hd]; cbn.
    + exists [], []. rewrite app_nil_r. auto.
    + unfold msgq_put, modify. cbn.
      match goal with
      | |- context [dispatch cfg be ?n ?ty ?W] =>
          destruct (dispatch_outcome_spec cfg be n ty W) as (t & Ht & Ho)
      end.
      cbn in Ht, Ho.
      exists [MsgqPut (Log (event_log_line evt))], t.
      rewrite Ht, <- app_assoc. split; [reflexivity |].
      split; [reflexivity |]. right.
      exists (ev_prefix evt), (ev_name evt). split; [| exact Ho].
      unfold parse_short_frame in Hp.
      destruct data as [| p [| q [| r [| ? ?]]]]; try discriminate.
      destruct (PREFIX_TO_BUTTON cfg !! _) eqn:E; [| discriminate].
      injection Hp as <-. exact E.
  - destruct (debug_var w); cbn.
    + eexists [_], []. split; [reflexivity |]. auto.
    + exists [], []. rewrite app_nil_r. auto.
Qed.

(** ** Invariants of the registry *)

Lemma to_pydi_key_usable (k pk : string) :
  _to_pydi_key k = Some pk -> usable (_to_pydi_key k) = Some pk.
Proof.
  intros H. rewrite H. unfold _to_pydi_key in H.
  destruct (truthy k) eqn:Ht; cbn [negb] in H; [| discriminate].
  destruct (KEY_NAME_MAP !! k) as [m |] eqn:Hm.
  - destruct (KEY_NAME_MAP_values _ _ Hm) as [Htm _].
    rewrite Htm in H. injection H as <-. cbn. now rewrite Htm.
  - injection H as <-. cbn. now rewrite Ht.
Qed.

Lemma dict_get_elem (d : list (string * string)) (k v : string) :
  dict_get d k = Some v -> (k, v) ∈ d.
Proof.
  induction d as [| [k' v'] d IH]; cbn; [discriminate |].
  destruct (String.eqb_spec k' k) as [-> | Hne].
  - intros [= ->]. left.
  - intros H. right. auto.
Qed.

Lemma dict_get_absent (d : list (string * string)) (k : string) :
  dict_get d k = None -> k ∉ map fst d.
Proof.
  induction d as [| [k' v'] d IH]; cbn.
  - intros _. apply not_elem_of_nil.
  - destruct (String.eqb_spec k' k) as [-> | Hne]; [discriminate |].
    intros H. apply not_elem_of_cons. split; [congruence | auto].
Qed.

Lemma dict_remove_keys (d : list (string * string)) (k k' : string) :
  k' ∈ map fst (dict_remove d k) -> k' ∈ map fst d.
Proof.
  induction d as [| [k0 v0] d IH]; cbn; [auto |].
  destruct (String.eqb k0 k); cbn.
  - intros H. right. auto.
  - intros H. apply elem_of_cons in H as [-> | H]; [left | right; auto].
Qed.

Lemma dict_remove_NoDup (d : list (string * string)) (k : string) :
  NoDup (map fst d) -> NoDup (map fst (dict_remove d k)).
Proof.
  induction d as [| [k0 v0] d IH]; cbn; [auto |].
  intros H. apply NoDup_cons in H as [Hin Hnd].
  destruct (String.eqb k0 k); cbn; [auto |].
  apply NoDup_cons. split; [| auto].
  intros Hc. apply Hin. eapply dict_remove_keys, Hc.
Qed.

Lemma held_key_ups_elem (d : list (string * string)) (n k pk : string) :
  (n, k) ∈ d -> usable (_to_pydi_key k) = Some pk -> KeyUp pk ∈ held_key_ups d.
Proof.
  intros Hin Hpk. unfold held_key_ups. apply list_elem_of_omap.
  exists (n, k). split; [exact Hin |]. cbn. now rewrite Hpk.
Qed.

Lemma held_key_ups_inv (d : list (string * string)) (c : key_call) :
  c ∈ held_key_ups d ->
  exists n k pk, (n, k) ∈ d /\ usable (_to_pydi_key k) = Some pk /\ c = KeyUp pk.
Proof.
  unfold held_key_ups. intros H. apply list_elem_of_omap in H as ([n k] & Hin & H).
  cbn in H. destruct (usable (_to_pydi_key k)) as [pk |] eqn:E; [| discriminate].
  injection H as <-. exists n, k, pk. auto.
Qed.

Lemma dispatch_outcome_registry_ok cfg name prefix held held' t :
  PREFIX_TO_BUTTON cfg !! prefix = Some name ->
  registry_ok cfg held ->
  dispatch_outcome cfg name held held' t ->
  registry_ok cfg held'.
Proof.
  intros Hprefix [Hnd Hall]
    [[-> _] | [(key & pk & ok & -> & _) | [(key & pk & ok & Hk & Hb & Hpk & Hget & _ & ->)
      | (key & Hb & Hget & -> & _)]]]; try (split; assumption).
  - destruct ok; [| split; assumption]. split.
    + rewrite map_app. cbn. apply NoDup_app. split; [exact Hnd |].
      split; [| apply NoDup_singleton].
      intros x Hx Hx'. apply list_elem_of_singleton in Hx' as ->.
      now apply dict_get_absent in Hget.
    + apply Forall_app. split; [exact Hall |].
      constructor; [| constructor]. repeat split; cbn; eauto.
  - split; [now apply dict_remove_NoDup |].
    apply Forall_forall. intros [n k] Hin.
    apply dict_remove_elem in Hin as [Hin _].
    rewrite Forall_forall in Hall. now apply Hall.
Qed.

Lemma handler_registry_ok cfg be data w :
  registry_ok cfg (_HELD_BY_BUTTON w) ->
  registry_ok cfg (_HELD_BY_BUTTON (snd (notification_handler cfg be data w))).
Proof.
  intros Hok.
  destruct (handler_outcome cfg be data w)
    as (l & t & _ & _ & [[-> _] | (prefix & name & Hp & Ho)]); [exact Hok |].
  eapply dispatch_outcome_registry_ok; eauto.
Qed.

Lemma run_invariant cfg be (I : config_state -> Prop) :
  (forall c e, I c -> I (step cfg be c e)) ->
  forall es c, I c -> I (run cfg be c es).
Proof.
  intros Hstep es. unfold run.
  induction es as [| e es IH]; cbn; [auto |].
  intros c Hc. apply IH, Hstep, Hc.
Qed.

Lemma registry_ok_nil cfg : registry_ok cfg [].
Proof. split; constructor. Qed.

Lemma registry_ok_step cfg be (c : config_state) (e : env_event) :
  registry_ok cfg (_HELD_BY_BUTTON (snd c)) ->
  registry_ok cfg (_HELD_BY_BUTTON (snd (step cfg be c e))).
Proof.
  destruct c as [p w]. intros Hok.
  destruct (step_cases cfg be p w e)
    as (_ & [(data & -> & Hs & E) | [(E & _) | (E & _)]]); cbn [snd] in *.
  - rewrite E. cbn [snd]. now apply handler_registry_ok.
  - now rewrite E.
  - rewrite E. apply registry_ok_nil.
Qed.

Lemma ble_main_held (w0 : world) :
  _HELD_BY_BUTTON (snd (_ble_main w0)) = _HELD_BY_BUTTON w0
  /\ _last_seq (snd (_ble_main w0)) = _last_seq w0
  /\ calls (trace (snd (_ble_main w0))) = calls (trace w0)
  /\ in_session (fst (_ble_main w0)) = false.
Proof.
  destruct w0 as [h ls stop dbg dv cl scl nt disc conn tr].
  unfold _ble_main, loop_head. cbn. destruct stop; cbn;
    rewrite ?calls_app; cbn; rewrite ?app_nil_r; auto.
Qed.

(** X7. The registry only ever holds buttons that are not Tap, each with
    the key configured for it and at most once: this is kept by every
    step of the worker, whatever the frames received.  In particular a
    Tap button never has an entry. *)
Theorem registry_only_hold_buttons (cfg : config) (be : backend) (w0 : world)
    (es : list env_event) :
  registry_ok cfg (_HELD_BY_BUTTON w0) ->
  let w := snd (run cfg be (_ble_main w0) es) in
  registry_ok cfg (_HELD_BY_BUTTON w)
  /\ (forall name key,
        dict_get (_HELD_BY_BUTTON w) name = Some key ->
        button_behavior cfg name <> "tap"
        /\ usable (button_key cfg name) = Some key).
Proof.
  intros Hok. cbn zeta.
  assert (H : registry_ok cfg
                (_HELD_BY_BUTTON (snd (run cfg be (_ble_main w0) es)))).
  { apply (run_invariant cfg be
             (fun c => registry_ok cfg (_HELD_BY_BUTTON (snd c)))).
    - intros c e. apply registry_ok_step.
    - now rewrite (proj1 (ble_main_held w0)). }
  split; [exact H |].
  intros name key Hget. apply dict_get_elem in Hget.
  destruct H as [_ Hall]. rewrite Forall_forall in Hall.
  destruct (Hall _ Hget) as (_ & Hk & Hb). auto.
Qed.

Lemma registry_only_hold_buttons_witness :
  registry_ok source_config
    (_HELD_BY_BUTTON
       (snd (run source_config be_ok (_ble_main fresh_world)
               (take 4 link_drop_script)))).
Proof.
  apply (registry_only_hold_buttons source_config be_ok fresh_world
           (take 4 link_drop_script)).
  apply registry_ok_nil.
Defined.

(** ** Keys that are down *)

Lemma left_down_from_app (acc : bool) (pk : string) (a b : list obs) :
  left_down_from acc pk (a ++ b)
  = left_down_from (left_down_from acc pk a) pk b.
Proof.
  revert acc. induction a as [| [c ok | | | |] a IH]; intros acc; cbn; auto.
  destruct (String.eqb (call_key c) pk); auto.
Qed.

Lemma left_down_from_no_calls (acc : bool) (pk : string) (l : list obs) :
  calls l = [] -> left_down_from acc pk l = acc.
Proof.
  unfold calls.
  induction l as [| [c ok | | | |] l IH]; cbn; auto. discriminate.
Qed.

Lemma left_down_from_sweep (acc : bool) (pk : string) (t : list obs) :
  Forall (fun o => sweep_obs o = true) t ->
  left_down_from acc pk t = true ->
  acc = true /\ KeyUp pk ∉ calls t.
Proof.
  intros Hall. revert acc.
  induction Hall as [| o t Ho Hall IH]; intros acc; cbn.
  - intros ->. split; [reflexivity | apply not_elem_of_nil].
  - destruct o as [c ok | | | |]; cbn in *; try (now apply IH).
    destruct c as [k | k | k]; try discriminate. cbn.
    destruct (String.eqb_spec k pk) as [-> | Hne].
    + intros H. apply IH in H as [H _]. discriminate.
    + intros H. apply IH in H as [-> H]. split; [reflexivity |].
      apply not_elem_of_cons. split; [congruence | exact H].
Qed.

Lemma keys_accounted_dispatch cfg name held held' tr l t :
  calls l = [] ->
  dispatch_outcome cfg name held held' t ->
  keys_accounted held tr ->
  keys_accounted held' (tr ++ l ++ t).
Proof.
  intros Hl Ho [HT HJ].
  assert (Hld : forall pk, left_down pk (tr ++ l ++ t)
                           = left_down_from (left_down pk tr) pk t).
  { intros pk. unfold left_down.
    now rewrite !left_down_from_app, (left_down_from_no_calls _ _ l Hl). }
  destruct Ho as [[-> ->] | [(key & pk0 & ok & -> & _ & _ & _ & ->)
    | [(key & pk0 & ok & Hk & Hb & Hpk & Hget & -> & ->)
      | (key & Hb & Hget & -> & Hc)]]].
  - split; [exact HT |]. intros pk. rewrite Hld. cbn. apply HJ.
  - split; [exact HT |]. intros pk. rewrite Hld. cbn.
    destruct (String.eqb pk0 pk); [discriminate | apply HJ].
  - destruct (usable_truthy _ _ Hk) as [_ Htr].
    assert (Hnew : dict_get (held ++ [(name, key)]) name = Some key).
    { rewrite <- (dict_set_absent _ _ _ Hget). apply dict_get_set. }
    assert (Hold : forall n, n <> name ->
               dict_get (held ++ [(name, key)]) n = dict_get held n).
    { intros n Hn. now apply dict_get_app_absent. }
    split.
    + destruct ok; [| exact HT]. intros n k Hn.
      destruct (String.eqb_spec n name) as [-> | Hne].
      * congruence.
      * rewrite Hold in Hn by assumption. eauto.
    + intros pk. rewrite Hld. cbn.
      destruct (String.eqb_spec pk0 pk) as [-> | Hne].
      * destruct ok; [| discriminate]. intros _. eauto.
      * intros H. destruct (HJ pk H) as (n & k & Hn & Hpkn).
        exists n, k. split; [| exact Hpkn].
        destruct ok; [| exact Hn].
        rewrite Hold; [exact Hn |]. intros ->. congruence.
  - destruct Hc as [[Hf _] | (pk0 & ok & Htr & Hpk & ->)].
    { rewrite (HT _ _ Hget) in Hf. discriminate. }
    split.
    + intros n k Hn.
      destruct (String.eqb_spec n name) as [-> | Hne].
      * rewrite dict_get_remove in Hn. discriminate.
      * rewrite dict_get_remove_ne in Hn by assumption. eauto.
    + intros pk. rewrite Hld. cbn.
      destruct (String.eqb_spec pk0 pk) as [-> | Hne]; [discriminate |].
      intros H. destruct (HJ pk H) as (n & k & Hn & Hpkn).
      exists n, k. split; [| exact Hpkn].
      rewrite dict_get_remove_ne; [exact Hn |]. intros ->. congruence.
Qed.

Lemma keys_accounted_quiet held tr t :
  calls t = [] -> keys_accounted held tr -> keys_accounted held (tr ++ t).
Proof.
  intros Hl [HT HJ]. split; [exact HT |].
  intros pk. unfold left_down.
  rewrite left_down_from_app, (left_down_from_no_calls _ _ t Hl). apply HJ.
Qed.

Lemma keys_accounted_sweep held tr t :
  calls t = held_key_ups held ->
  Forall (fun o => sweep_obs o = true) t ->
  keys_accounted held tr ->
  forall pk, left_down pk (tr ++ t) = false.
Proof.
  intros Hc Hall [HT HJ] pk.
  destruct (left_down pk (tr ++ t)) eqn:E; [| reflexivity].
  exfalso. unfold left_down in E. rewrite left_down_from_app in E.
  apply left_down_from_sweep in E as [Hacc Hnot]; [| exact Hall].
  destruct (HJ pk Hacc) as (n & k & Hn & Hpk).
  apply Hnot. rewrite Hc.
  eapply held_key_ups_elem; [eapply dict_get_elem, Hn |].
  now apply to_pydi_key_usable.
Qed.

Lemma keys_accounted_handler cfg be data w :
  keys_accounted (_HELD_BY_BUTTON w) (trace w) ->
  keys_accounted (_HELD_BY_BUTTON (snd (notification_handler cfg be data w)))
                 (trace (snd (notification_handler cfg be data w))).
Proof.
  intros H.
  destruct (handler_outcome cfg be data w)
    as (l & t & -> & Hl & [[-> ->] | (prefix & name & _ & Ho)]).
  - rewrite app_nil_r. now apply keys_accounted_quiet.
  - eapply keys_accounted_dispatch; eauto.
Qed.

(** What is kept at every [await]: the registry accounts for the keys
    that are down, and it is empty outside a session. *)
Lemma keys_accounted_step cfg be (c : config_state) (e : env_event) :
  let I := fun c : config_state =>
             keys_accounted (_HELD_BY_BUTTON (snd c)) (trace (snd c))
             /\ (in_session (fst c) = false ->
                 _HELD_BY_BUTTON (snd c) = []
                 /\ forall pk, left_down pk (trace (snd c)) = false) in
  I c -> I (step cfg be c e).
Proof.
  cbn zeta. destruct c as [p w]. cbn [fst snd]. intros [Hk Hidle].
  destruct (step_cases cfg be p w e)
    as (Htr & [(data & -> & Hs & E)
              | [(Eh & _ & Hc & Hp) | (Eh & _ & Hc & Hall)]]).
  - rewrite E. cbn [fst snd]. split; [now apply keys_accounted_handler |].
    destruct p; discriminate.
  - rewrite Htr, Eh.
    assert (Hk' : keys_accounted (_HELD_BY_BUTTON w)
                    (trace w ++ emitted w (snd (step cfg be (p, w) e))))
      by now apply keys_accounted_quiet.
    split; [exact Hk' |].
    intros Hs. destruct (Hidle (Hp Hs)) as [Hnil Hld].
    split; [exact Hnil |]. intros pk. unfold left_down.
    rewrite left_down_from_app, left_down_from_no_calls by assumption.
    apply Hld.
  - rewrite Htr, Eh.
    pose proof (keys_accounted_sweep _ _ _ Hc Hall Hk) as Hld.
    split.
    + split; [intros n k; discriminate |].
      intros pk H. rewrite Hld in H. discriminate.
    + intros _. split; [reflexivity | exact Hld].
Qed.

Lemma ble_main_trace (w0 : world) :
  exists t, trace (snd (_ble_main w0)) = trace w0 ++ t /\ calls t = [].
Proof.
  destruct w0 as [h ls stop dbg dv cl scl nt disc conn tr].
  unfold _ble_main, loop_head. cbn. destruct stop; cbn.
  - exists []. now rewrite app_nil_r.
  - eexists. split; reflexivity.
Qed.

Example reconnecting_world_reached :
  run source_config be_ok (_ble_main fresh_world) link_drop_script
  = (AwaitReconnectSleep, reconnecting_world).
Proof. vm_compute. reflexivity. Qed.

(** X8. No key is left down.  Start the worker with an empty registry and
    no key down.  Then, at every [await], a key whose last injection call
    is a keyDown that returned is the key of a registry entry; and
    whenever the worker is outside a session (scanning, connecting,
    waiting to retry, or ended, normally or by an exception) the registry
    is empty and no key is in that state. *)
Theorem no_key_left_down (cfg : config) (be : backend) (w0 : world)
    (es : list env_event) (p : pc) (w : world) :
  _HELD_BY_BUTTON w0 = [] ->
  (forall pk, left_down pk (trace w0) = false) ->
  run cfg be (_ble_main w0) es = (p, w) ->
  (forall pk, left_down pk (trace w) = true ->
     exists name key,
       dict_get (_HELD_BY_BUTTON w) name = Some key
       /\ _to_pydi_key key = Some pk)
  /\ (in_session p = false ->
      _HELD_BY_BUTTON w = [] /\ forall pk, left_down pk (trace w) = false).
Proof.
  intros Hnil Hup Hrun.
  pose proof (run_invariant cfg be _ (keys_accounted_step cfg be)
                es (_ble_main w0)) as H.
  rewrite Hrun in H. cbn [fst snd] in H.
  destruct H as [[_ HJ] Hidle]; [| split; assumption].
  destruct (ble_main_held w0) as (Eh & _ & _ & _).
  destruct (ble_main_trace w0) as (t & Et & Hc).
  rewrite Eh, Et, Hnil.
  assert (Hld : forall pk, left_down pk (trace w0 ++ t) = false).
  { intros pk. unfold left_down.
    rewrite left_down_from_app, left_down_from_no_calls by assumption.
    apply Hup. }
  split; [split |].
  - intros n k. discriminate.
  - intros pk E. rewrite Hld in E. discriminate.
  - intros _. split; [reflexivity | exact Hld].
Qed.

Lemma no_key_left_down_witness :
  _HELD_BY_BUTTON reconnecting_world = []
  /\ forall pk, left_down pk (trace reconnecting_world) = false.
Proof.
  apply (no_key_left_down source_config be_ok fresh_world link_drop_script
           AwaitReconnectSleep reconnecting_world).
  - reflexivity.
  - intros pk. reflexivity.
  - exact reconnecting_world_reached.
  - reflexivity.
Defined.

(** ** Only configured keys are injected *)

Lemma hold_entry_call_ok cfg (n k pk : string) :
  hold_entry cfg (n, k) -> usable (_to_pydi_key k) = Some pk ->
  call_ok cfg (KeyUp pk).
Proof.
  intros ((prefix & Hp) & Hk & Hb) Hpk. cbn in *.
  exists prefix, n, k, pk. repeat split; auto using usable_to_pydi.
Qed.

Lemma dispatch_outcome_calls_ok cfg name prefix held held' t :
  PREFIX_TO_BUTTON cfg !! prefix = Some name ->
  registry_ok cfg held ->
  dispatch_outcome cfg name held held' t ->
  Forall (call_ok cfg) (calls t).
Proof.
  intros Hprefix [_ Hall]
    [[_ ->] | [(key & pk & ok & _ & Hk & Hb & Hpk & ->)
      | [(key & pk & ok & Hk & Hb & Hpk & _ & -> & _)
        | (key & Hb & Hget & _ & [[_ ->] | (pk & ok & Htr & Hpk & ->)])]]];
    cbn; repeat constructor.
  - exists prefix, name, key, pk. auto 10.
  - exists prefix, name, key, pk. auto 10.
  - rewrite Forall_forall in Hall.
    eapply hold_entry_call_ok;
      [eapply Hall, dict_get_elem, Hget | now apply to_pydi_key_usable].
Qed.

Lemma sweep_calls_ok cfg held :
  registry_ok cfg held -> Forall (call_ok cfg) (held_key_ups held).
Proof.
  intros [_ Hall]. rewrite Forall_forall in Hall.
  apply Forall_forall. intros c Hc.
  apply held_key_ups_inv in Hc as (n & k & pk & Hin & Hpk & ->).
  eapply hold_entry_call_ok; eauto.
Qed.

Lemma calls_ok_step cfg be (c : config_state) (e : env_event) :
  let I := fun c : config_state =>
             registry_ok cfg (_HELD_BY_BUTTON (snd c))
             /\ Forall (call_ok cfg) (calls (trace (snd c))) in
  I c -> I (step cfg be c e).
Proof.
  cbn zeta. intros [Hok Hcalls].
  split; [now apply registry_ok_step |].
  destruct c as [p w]. cbn [snd] in *.
  destruct (step_cases cfg be p w e)
    as (Htr & [(data & -> & Hs & E)
              | [(_ & _ & Hc & _) | (_ & _ & Hc & _)]]).
  - rewrite E. cbn [snd].
    destruct (handler_outcome cfg be data w)
      as (l & t & -> & Hl & [[_ ->] | (prefix & name & Hp & Ho)]);
      rewrite !calls_app, Hl; cbn; rewrite ?app_nil_r; [exact Hcalls |].
    apply Forall_app. split; [exact Hcalls |].
    eapply dispatch_outcome_calls_ok; eauto.
  - rewrite Htr, calls_app, Hc, app_nil_r. exact Hcalls.
  - rewrite Htr, calls_app, Hc. apply Forall_app.
    split; [exact Hcalls | now apply sweep_calls_ok].
Qed.

(** X9. The worker never injects a key that the configuration does not
    ask for.  From a well-formed registry, every call made during a run
    is a press of the key of a Tap button of the prefix table, or a
    keyDown or keyUp of the key of a button of that table that is not
    Tap.  A button with no key, or one that is not in the prefix table,
    never causes a call. *)
Theorem only_configured_keys (cfg : config) (be : backend) (w0 : world)
    (es : list env_event) :
  registry_ok cfg (_HELD_BY_BUTTON w0) ->
  Forall (call_ok cfg) (calls (trace w0)) ->
  Forall (call_ok cfg) (calls (trace (snd (run cfg be (_ble_main w0) es)))).
Proof.
  intros Hok Hcalls.
  apply (run_invariant cfg be _ (calls_ok_step cfg be) es (_ble_main w0)).
  destruct (ble_main_held w0) as (-> & _ & -> & _). auto.
Qed.

Lemma only_configured_keys_witness :
  Forall (call_ok source_config)
    (calls (trace (snd (run source_config be_ok (_ble_main fresh_world)
                          link_drop_script)))).
Proof.
  apply (only_configured_keys source_config be_ok fresh_world link_drop_script).
  - apply registry_ok_nil.
  - constructor.
Defined.

(** ** The de-duplication table over a run *)

Lemma parse_short_frame_event cfg data evt :
  parse_short_frame cfg data = Some evt ->
  PREFIX_TO_BUTTON cfg !! ev_prefix evt = Some (ev_name evt)
  /\ (ev_type evt = "press" \/ ev_type evt = "release")
  /\ 0 <= ev_seq evt <= 127.
Proof.
  unfold parse_short_frame.
  destruct data as [| p [| q [| r [| ? ?]]]]; try discriminate.
  destruct (PREFIX_TO_BUTTON cfg !! _) eqn:E; [| discriminate].
  intros [= <-]. cbn. split; [exact E |]. split.
  - destruct (negb _); auto.
  - destruct (byte_bits r) as (-> & _).
    pose proof (Z.mod_pos_bound (byte_int r) 128). lia.
Qed.

Lemma table_ok_handler cfg be data w :
  table_ok cfg (_last_seq w) ->
  table_ok cfg (_last_seq (snd (notification_handler cfg be data w))).
Proof.
  intros Hok.
  destruct (parse_short_frame cfg data) as [evt |] eqn:Hp.
  - destruct (decide (_last_seq w !! (ev_prefix evt, ev_type evt)
                      = Some (ev_seq evt))) as [Hd | Hd].
    + now rewrite (handler_duplicate cfg be data evt w Hp Hd).
    + rewrite (handler_accepted cfg be data evt w Hp Hd).
      rewrite dispatch_last_seq. cbn.
      intros pfx ty sq.
      destruct (decide ((pfx, ty) = (ev_prefix evt, ev_type evt)))
        as [[= -> ->] | Hne].
      * rewrite lookup_insert_eq. intros [= <-].
        destruct (parse_short_frame_event _ _ _ Hp) as (H1 & H2 & H3). eauto.
      * rewrite lookup_insert_ne by congruence. apply Hok.
  - unfold notification_handler. rewrite Hp.
    destruct (debug_var w); exact Hok.
Qed.

Lemma table_ok_step cfg be (c : config_state) (e : env_event) :
  table_ok cfg (_last_seq (snd c)) ->
  table_ok cfg (_last_seq (snd (step cfg be c e))).
Proof.
  destruct c as [p w]. cbn [snd]. intros Hok.
  destruct (step_cases cfg be p w e)
    as (_ & [(data & -> & Hs & E) | [(_ & E & _) | (_ & E & _)]]).
  - rewrite E. cbn [snd]. now apply table_ok_handler.
  - now rewrite E.
  - now rewrite E.
Qed.

Lemma table_ok_size (cfg : config) (m : gmap (string * string) Z) :
  table_ok cfg m -> (size m <= 2 * size (PREFIX_TO_BUTTON cfg))%nat.
Proof.
  intros Hok.
  set (ps := elements (dom (PREFIX_TO_BUTTON cfg))).
  set (L := ((fun p => (p, "press")) <$> ps) ++ ((fun p => (p, "release")) <$> ps)).
  assert (Hnd : NoDup L).
  { subst L. apply NoDup_app. repeat split.
    - apply NoDup_fmap_2;
        first [apply NoDup_elements | intros ? ? [=]; auto].
    - intros [p t] H1 H2.
      apply list_elem_of_fmap in H1 as (x1 & E1 & _).
      apply list_elem_of_fmap in H2 as (x2 & E2 & _). congruence.
    - apply NoDup_fmap_2;
        first [apply NoDup_elements | intros ? ? [=]; auto]. }
  assert (Hsub : dom m ⊆ (list_to_set L : gset (string * string))).
  { intros [p t] Hin. apply elem_of_dom in Hin as [seq Hseq].
    destruct (Hok _ _ _ Hseq) as (Hp & Ht & _).
    apply elem_of_list_to_set. subst L. apply elem_of_app.
    assert (p ∈ ps) by (subst ps; now apply elem_of_elements, elem_of_dom).
    destruct Ht as [-> | ->]; [left | right];
      apply list_elem_of_fmap; eauto. }
  apply subseteq_size in Hsub.
  rewrite size_dom, size_list_to_set in Hsub by assumption.
  subst L. rewrite length_app, !length_fmap in Hsub.
  subst ps. change (length (elements ?X)) with (size X) in Hsub.
  rewrite size_dom in Hsub. lia.
Qed.

(** X10. The de-duplication table stays small.  Over a run of the worker
    it only ever holds entries for prefixes of the prefix table, for the
    kinds press and release, with sequence numbers from 0 to 127; so it
    never has more than two entries per configured prefix. *)
Theorem dedup_table_bounded (cfg : config) (be : backend) (w0 : world)
    (es : list env_event) :
  table_ok cfg (_last_seq w0) ->
  let m := _last_seq (snd (run cfg be (_ble_main w0) es)) in
  table_ok cfg m /\ (size m <= 2 * size (PREFIX_TO_BUTTON cfg))%nat.
Proof.
  intros Hok. cbn zeta.
  assert (H : table_ok cfg (_last_seq (snd (run cfg be (_ble_main w0) es)))).
  { apply (run_invariant cfg be (fun c => table_ok cfg (_last_seq (snd c)))).
    - intros c e. apply table_ok_step.
    - now rewrite (proj1 (proj2 (ble_main_held w0))). }
  split; [exact H | now apply table_ok_size].
Qed.

Lemma dedup_table_bounded_witness :
  (size (_last_seq (snd (run source_config be_ok (_ble_main fresh_world)
                           link_drop_script)))
   <= 2 * size (PREFIX_TO_BUTTON source_config))%nat.
Proof.
  apply (dedup_table_bounded source_config be_ok fresh_world link_drop_script).
  intros prefix ev_type seq H. cbn in H. rewrite lookup_empty in H.
  discriminate.
Defined.

Lemma last_seq_step cfg be (c : config_state) (e : env_event) :
  is_notified e = false ->
  _last_seq (snd (step cfg be c e)) = _last_seq (snd c).
Proof.
  destruct c as [p w]. cbn [snd]. intros He.
  destruct (step_cases cfg be p w e)
    as (_ & [(data & -> & _) | [(_ & E & _) | (_ & E & _)]]);
    [discriminate | exact E | exact E].
Qed.

(** X11. The de-duplication table is never cleared.  Whatever the worker
    does between two notifications (teardown, reconnect delay, scan,
    connect) leaves the table as it was, and so does a restart of
    [_ble_main]: a frame that repeats the kind and sequence number last
    handled for its prefix is still dropped after a reconnection. *)
Theorem dedup_survives_reconnect (cfg : config) (be : backend)
    (c : config_state) (es : list env_event) (data : list Byte.byte)
    (evt : event) :
  Forall (fun e => is_notified e = false) es ->
  parse_short_frame cfg data = Some evt ->
  _last_seq (snd c) !! (ev_prefix evt, ev_type evt) = Some (ev_seq evt) ->
  let c' := run cfg be c es in
  _last_seq (snd c') = _last_seq (snd c)
  /\ _last_seq (snd (_ble_main (snd c'))) = _last_seq (snd c)
  /\ step cfg be c' (Notified data) = c'.
Proof.
  intros Hes Hp Hseq. cbn zeta.
  assert (E : _last_seq (snd (run cfg be c es)) = _last_seq (snd c)).
  { revert c Hseq. unfold run.
    induction Hes as [| e es He Hes IH]; intros c Hseq; cbn; [reflexivity |].
    rewrite IH; rewrite last_seq_step by assumption; auto. }
  split; [exact E |].
  split; [now rewrite (proj1 (proj2 (ble_main_held _))) |].
  destruct (run cfg be c es) as [p w]. cbn [snd] in E. cbn [step].
  destruct (subscribed p); [| reflexivity].
  rewrite (handler_duplicate cfg be data evt); [reflexivity | exact Hp |].
  now rewrite E.
Qed.

Lemma dedup_survives_reconnect_witness :
  let c := (AwaitListenSleep,
            snd (notification_handler source_config be_ok
                   [Byte.x00; Byte.x08; Byte.x81] listening_world)) in
  let c' := run source_config be_ok c
              [LinkDropped; Slept; StopNotifyDone (Ret tt); Slept;
               ConnectDone (Ret true); StartNotifyDone (Ret tt)] in
  step source_config be_ok c' (Notified [Byte.x00; Byte.x08; Byte.x81]) = c'.
Proof.
  cbn zeta.
  apply (dedup_survives_reconnect source_config be_ok
           (AwaitListenSleep,
            snd (notification_handler source_config be_ok
                   [Byte.x00; Byte.x08; Byte.x81] listening_world))
           [LinkDropped; Slept; StopNotifyDone (Ret tt); Slept;
            ConnectDone (Ret true); StartNotifyDone (Ret tt)]
           [Byte.x00; Byte.x08; Byte.x81]
           (Event "0008" "Right Steer" "press" 1 "81")).
  - repeat constructor.
  - vm_compute. reflexivity.
  - vm_compute. reflexivity.
Defined.

(** ** More on the frame decoder *)

Lemma fmt_02X_inj (b1 b2 : Byte.byte) : fmt_02X b1 = fmt_02X b2 -> b1 = b2.
Proof.
  intros E.
  destruct (fmt_02X_digits b1) as (h1 & l1 & E1 & Hh1 & Hl1).
  destruct (fmt_02X_digits b2) as (h2 & l2 & E2 & Hh2 & Hl2).
  rewrite E1, E2 in E. injection E as -> ->.
  assert (Hi : byte_int b1 = byte_int b2).
  { rewrite (Z.div_mod (byte_int b1) 16), (Z.div_mod (byte_int b2) 16) by lia.
    congruence. }
  unfold byte_int in Hi. apply N2Z.inj in Hi.
  pose proof (Byte.of_to_N b1) as H1. pose proof (Byte.of_to_N b2) as H2.
  congruence.
Qed.

Lemma fmt_02X_append_inj (p q p' q' : Byte.byte) :
  fmt_02X p +:+ fmt_02X q = fmt_02X p' +:+ fmt_02X q' -> p = p' /\ q = q'.
Proof.
  intros E.
  destruct (fmt_02X_digits p) as (h1 & l1 & E1 & _).
  destruct (fmt_02X_digits p') as (h2 & l2 & E2 & _).
  assert (fmt_02X p = fmt_02X p' /\ fmt_02X q = fmt_02X q') as [Hp Hq].
  { generalize dependent (fmt_02X q). generalize dependent (fmt_02X q').
    intros s' s E. rewrite E1, E2 in *. cbv [String.append] in E.
    injection E as -> -> ->.
    auto. }
  split; now apply fmt_02X_inj.
Qed.

(** X12. The event keeps the whole frame.  The prefix and the [rrHex]
    field of a decoded event, put together as in the log line, are the
    upper-case hexadecimal dump of the frame, and no other frame decodes
    to the same event. *)
Theorem parse_short_frame_faithful (cfg : config) (payload : list Byte.byte)
    (evt : event) :
  parse_short_frame cfg payload = Some evt ->
  ev_prefix evt +:+ ev_rrHex evt = hex_upper payload
  /\ (forall payload',
        parse_short_frame cfg payload' = Some evt -> payload' = payload).
Proof.
  unfold parse_short_frame.
  destruct payload as [| p [| q [| r [| ? ?]]]]; try discriminate.
  destruct (PREFIX_TO_BUTTON cfg !! _) eqn:E; [| discriminate].
  intros [= <-]. cbn [ev_prefix ev_rrHex hex_upper]. split.
  - destruct (fmt_02X_digits p) as (h1 & l1 & -> & _).
    destruct (fmt_02X_digits q) as (h2 & l2 & -> & _).
    destruct (fmt_02X_digits r) as (h3 & l3 & -> & _). reflexivity.
  - intros payload'.
    destruct payload' as [| p' [| q' [| r' [| ? ?]]]]; try discriminate.
    destruct (PREFIX_TO_BUTTON cfg !! (fmt_02X p' +:+ fmt_02X q'));
      [| discriminate].
    intros H. apply (inj Some) in H.
    pose proof (f_equal ev_prefix H) as Hpre.
    pose proof (f_equal ev_rrHex H) as Hr.
    cbn [ev_prefix ev_rrHex] in Hpre, Hr.
    apply fmt_02X_append_inj in Hpre as [-> ->].
    apply fmt_02X_inj in Hr as ->. reflexivity.
Qed.

Lemma parse_short_frame_faithful_witness :
  "0008" +:+ "81" = hex_upper [Byte.x00; Byte.x08; Byte.x81].
Proof.
  apply (parse_short_frame_faithful source_config
           [Byte.x00; Byte.x08; Byte.x81]
           (Event "0008" "Right Steer" "press" 1 "81")).
  vm_compute. reflexivity.
Defined.

(** ** The scan *)

Lemma string_prefix_spec (p s : string) :
  String.prefix p s = true <-> exists rest, s = p +:+ rest.
Proof.
  revert s. induction p as [| a p IH]; intros s; cbn.
  - split; [intros _; now exists s | intros _; now destruct s].
  - destruct s as [| b s]; cbn.
    + split; [discriminate | intros [rest [=]]].
    + destruct (Ascii.ascii_dec a b) as [-> | Hne].
      * rewrite IH. split; intros [rest E]; exists rest.
        -- now rewrite E.
        -- change (String b p +:+ rest) with (String b (p +:+ rest)) in E.
           congruence.
      * split; [discriminate |]. intros [rest E].
        change (String a p +:+ rest) with (String a (p +:+ rest)) in E.
        congruence.
Qed.

(** X13. The scan picks the first advertised device, in the order of the
    discovery result, whose name is present, not empty and starts with
    the prefix; it answers [None] exactly when there is none.  A device
    without a name is skipped, not an error. *)
Theorem find_device_by_prefix_spec (prefix : string) (devices : list device) :
  (forall d,
      device_matches prefix d = true
      <-> exists n rest,
            dev_name d = Some n /\ n <> "" /\ n = prefix +:+ rest)
  /\ match find_device_by_prefix prefix devices with
     | Some d =>
         exists before after,
           devices = before ++ d :: after
           /\ device_matches prefix d = true
           /\ Forall (fun d' => device_matches prefix d' = false) before
     | None => Forall (fun d => device_matches prefix d = false) devices
     end.
Proof.
  split.
  - intros [[n |] a]; unfold device_matches; cbn.
    + rewrite andb_true_iff, string_prefix_spec.
      unfold truthy. rewrite negb_true_iff, String.eqb_neq.
      split.
      * intros [Hn [rest E]]. eauto.
      * intros (n' & rest & [= <-] & Hn & E). eauto.
    + split; [discriminate | intros (n & rest & [=] & _)].
  - unfold find_device_by_prefix.
    induction devices as [| d ds IH]; cbn; [constructor |].
    destruct (device_matches prefix d) eqn:Hd.
    + exists [], ds. repeat split; auto.
    + destruct (List.find _ ds) as [d' |].
      * destruct IH as (before & after & -> & Hm & Hall).
        exists (d :: before), after. repeat split; auto.
      * constructor; auto.
Qed.

Lemma find_device_by_prefix_spec_witness :
  device_matches DEVICE_NAME_PREFIX kickr = true.
Proof.
  apply (find_device_by_prefix_spec DEVICE_NAME_PREFIX []).
  exists "KICKR BIKE SHIFT 1A2B", " 1A2B".
  split; [reflexivity |]. split; [discriminate | reflexivity].
Defined.

(** ** Connection attempts are spaced *)

Lemma armed_after_app (a : bool) (t1 t2 : list obs) :
  armed_after a (t1 ++ t2) = armed_after (armed_after a t1) t2.
Proof.
  revert a. induction t1 as [| [| [] | | |] t1 IH]; intros a; cbn; auto.
Qed.

Lemma spaced_app (a : bool) (t1 t2 : list obs) :
  spaced a (t1 ++ t2) = spaced a t1 && spaced (armed_after a t1) t2.
Proof.
  revert a. induction t1 as [| [| [] | | |] t1 IH]; intros a; cbn; auto.
  rewrite IH. now rewrite andb_assoc.
Qed.

Lemma handler_obs_neutral (a : bool) (t : list obs) :
  Forall (fun o => handler_obs o = true) t ->
  armed_after a t = a /\ spaced a t = true.
Proof.
  induction 1 as [| [| | [] | |] t Ho Hall IH]; cbn in *; auto; discriminate.
Qed.

Lemma key_up_obs_neutral (a : bool) (t : list obs) :
  Forall (fun o => is_key_up_obs o = true) t ->
  armed_after a t = a /\ spaced a t = true.
Proof.
  induction 1 as [| [| | | |] t Ho Hall IH]; cbn in *; auto; discriminate.
Qed.

Ltac neutral_sweeps :=
  repeat match goal with
    | H : Forall (fun o => is_key_up_obs o = true) ?t |- _ =>
        lazymatch goal with
        | _ : forall a, armed_after a t = a /\ spaced a t = true |- _ => fail
        | _ => pose proof (fun a => key_up_obs_neutral a t H)
        end
    end.

Lemma spaced_step cfg be (c : config_state) (e : env_event) :
  let I := fun c : config_state =>
             spaced true (trace (snd c)) = true
             /\ (may_connect (fst c) = true ->
                 armed_after true (trace (snd c)) = true) in
  I c -> I (step cfg be c e).
Proof.
  cbn zeta. destruct c as [p w]. cbn [fst snd]. intros [Hs Ha].
  destruct e as [| b | | data | r | r | r | r | r |].
  4: { cbn [step]. destruct (subscribed p) eqn:Hsub; [| auto].
       cbn [fst snd].
       destruct (handled_notification_handler cfg be data w)
         as (_ & t & -> & Ht).
       destruct (handler_obs_neutral (armed_after true (trace w)) t Ht)
         as [E1 E2].
       rewrite spaced_app, armed_after_app, Hs, E1, E2. auto. }
  all: destruct w as [h ls stop dbg dv cl scl nt disc conn tr].
  all: destruct p as [| | | | | k | k | | | e0]; cbn [step]; auto.
  all: cbn in Hs, Ha; try specialize (Ha eq_refl).
  all: try destruct r as [a | e1]; try destruct k; cbn in *;
         try specialize (Ha eq_refl); worker_crunch.
  all: neutral_sweeps.
  all: repeat match goal with
         | H : forall a, armed_after a ?t = a /\ spaced a ?t = true |- _ =>
             rewrite ?spaced_app, ?armed_after_app;
             rewrite ?(proj1 (H _)), ?(proj2 (H _)); clear H
         end.
  all: rewrite ?spaced_app, ?armed_after_app, ?Hs; try rewrite Ha by fail;
         cbn; rewrite ?orb_true_r; auto.
  all: split; [reflexivity | discriminate].
Qed.

Lemma spaced_run cfg be (es : list env_event) (w0 : world) :
  trace w0 = [] ->
  spaced true (trace (snd (run cfg be (_ble_main w0) es))) = true
  /\ (may_connect (fst (run cfg be (_ble_main w0) es)) = true ->
      armed_after true (trace (snd (run cfg be (_ble_main w0) es))) = true).
Proof.
  intros Htr.
  apply (run_invariant cfg be _ (spaced_step cfg be) es (_ble_main w0)).
  destruct w0 as [h ls stop dbg dv cl scl nt disc conn tr]. cbn in Htr.
  subst tr. unfold _ble_main, loop_head. cbn. destruct stop; cbn; auto.
Qed.

(** X14. Connection attempts are never made back to back.  In the trace
    of a run, the first [connect] may come at once, and every later one
    comes only after a sleep of [RECONNECT_DELAY_S] since the previous
    [connect]: after a dropped link, a failed connect or a failed
    rescan, the worker always waits the fixed delay before it tries
    again. *)
Theorem reconnect_attempts_spaced (cfg : config) (be : backend) (w0 : world)
    (es : list env_event) :
  trace w0 = [] ->
  spaced true (trace (snd (run cfg be (_ble_main w0) es))) = true.
Proof.
  intros Htr. now apply spaced_run.
Qed.

Lemma reconnect_attempts_spaced_witness :
  spaced true (trace (snd (run source_config be_ok (_ble_main fresh_world)
                             rescan_not_found_script))) = true.
Proof.
  apply (reconnect_attempts_spaced source_config be_ok fresh_world
           rescan_not_found_script).
  reflexivity.
Defined.

Example spaced_rejects_back_to_back :
  spaced true [Transport (Connect kickr); Sleep LISTEN_POLL_S;
               Transport (Connect kickr)] = false
  /\ spaced true [Transport (Connect kickr); Sleep RECONNECT_DELAY_S;
                  Transport (Connect kickr)] = true.
Proof. split; reflexivity. Qed.

(** ** Sessions and their teardown *)

Lemma sessions_app (a b : list obs) :
  sessions (a ++ b) = (sessions a + sessions b)%nat.
Proof. unfold sessions. now rewrite List.filter_app, length_app. Qed.

Lemma stop_notifies_app (a b : list obs) :
  stop_notifies (a ++ b) = (stop_notifies a + stop_notifies b)%nat.
Proof. unfold stop_notifies. now rewrite List.filter_app, length_app. Qed.

Lemma handler_obs_no_session (t : list obs) :
  Forall (fun o => handler_obs o = true) t ->
  sessions t = 0%nat /\ stop_notifies t = 0%nat.
Proof.
  unfold sessions, stop_notifies.
  induction 1 as [| [| | [] | |] t Ho Hall IH]; cbn in *;
    auto; discriminate.
Qed.

Lemma key_up_obs_no_session (t : list obs) :
  Forall (fun o => is_key_up_obs o = true) t ->
  sessions t = 0%nat /\ stop_notifies t = 0%nat.
Proof.
  unfold sessions, stop_notifies.
  induction 1 as [| [| | | |] t Ho Hall IH]; cbn in *; auto; discriminate.
Qed.

Lemma sessions_step cfg be (c : config_state) (e : env_event) :
  let I := fun c : config_state =>
             worker_inv c
             /\ sessions (trace (snd c))
                = (stop_notifies (trace (snd c)) + open_session (fst c))%nat in
  I c -> I (step cfg be c e).
Proof.
  cbn zeta. intros [Hinv Hs]. split; [now apply worker_inv_step |].
  destruct c as [p w]. cbn [fst snd] in *.
  destruct e as [| b | | data | r | r | r | r | r |].
  4: { cbn [step]. destruct (subscribed p) eqn:Hsub; [| auto].
       cbn [fst snd].
       destruct (handled_notification_handler cfg be data w)
         as (_ & t & -> & Ht).
       destruct (handler_obs_no_session t Ht) as [E1 E2].
       rewrite sessions_app, stop_notifies_app, E1, E2. lia. }
  all: destruct w as [h ls stop dbg dv cl scl nt disc conn tr].
  all: destruct p as [| | | | | k | k | | | e0]; cbn [step]; auto.
  all: cbn in Hs, Hinv.
  all: try destruct r as [a | e1]; try destruct k; cbn in *;
         destruct_and?; subst; try congruence; worker_crunch.
  all: repeat match goal with
         | H : Forall (fun o => is_key_up_obs o = true) ?t |- _ =>
             destruct (key_up_obs_no_session t H); clear H
         end.
  all: rewrite ?sessions_app, ?stop_notifies_app.
  all: set (S := sessions tr) in *; set (N := stop_notifies tr) in *;
         clearbody S N.
  all: unfold sessions, stop_notifies in *; cbn; lia.
Qed.

(** X15. Every session is torn down once.  In the trace of a run, the
    number of [stop_notify] calls equals the number of sessions announced
    by the status "Connected", less the one that is still listening:
    [stop_notify] is called exactly once for each subscription that was
    established, and never without one. *)
Theorem sessions_torn_down (cfg : config) (be : backend) (w0 : world)
    (es : list env_event) (p : pc) (w : world) :
  trace w0 = [] ->
  run cfg be (_ble_main w0) es = (p, w) ->
  sessions (trace w) = (stop_notifies (trace w) + open_session p)%nat.
Proof.
  intros Htr Hrun.
  pose proof (run_invariant cfg be _ (sessions_step cfg be)
                es (_ble_main w0)) as H.
  rewrite Hrun in H. apply H. split; [apply worker_inv_ble_main |].
  destruct w0 as [h ls stop dbg dv cl scl nt disc conn tr]. cbn in Htr.
  subst tr. unfold _ble_main, loop_head. cbn. destruct stop; reflexivity.
Qed.

Lemma sessions_torn_down_witness :
  sessions (trace reconnecting_world)
  = (stop_notifies (trace reconnecting_world)
     + open_session AwaitReconnectSleep)%nat.
Proof.
  apply (sessions_torn_down source_config be_ok fresh_world link_drop_script).
  - reflexivity.
  - exact reconnecting_world_reached.
Defined.

(** ** How the worker ends *)

Lemma msgs_of_key_ups (t : list obs) :
  Forall (fun o => is_key_up_obs o = true) t -> msgs t = [].
Proof.
  intros H. apply msgs_of_injects. eapply Forall_impl; [exact H |].
  intros [[] | | | |]; cbn; congruence.
Qed.

(** X16. What the worker tells the user interface when it ends.  Take the
    step that ends a running worker.  Unless stop was set and the worker
    was between sessions (waiting to retry or to reconnect, finishing the
    teardown of a failed attempt, or learning that a connect failed), its
    last two queue messages are a status, one of "Not found", "Error" and
    "Disconnected", and [enable_connect True].  In those other cases it
    ends without putting any [enable_connect]. *)
Theorem exit_messages (cfg : config) (be : backend) (w0 : world)
    (es : list env_event) (p : pc) (w : world) (e : env_event) :
  run cfg be (_ble_main w0) es = (p, w) ->
  terminal p = false ->
  terminal (fst (step cfg be (p, w) e)) = true ->
  let ms := msgs (emitted w (snd (step cfg be (p, w) e))) in
  (silent_exit p w e /\ Forall (fun m => is_enable_connect m = false) ms)
  \/ (~ silent_exit p w e
      /\ exists text color,
           last_two ms = Some (Status text color, EnableConnect true)
           /\ (text = "Not found" \/ text = "Error" \/ text = "Disconnected")).
Proof.
  intros Hrun Hp. cbn zeta.
  pose proof (worker_inv_reachable cfg be w0 es) as Hinv.
  rewrite Hrun in Hinv. clear Hrun.
  destruct w as [h ls stop dbg dv cl scl nt disc conn tr].
  destruct e as [| b | | data | r | r | r | r | r |];
    destruct p as [| | | | | k | k | | | e0]; cbn [step];
    try (cbn in Hp; discriminate);
    try (intros Ht; cbn in Ht; discriminate).
  all: try (destruct (subscribed _); intros Ht; cbn in Ht; discriminate).
  all: cbn in Hinv.
  all: try destruct r as [a | e1]; try destruct k; cbn in *;
         destruct_and?; subst; try congruence; worker_crunch.
  all: try (intros Ht; discriminate).
  all: intros _; norm_emitted; rewrite ?msgs_app.
  all: repeat match goal with
         | H : Forall (fun o => is_key_up_obs o = true) ?t |- _ =>
             first [ rewrite (msgs_of_key_ups t H)
                   | change (omap _ t) with (msgs t);
                     rewrite (msgs_of_key_ups t H) ];
             clear H
         end.
  all: cbn.
  all: first
         [ right; split;
           [ unfold silent_exit; cbn; intuition congruence
           | eexists _, _; split; [reflexivity | auto] ]
         | left; split;
           [ unfold silent_exit; cbn; auto 10
           | repeat constructor ] ].
Qed.

Lemma exit_messages_witness :
  let ms := msgs (emitted stopped_scanning_world
                    (snd (step source_config be_ok
                            (AwaitScan, stopped_scanning_world)
                            (ScanDone (Ret []))))) in
  (silent_exit AwaitScan stopped_scanning_world (ScanDone (Ret []))
   /\ Forall (fun m => is_enable_connect m = false) ms)
  \/ (~ silent_exit AwaitScan stopped_scanning_world (ScanDone (Ret []))
      /\ exists text color,
           last_two ms = Some (Status text color, EnableConnect true)
           /\ (text = "Not found" \/ text = "Error" \/ text = "Disconnected")).
Proof.
  exact (exit_messages source_config be_ok fresh_world [StopRequested]
           AwaitScan stopped_scanning_world (ScanDone (Ret []))
           stopped_scanning_world_reached eq_refl eq_refl).
Defined.

Example exit_after_scan :
  msgs (emitted stopped_scanning_world
          (snd (step source_config be_ok (AwaitScan, stopped_scanning_world)
                  (ScanDone (Ret [])))))
  = [ Log "[BLE] Device not found. Is the bike on / advertising?";
      Status "Not found" "red"; EnableConnect true ].
Proof. vm_compute. reflexivity. Qed.

Example exit_during_reconnect_delay :
  step source_config be_ok (AwaitReconnectSleep, stopped_reconnecting_world)
       Slept
  = (Returned, stopped_reconnecting_world).
Proof. vm_compute. reflexivity. Qed.

(** ** The queue pump *)

Lemma drain_queue_app (q1 q2 : list msg) (u : ui) :
  _drain_queue (q1 ++ q2) u = _drain_queue q2 (snd (_drain_queue q1 u)).
Proof.
  revert u. induction q1 as [| m q1 IH]; intros u; cbn; auto.
Qed.

Lemma string_app_assoc (a b c : string) : (a +:+ b) +:+ c = a +:+ (b +:+ c).
Proof.
  induction a as [| x a IH]; [reflexivity |].
  change (String x a +:+ b) with (String x (a +:+ b)).
  change (String x (a +:+ b) +:+ c) with (String x ((a +:+ b) +:+ c)).
  now rewrite IH.
Qed.

Lemma string_app_nil_r (a : string) : a +:+ "" = a.
Proof.
  induction a as [| x a IH]; [reflexivity |].
  change (String x a +:+ "") with (String x (a +:+ "")). now rewrite IH.
Qed.

Lemma last_cons_default {A} (x d : A) (l : list A) :
  default d (last (x :: l)) = default x (last l).
Proof.
  revert x d. induction l as [| y l IH]; intros x d; [reflexivity |].
  change (last (x :: y :: l)) with (last (y :: l)).
  now rewrite (IH y d), (IH y x).
Qed.

(** X19. The queue pump takes every pending message, in the order in which
    they were put, and leaves the queue empty; so the widgets do not
    depend on how the messages fall into polls.  After a poll the log
    widget has gained the log lines in order, each followed by a newline,
    the status label and dot show the last status message, the Connect
    button follows the last [enable_connect], and any [enable_connect]
    enables the Disconnect button. *)
Theorem drain_queue_spec (q1 q2 : list msg) (u : ui) :
  let q := q1 ++ q2 in
  let u' := snd (_drain_queue q u) in
  fst (_drain_queue q u) = []
  /\ u' = snd (_drain_queue q2 (snd (_drain_queue q1 u)))
  /\ log_text u' = log_text u +:+ log_block (log_lines q)
  /\ (lbl_status u', dot_fg u')
     = default (lbl_status u, dot_fg u) (last (status_msgs q))
  /\ btn_connect u' = default (btn_connect u) (last (enable_msgs q))
  /\ btn_disconnect u'
     = match enable_msgs q with [] => btn_disconnect u | _ => true end.
Proof.
  cbn zeta. split; [| split; [now rewrite drain_queue_app |]].
  - generalize (q1 ++ q2). intros q. revert u.
    induction q as [| m q IH]; intros u; cbn; auto.
  - generalize (q1 ++ q2). intros q. revert u.
    induction q as [| m q IH]; intros u.
    + cbn. now rewrite string_app_nil_r.
    + cbn [_drain_queue].
      destruct (IH (drain_msg m u)) as (H1 & H2 & H3 & H4).
      rewrite H1, H2, H3, H4. clear IH H1 H2 H3 H4.
      destruct m as [line | text color | b]; cbn.
      * rewrite !string_app_assoc. auto.
      * rewrite last_cons_default. auto.
      * rewrite last_cons_default. fold (log_lines q) (status_msgs q).
        fold (enable_msgs q). destruct (enable_msgs q); auto.
Qed.

Example drain_after_not_found :
  _drain_queue [ Log "[BLE] Scanning...";
                 Log "[BLE] Device not found. Is the bike on / advertising?";
                 Status "Not found" "red"; EnableConnect true ]
               (UI "" "Scanning…" "orange" false true)
  = ([], UI ("[BLE] Scanning..." +:+ newline
             +:+ "[BLE] Device not found. Is the bike on / advertising?"
             +:+ newline)
            "Not found" "red" true true).
Proof. vm_compute. reflexivity. Qed.

(** ** The window *)

Lemma deliver_fold (t : list obs) (u : ui) (q : list msg) :
  let a := fold_left deliver t (u, q) in
  snd a = q ++ msgs t
  /\ btn_connect (fst a) = btn_connect u
  /\ btn_disconnect (fst a) = btn_disconnect u
  /\ log_text (fst a) = log_text u.
Proof.
  cbn zeta. revert u q.
  induction t as [| o t IH]; intros u q; cbn [fold_left].
  - cbn. now rewrite app_nil_r.
  - destruct (IH (fst (deliver (u, q) o)) (snd (deliver (u, q) o)))
      as (H1 & H2 & H3 & H4).
    rewrite <- surjective_pairing in H1, H2, H3, H4.
    rewrite H1, H2, H3, H4.
    destruct o as [c ok | c | m | text color | secs]; cbn;
      rewrite <- ?app_assoc; auto.
Qed.

Lemma worker_does_spec (c' : config_state) (g : gui) :
  thread (worker_does c' g) = c'
  /\ msgq (worker_does c' g)
     = msgq g ++ msgs (emitted (snd (thread g)) (snd c'))
  /\ btn_connect (widgets (worker_does c' g)) = btn_connect (widgets g)
  /\ btn_disconnect (widgets (worker_does c' g)) = btn_disconnect (widgets g)
  /\ alive (worker_does c' g) = alive g.
Proof.
  unfold worker_does. cbn.
  destruct (deliver_fold (emitted (snd (thread g)) (snd c'))
              (widgets g) (msgq g)) as (H1 & H2 & H3 & _).
  auto.
Qed.

Lemma terminal_step cfg be (p : pc) (w : world) (e : env_event) :
  terminal p = true ->
  fst (step cfg be (p, w) e) = p
  /\ trace (snd (step cfg be (p, w) e)) = trace w
  /\ _HELD_BY_BUTTON (snd (step cfg be (p, w) e)) = _HELD_BY_BUTTON w.
Proof.
  intros Hp. destruct p; try discriminate; destruct e; cbn; auto.
Qed.

Lemma keys_inv_start (w : world) :
  _HELD_BY_BUTTON w = [] ->
  (forall pk, left_down pk (trace w) = false) ->
  keys_inv (_ble_main w).
Proof.
  intros Hnil Hup. unfold keys_inv.
  destruct (ble_main_held w) as (Eh & _ & _ & _).
  destruct (ble_main_trace w) as (t & Et & Hc).
  rewrite Eh, Et, Hnil.
  assert (Hld : forall pk, left_down pk (trace w ++ t) = false).
  { intros pk. unfold left_down.
    rewrite left_down_from_app, left_down_from_no_calls by assumption.
    apply Hup. }
  split; [split |].
  - intros n k. discriminate.
  - intros pk E. rewrite Hld in E. discriminate.
  - intros _. split; [reflexivity | exact Hld].
Qed.

Lemma terminal_not_in_session (p : pc) :
  terminal p = true -> in_session p = false.
Proof. destruct p; (discriminate || reflexivity). Qed.

Lemma alive_inv_gui_step cfg be (g : gui) (ev : gui_event) :
  alive_inv g -> alive_inv (gui_step cfg be g ev).
Proof.
  unfold alive_inv. intros H.
  destruct ev as [| | | e |]; cbn [gui_step].
  - destruct (btn_connect (widgets g)); [| exact H].
    unfold on_connect_clicked.
    destruct (alive g) eqn:Ha; [now rewrite Ha |].
    rewrite (proj2 (proj2 (proj2 (proj2 (worker_does_spec _ _))))).
    discriminate.
  - destruct (btn_disconnect (widgets g)); [| exact H].
    unfold on_disconnect_clicked, env.
    destruct (worker_does_spec
                (step cfg be (thread (log_ui "[UI] Disconnect requested." g))
                      StopRequested)
                (log_ui "[UI] Disconnect requested." g))
      as (E1 & _ & _ & _ & E5).
    rewrite E1, E5. cbn [log_ui thread alive].
    destruct (thread g) as [p w]. exact H.
  - exact H.
  - unfold env.
    destruct (worker_does_spec (step cfg be (thread g) e) g)
      as (E1 & _ & _ & _ & E5).
    rewrite E1, E5. intros Ha. specialize (H Ha).
    destruct (thread g) as [p w]. cbn [fst] in H.
    now rewrite (proj1 (terminal_step cfg be p w e H)).
  - unfold thread_ends. destruct (terminal (fst (thread g))) eqn:Ht.
    + intros _. exact Ht.
    + intros Ha. specialize (H Ha). discriminate H.
Qed.

Lemma keys_inv_gui_step cfg be (g : gui) (ev : gui_event) :
  alive_inv g ->
  keys_inv (thread g) -> keys_inv (thread (gui_step cfg be g ev)).
Proof.
  intros Hal H. destruct ev as [| | | e |]; cbn [gui_step].
  - destruct (btn_connect (widgets g)); [| exact H].
    unfold on_connect_clicked.
    destruct (alive g) eqn:Ha; [exact H |].
    rewrite (proj1 (worker_does_spec _ _)).
    destruct H as [_ Hidle].
    specialize (Hal Ha). apply terminal_not_in_session in Hal.
    destruct (thread g) as [p w]. cbn [fst snd] in *.
    destruct (Hidle Hal) as [Hnil Hup].
    apply keys_inv_start; [exact Hnil | exact Hup].
  - destruct (btn_disconnect (widgets g)); [| exact H].
    unfold on_disconnect_clicked, env.
    rewrite (proj1 (worker_does_spec _ _)).
    apply (keys_accounted_step cfg be). exact H.
  - exact H.
  - unfold env. rewrite (proj1 (worker_does_spec _ _)).
    apply (keys_accounted_step cfg be). exact H.
  - unfold thread_ends. destruct (terminal (fst (thread g))); exact H.
Qed.

Lemma window_inv_gui_run cfg be (evs : list gui_event) (g : gui) :
  alive_inv g -> keys_inv (thread g) ->
  alive_inv (gui_run cfg be evs g) /\ keys_inv (thread (gui_run cfg be evs g)).
Proof.
  unfold gui_run. revert g.
  induction evs as [| ev evs IH]; intros g Ha H; cbn [fold_left]; [auto |].
  apply IH; [now apply alive_inv_gui_step | now apply keys_inv_gui_step].
Qed.

Lemma alive_inv_initial : alive_inv initial_gui.
Proof. intros _. reflexivity. Qed.

Lemma keys_inv_initial : keys_inv (thread initial_gui).
Proof.
  split; [split |]; cbn.
  - intros n k. discriminate.
  - intros pk. discriminate.
  - intros _. split; reflexivity.
Qed.

(** X22. No key is left down, across restarts.  Whatever the clicks on
    Connect and Disconnect, the polls and the events of the transport
    since the window opened, a key whose last injection call is a
    keyDown that returned is the key of a registry entry; and whenever
    the worker is not in a session, or has not been started, the
    registry is empty and no key is left down. *)
Theorem gui_no_key_left_down (cfg : config) (be : backend)
    (evs : list gui_event) :
  let c := thread (gui_run cfg be evs initial_gui) in
  (forall pk, left_down pk (trace (snd c)) = true ->
     exists name key,
       dict_get (_HELD_BY_BUTTON (snd c)) name = Some key
       /\ _to_pydi_key key = Some pk)
  /\ (in_session (fst c) = false ->
      _HELD_BY_BUTTON (snd c) = []
      /\ forall pk, left_down pk (trace (snd c)) = false).
Proof.
  cbn zeta.
  destruct (window_inv_gui_run cfg be evs initial_gui alive_inv_initial
              keys_inv_initial) as [_ [[_ HJ] Hidle]].
  split; assumption.
Qed.

Example stuck_gui_reached :
  gui_run source_config be_ok stop_while_reconnecting initial_gui = stuck_gui.
Proof. vm_compute. reflexivity. Qed.

Lemma gui_no_key_left_down_witness :
  _HELD_BY_BUTTON (snd (thread stuck_gui)) = []
  /\ forall pk, left_down pk (trace (snd (thread stuck_gui))) = false.
Proof.
  pose proof (gui_no_key_left_down source_config be_ok stop_while_reconnecting)
    as H.
  cbn zeta in H. rewrite stuck_gui_reached in H. apply H. reflexivity.
Defined.

Lemma stop_event_step cfg be (c : config_state) (e : env_event) :
  stop_event (snd c) = true -> stop_event (snd (step cfg be c e)) = true.
Proof.
  destruct c as [p w]. cbn [snd]. intros Hs.
  destruct e as [| b | | data | r | r | r | r | r |].
  4: { cbn [step]. destruct (subscribed p); [| exact Hs]. cbn [snd].
       destruct (handled_notification_handler cfg be data w)
         as ((E & _) & _).
       now rewrite E. }
  all: destruct w as [h ls stop dbg dv cl scl nt disc conn tr].
  all: cbn in Hs; subst stop.
  all: destruct p as [| | | | | k | k | | | e0]; cbn [step]; auto.
  all: try destruct r as [a | e1]; try destruct k; cbn; worker_crunch.
  all: reflexivity.
Qed.

(** ** Closing the window *)

Lemma background_cases cfg be (g : gui) (ev : gui_event) :
  background cfg be g ev = g
  \/ background cfg be g ev = gui_step cfg be g ev.
Proof.
  destruct ev as [| | | e |]; cbn [background gui_step]; auto.
  destruct (from_ui e); auto.
Qed.

Section Background.
Variables (cfg : config) (be : backend).
Variable P : gui -> Prop.
Hypothesis P_background : forall g ev, P g -> P (background cfg be g ev).
Hypothesis P_log : forall line g, P g -> P (log_ui line g).

Lemma backgrounds_keep (evs : list gui_event) (g : gui) :
  P g -> P (backgrounds cfg be evs g).
Proof.
  unfold backgrounds. revert g.
  induction evs as [| ev evs IH]; intros g H; cbn [fold_left]; auto.
Qed.

Lemma join_keeps (evs : list gui_event) (g : gui) :
  P g -> P (join cfg be evs g).
Proof.
  revert g. induction evs as [| ev evs IH]; intros g H; cbn [join]; [exact H |].
  destruct (alive g); auto.
Qed.

Lemma stop_and_join_keeps (joined : list gui_event)
    (sched : nat -> list gui_event) (g : gui) :
  P (env cfg be StopRequested g) -> P (stop_and_join cfg be joined sched g).
Proof.
  intros H. unfold stop_and_join. cbn zeta.
  apply (backgrounds_keep (sched 0%nat)) in H.
  destruct (alive _); [| exact H].
  apply join_keeps, P_log, H.
Qed.

End Background.

Lemma stop_event_background cfg be (g : gui) (ev : gui_event) :
  stop_event (snd (thread g)) = true ->
  stop_event (snd (thread (background cfg be g ev))) = true.
Proof.
  intros H. destruct ev as [| | | e |]; cbn [background]; try exact H.
  - destruct (from_ui e); [exact H |]. unfold env.
    rewrite (proj1 (worker_does_spec _ _)). now apply stop_event_step.
  - unfold thread_ends. destruct (terminal (fst (thread g))); exact H.
Qed.

Lemma stop_event_ui_world (f : world -> world) (g : gui) :
  (forall w, injected w (f w)) ->
  stop_event (snd (thread g)) = true ->
  stop_event (snd (thread (ui_world f g))) = true.
Proof.
  intros Hf H. cbn. destruct (Hf (snd (thread g))) as ((E & _) & _).
  now rewrite E.
Qed.

Lemma stop_event_release_each_shared cfg be (sched : nat -> list gui_event)
    (items : list (string * string)) :
  forall n g,
    stop_event (snd (thread g)) = true ->
    stop_event (snd (thread (release_each_shared cfg be sched n items g)))
    = true.
Proof.
  induction items as [| [btn k] items IH]; intros n g H;
    cbn [release_each_shared]; [exact H |].
  apply IH, stop_event_ui_world; [intros w; apply injected_set_held |].
  apply (backgrounds_keep cfg be _ (stop_event_background cfg be)).
  apply stop_event_ui_world.
  - intros w. unfold try_pass.
    pose proof (injected_send_key_up be k w) as Hi.
    destruct (send_key_up be k w) as [[[] | e] w1]; exact Hi.
  - now apply (backgrounds_keep cfg be _ (stop_event_background cfg be)).
Qed.

Lemma stop_event_stop_and_join cfg be (joined : list gui_event)
    (sched : nat -> list gui_event) (g : gui) :
  stop_event (snd (thread (stop_and_join cfg be joined sched g))) = true.
Proof.
  apply (stop_and_join_keeps cfg be
           (fun g => stop_event (snd (thread g)) = true)
           (stop_event_background cfg be) (fun _ _ H => H)).
  unfold env. rewrite (proj1 (worker_does_spec _ _)).
  destruct (thread g) as [p w]. reflexivity.
Qed.

Lemma window_inv_background cfg be (g : gui) (ev : gui_event) :
  alive_inv g /\ keys_inv (thread g) ->
  alive_inv (background cfg be g ev)
  /\ keys_inv (thread (background cfg be g ev)).
Proof.
  intros [Ha Hk]. destruct (background_cases cfg be g ev) as [-> | ->];
    [auto |].
  split; [now apply alive_inv_gui_step | now apply keys_inv_gui_step].
Qed.

Lemma window_inv_stop_and_join cfg be (joined : list gui_event)
    (sched : nat -> list gui_event) (g : gui) :
  alive_inv g -> keys_inv (thread g) ->
  alive_inv (stop_and_join cfg be joined sched g)
  /\ keys_inv (thread (stop_and_join cfg be joined sched g)).
Proof.
  intros Ha Hk.
  apply (stop_and_join_keeps cfg be
           (fun g => alive_inv g /\ keys_inv (thread g))
           (window_inv_background cfg be) (fun _ _ H => H)).
  split; [exact (alive_inv_gui_step cfg be g (Env StopRequested) Ha)
         | exact (keys_inv_gui_step cfg be g (Env StopRequested) Ha Hk)].
Qed.

(** When the worker thread has ended by the time the [try] block is left,
    the registry is already empty: the sweep of the [finally] block finds
    nothing to release. *)
Lemma graceful_shutdown_ended cfg be (joined : list gui_event)
    (sched : nat -> list gui_event) (g : gui) :
  alive_inv g -> keys_inv (thread g) ->
  alive (stop_and_join cfg be joined sched g) = false ->
  _graceful_shutdown cfg be joined sched g
  = stop_and_join cfg be joined sched g
  /\ _HELD_BY_BUTTON (snd (thread (stop_and_join cfg be joined sched g))) = []
  /\ forall pk,
       left_down pk (trace (snd (thread (stop_and_join cfg be joined sched g))))
       = false.
Proof.
  intros Ha Hk Hended.
  destruct (window_inv_stop_and_join cfg be joined sched g Ha Hk)
    as [Ha' [_ Hidle]].
  destruct (Hidle (terminal_not_in_session _ (Ha' Hended))) as [Hnil Hup].
  unfold _graceful_shutdown. cbn zeta. rewrite Hnil. auto.
Qed.

(** X20. Closing the window.  Whatever clicks, polls and events of the
    transport happened since the window opened, whatever the worker does
    meanwhile and whichever calls raise, [_graceful_shutdown] and
    [on_close] leave stop requested.  When the worker thread has ended by
    the time the [try] block is left (it ended within the join, or no
    worker was alive), the [finally] block finds the registry empty and
    makes no call, and at the end the registry is empty and no key has a
    keyDown that returned as its last injection call. *)
Theorem shutdown_releases_keys (cfg : config) (be : backend)
    (evs joined : list gui_event) (sched : nat -> list gui_event) :
  let g := gui_run cfg be evs initial_gui in
  forall g0 g',
    (g0 = g /\ g' = _graceful_shutdown cfg be joined sched g)
    \/ (g0 = log_ui "[UI] Closing window — requesting cleanup…" g
        /\ g' = on_close cfg be joined sched g) ->
    stop_event (snd (thread g')) = true
    /\ (alive (stop_and_join cfg be joined sched g0) = false ->
        g' = stop_and_join cfg be joined sched g0
        /\ _HELD_BY_BUTTON (snd (thread g')) = []
        /\ forall pk, left_down pk (trace (snd (thread g'))) = false).
Proof.
  cbn zeta. intros g0 g' Hcase.
  assert (H : g' = _graceful_shutdown cfg be joined sched g0
              /\ alive_inv g0 /\ keys_inv (thread g0)).
  { destruct (window_inv_gui_run cfg be evs initial_gui alive_inv_initial
                keys_inv_initial) as [Ha Hk].
    destruct Hcase as [[-> ->] | [-> ->]]; auto. }
  destruct H as (-> & Ha & Hk). split.
  - unfold _graceful_shutdown. cbn zeta.
    apply stop_event_release_each_shared, stop_event_stop_and_join.
  - intros Hended.
    destruct (graceful_shutdown_ended cfg be joined sched g0 Ha Hk Hended)
      as (-> & Hnil & Hup).
    auto.
Qed.

Example steer_held_gui_reached :
  gui_run source_config be_ok steer_held initial_gui = steer_held_gui.
Proof. vm_compute. reflexivity. Qed.

(** The window is closed while Right Steer is held, and the worker ends
    within the join. *)
Lemma shutdown_releases_keys_witness :
  let joined := [ Env Slept; Env (StopNotifyDone (Ret tt));
                  Env (DisconnectDone (Ret tt)); ThreadEnded ] in
  let g' := on_close source_config be_ok joined (fun _ => []) steer_held_gui in
  stop_event (snd (thread g')) = true
  /\ _HELD_BY_BUTTON (snd (thread g')) = []
  /\ forall pk, left_down pk (trace (snd (thread g'))) = false.
Proof.
  cbn zeta.
  destruct (shutdown_releases_keys source_config be_ok steer_held
              [ Env Slept; Env (StopNotifyDone (Ret tt));
                Env (DisconnectDone (Ret tt)); ThreadEnded ]
              (fun _ => [])
              (log_ui "[UI] Closing window — requesting cleanup…" steer_held_gui)
              (on_close source_config be_ok
                 [ Env Slept; Env (StopNotifyDone (Ret tt));
                   Env (DisconnectDone (Ret tt)); ThreadEnded ]
                 (fun _ => []) steer_held_gui))
    as [Hstop Hended].
  - right. rewrite steer_held_gui_reached. split; reflexivity.
  - split; [exact Hstop |]. apply Hended. vm_compute. reflexivity.
Defined.

Example close_while_key_held :
  let joined := [ Env Slept; Env (StopNotifyDone (Ret tt));
                  Env (DisconnectDone (Ret tt)); ThreadEnded ] in
  let g' := on_close source_config be_ok joined (fun _ => []) steer_held_gui in
  _HELD_BY_BUTTON (snd (thread steer_held_gui)) = [("Right Steer", "ArrowRight")]
  /\ calls (trace (snd (thread g'))) = [KeyDown "right"; KeyUp "right"]
  /\ fst (thread g') = Returned
  /\ alive g' = false.
Proof. vm_compute. repeat split; reflexivity. Qed.

(** The join times out while the worker waits for [stop_notify]: the sweep
    of the UI thread releases Right Steer, and a press that the worker
    handles afterwards holds it again. *)
Example close_with_worker_alive :
  let g' := on_close source_config be_ok [Env Slept] (fun _ => [])
                     steer_held_gui in
  let g2 := background source_config be_ok g'
              (Env (Notified [Byte.x00; Byte.x08; Byte.x82])) in
  fst (thread g') = AwaitStopNotify Fallthrough
  /\ alive g' = true
  /\ calls (trace (snd (thread g'))) = [KeyDown "right"; KeyUp "right"]
  /\ _HELD_BY_BUTTON (snd (thread g')) = []
  /\ calls (trace (snd (thread g2)))
     = [KeyDown "right"; KeyUp "right"; KeyDown "right"]
  /\ _HELD_BY_BUTTON (snd (thread g2)) = [("Right Steer", "ArrowRight")]
  /\ left_down "right" (trace (snd (thread g2))) = true.
Proof. vm_compute. repeat split; reflexivity. Qed.

(** The same, with a release and a press of Right Steer handled by the
    worker between the keyUp and the [pop] of the sweep: the key is down
    at the end of [on_close], and the registry has no entry for it. *)
Example close_races_with_worker :
  let sched := idle_but
                 [ (2%nat, [ Env (Notified [Byte.x00; Byte.x08; Byte.x01]);
                             Env (Notified [Byte.x00; Byte.x08; Byte.x82]) ]) ] in
  let g' := on_close source_config be_ok [Env Slept] sched steer_held_gui in
  calls (trace (snd (thread g')))
  = [KeyDown "right"; KeyUp "right"; KeyUp "right"; KeyDown "right"]
  /\ _HELD_BY_BUTTON (snd (thread g')) = []
  /\ left_down "right" (trace (snd (thread g'))) = true.
Proof. vm_compute. repeat split; reflexivity. Qed.

(** ** The Connect button *)

Lemma no_enable_app (a b : list msg) :
  no_enable (a ++ b) <-> no_enable a /\ no_enable b.
Proof. unfold no_enable. apply Forall_app. Qed.

Lemma no_enable_handler_obs (t : list obs) :
  Forall (fun o => handler_obs o = true) t -> no_enable (msgs t).
Proof.
  unfold no_enable, msgs.
  induction 1 as [| [| | [] | |] t Ho Hall IH]; cbn in *;
    try discriminate; auto.
Qed.

Lemma no_enable_key_ups (t : list obs) :
  Forall (fun o => is_key_up_obs o = true) t -> no_enable (msgs t).
Proof.
  intros H. rewrite (msgs_of_key_ups t H). constructor.
Qed.

(** A step that does not end the worker puts no [enable_connect]. *)
Lemma running_no_enable cfg be (p : pc) (w : world) (e : env_event) :
  terminal (fst (step cfg be (p, w) e)) = false ->
  no_enable (msgs (emitted w (snd (step cfg be (p, w) e)))).
Proof.
  destruct e as [| b | | data | r | r | r | r | r |].
  4: { cbn [step]. destruct (subscribed p) eqn:Hs; cbn [fst snd]; intros _.
       - destruct (handled_notification_handler cfg be data w)
           as (_ & t & Ht & Hall).
         rewrite (emitted_app _ _ _ Ht). now apply no_enable_handler_obs.
       - unfold emitted. rewrite drop_all. constructor. }
  all: destruct w as [h ls stop dbg dv cl scl nt disc conn tr].
  all: destruct p as [| | | | | k | k | | | e0]; cbn [step].
  all: try (intros _; norm_emitted; constructor).
  all: try destruct r as [a | e1]; try destruct k; cbn; worker_crunch.
  all: try (intros Ht; discriminate).
  all: intros _; norm_emitted; rewrite ?msgs_app.
  all: repeat match goal with
         | H : Forall (fun o => is_key_up_obs o = true) ?t |- _ =>
             first [ rewrite (msgs_of_key_ups t H)
                   | change (omap _ t) with (msgs t);
                     rewrite (msgs_of_key_ups t H) ];
             clear H
         end.
  all: cbn; repeat constructor.
Qed.

Lemma ble_main_started (w : world) :
  stop_event w = false ->
  fst (_ble_main w) = AwaitScan
  /\ msgs (emitted w (snd (_ble_main w))) = [Log "[BLE] Scanning..."].
Proof.
  destruct w as [h ls stop dbg dv cl scl nt disc conn tr]. cbn.
  intros ->. unfold _ble_main, loop_head. cbn. split; [reflexivity |].
  norm_emitted. reflexivity.
Qed.

Lemma drain_no_enable (q : list msg) (u : ui) :
  fst (_drain_queue q u) = []
  /\ (no_enable q ->
      btn_connect (snd (_drain_queue q u)) = btn_connect u).
Proof.
  revert u. induction q as [| m q IH]; intros u; cbn [_drain_queue].
  - auto.
  - destruct (IH (drain_msg m u)) as [H1 H2]. split; [exact H1 |].
    intros Hq. apply Forall_cons in Hq as [Hm Hq].
    rewrite (H2 Hq). destruct m; [reflexivity | reflexivity | discriminate].
Qed.

Lemma connect_inv_gui_step cfg be (g : gui) (ev : gui_event) :
  connect_inv g -> connect_inv (gui_step cfg be g ev).
Proof.
  destruct g as [u q [p w] a]. unfold connect_inv. cbn [thread msgq widgets fst].
  intros [Hrun Hbtn]. destruct ev as [| | | e |]; cbn [gui_step widgets].
  - destruct (btn_connect u) eqn:Hb; [| cbn; rewrite Hb; split; assumption].
    unfold on_connect_clicked. cbn [thread fst snd widgets msgq alive].
    destruct a; [cbn; rewrite Hb; split; assumption |].
    match goal with
    | |- context [worker_does ?c ?g0] =>
        destruct (worker_does_spec c g0) as (E1 & E2 & E3 & _)
    end.
    cbn [thread msgq widgets btn_connect snd] in E1, E2, E3.
    rewrite E1, E2, E3.
    destruct (ble_main_started (set_stop_event false w))
      as [Hpc Hmsgs]; [destruct w; reflexivity |].
    rewrite Hmsgs. split; [| discriminate].
    intros _. split; [reflexivity |].
    apply no_enable_app. split; [auto | repeat constructor].
  - destruct (btn_disconnect u); [| cbn; split; assumption].
    unfold on_disconnect_clicked, env.
    match goal with
    | |- context [worker_does ?c ?g0] =>
        destruct (worker_does_spec c g0) as (E1 & E2 & E3 & _)
    end.
    rewrite E1, E2, E3. cbn [log_ui thread msgq widgets step fst snd].
    unfold emitted. cbn. rewrite drop_all, app_nil_r.
    split; assumption.
  - unfold poll. cbn [thread msgq widgets fst].
    destruct (drain_no_enable q u) as [-> Hd].
    split; [| intros _; constructor].
    intros Ht. destruct (Hrun Ht) as [Hb Hq].
    split; [now rewrite Hd | constructor].
  - unfold env.
    match goal with
    | |- context [worker_does ?c ?g0] =>
        destruct (worker_does_spec c g0) as (E1 & E2 & E3 & _)
    end.
    rewrite E1, E2, E3. cbn [thread msgq widgets snd].
    destruct (terminal p) eqn:Hp.
    + destruct (terminal_step cfg be p w e Hp) as (Epc & Etr & _).
      rewrite Epc, Hp. unfold emitted. rewrite Etr, drop_all, app_nil_r.
      split; [discriminate | exact Hbtn].
    + destruct (Hrun eq_refl) as [Hb Hq]. rewrite Hb.
      split; [| discriminate].
      intros Ht. split; [reflexivity |].
      apply no_enable_app. split; [exact Hq |].
      now apply running_no_enable.
  - unfold thread_ends. cbn [thread fst].
    case (terminal p); cbn; split; assumption.
Qed.

Lemma connect_inv_gui_run cfg be (evs : list gui_event) (g : gui) :
  connect_inv g -> connect_inv (gui_run cfg be evs g).
Proof.
  unfold gui_run. revert g.
  induction evs as [| ev evs IH]; intros g H; cbn [fold_left]; [exact H |].
  now apply IH, connect_inv_gui_step.
Qed.

Lemma connect_inv_initial : connect_inv initial_gui.
Proof. split; [discriminate | intros _; constructor]. Qed.

Lemma click_connect_alive cfg be (g : gui) :
  alive g = true -> gui_step cfg be g ClickConnect = g.
Proof.
  intros Ha. cbn [gui_step]. unfold on_connect_clicked. rewrite Ha.
  now destruct (btn_connect (widgets g)).
Qed.

(** X23. One worker at a time.  Whatever happened since the window
    opened: as long as [_ble_main] is still to resume from one of its
    [await]s, the worker thread is alive, the Connect button is disabled
    and no [enable_connect] waits in the queue, so that a click on
    Connect does nothing.  As long as the thread is alive, which it still
    is for a while after [_ble_main] has put its [enable_connect],
    [on_connect_clicked] returns at once, also when the button has been
    enabled again.  So a click on Connect that starts a worker finds no
    thread alive and [_ble_main] ended. *)
Theorem connect_disabled_while_running (cfg : config) (be : backend)
    (evs : list gui_event) :
  let g := gui_run cfg be evs initial_gui in
  (terminal (fst (thread g)) = false ->
   alive g = true
   /\ btn_connect (widgets g) = false
   /\ no_enable (msgq g)
   /\ gui_step cfg be g ClickConnect = g)
  /\ (alive g = true ->
      on_connect_clicked g = g /\ gui_step cfg be g ClickConnect = g)
  /\ (gui_step cfg be g ClickConnect <> g ->
      alive g = false /\ terminal (fst (thread g)) = true
      /\ btn_connect (widgets g) = true).
Proof.
  cbn zeta.
  destruct (connect_inv_gui_run cfg be evs initial_gui connect_inv_initial)
    as [Hrun _].
  destruct (window_inv_gui_run cfg be evs initial_gui alive_inv_initial
              keys_inv_initial) as [Hal _].
  set (g := gui_run cfg be evs initial_gui) in *. clearbody g.
  split; [| split].
  - intros Ht. destruct (Hrun Ht) as [Hb Hq].
    assert (Ha : alive g = true).
    { destruct (alive g) eqn:Ha; [reflexivity |].
      rewrite (Hal Ha) in Ht. discriminate. }
    split; [exact Ha |]. split; [exact Hb |]. split; [exact Hq |].
    now apply click_connect_alive.
  - intros Ha. split; [| now apply click_connect_alive].
    unfold on_connect_clicked. now rewrite Ha.
  - intros Hclick.
    destruct (alive g) eqn:Ha.
    { exfalso. apply Hclick. now apply click_connect_alive. }
    split; [reflexivity |]. split; [exact (Hal Ha) |].
    destruct (btn_connect (widgets g)) eqn:Hb; [reflexivity |].
    exfalso. apply Hclick. cbn [gui_step]. now rewrite Hb.
Qed.

Example scanning_gui_reached :
  gui_run source_config be_ok [ClickConnect] initial_gui = scanning_gui.
Proof. vm_compute. reflexivity. Qed.

Example not_found_gui_reached :
  gui_run source_config be_ok [ClickConnect; Env (ScanDone (Ret [])); Poll]
          initial_gui
  = not_found_gui.
Proof. vm_compute. reflexivity. Qed.

Lemma connect_disabled_while_running_witness :
  (alive scanning_gui = true
   /\ btn_connect (widgets scanning_gui) = false
   /\ gui_step source_config be_ok scanning_gui ClickConnect = scanning_gui)
  /\ on_connect_clicked not_found_gui = not_found_gui.
Proof.
  split.
  - destruct (connect_disabled_while_running source_config be_ok [ClickConnect])
      as [H _].
    rewrite scanning_gui_reached in H.
    destruct (H eq_refl) as (Ha & Hb & _ & Hc). auto.
  - destruct (connect_disabled_while_running source_config be_ok
                [ClickConnect; Env (ScanDone (Ret [])); Poll])
      as (_ & H & _).
    rewrite not_found_gui_reached in H. apply H. reflexivity.
Defined.

(** After a scan that found nothing the pump has enabled Connect again
    while the thread is still alive: a click is swallowed, the button
    stays enabled, and a click after the thread has ended starts the next
    worker. *)
Example click_before_thread_ended :
  fst (thread not_found_gui) = Returned
  /\ alive not_found_gui = true
  /\ btn_connect (widgets not_found_gui) = true
  /\ lbl_status (widgets not_found_gui) = "Not found"
  /\ gui_step source_config be_ok not_found_gui ClickConnect = not_found_gui
  /\ fst (thread (gui_run source_config be_ok [ThreadEnded; ClickConnect]
                    not_found_gui))
     = AwaitScan.
Proof. vm_compute. repeat split; reflexivity. Qed.

Lemma stuck_gui_step cfg be (g : gui) (ev : gui_event) :
  stuck g ->
  stuck (gui_step cfg be g ev)
  /\ fst (thread (gui_step cfg be g ev)) = fst (thread g).
Proof.
  destruct g as [u q [p w] a]. unfold stuck. cbn [thread msgq widgets fst].
  intros (Ht & Hb & Hq). destruct ev as [| | | e |]; cbn [gui_step widgets].
  - rewrite Hb. cbn. auto.
  - destruct (btn_disconnect u); [| cbn; auto].
    unfold on_disconnect_clicked, env.
    match goal with
    | |- context [worker_does ?c ?g0] =>
        destruct (worker_does_spec c g0) as (E1 & E2 & E3 & _)
    end.
    rewrite E1, E2, E3. cbn [log_ui thread msgq widgets step fst snd].
    unfold emitted. cbn. rewrite drop_all, app_nil_r. auto.
  - unfold poll. cbn [thread msgq widgets fst].
    destruct (drain_no_enable q u) as [-> Hd].
    rewrite (Hd Hq). repeat split; auto. constructor.
  - unfold env.
    match goal with
    | |- context [worker_does ?c ?g0] =>
        destruct (worker_does_spec c g0) as (E1 & E2 & E3 & _)
    end.
    rewrite E1, E2, E3. cbn [thread msgq widgets snd].
    destruct (terminal_step cfg be p w e Ht) as (Epc & Etr & _).
    rewrite Epc. unfold emitted. rewrite Etr, drop_all, app_nil_r. auto.
  - unfold thread_ends. cbn [thread fst]. rewrite Ht. cbn. auto.
Qed.

(** X24. A worker that ends without [enable_connect] cannot be started
    again.  Once the worker has ended while the Connect button is
    disabled and no [enable_connect] waits in the queue, which is how the
    exits of the worker that put no [enable_connect] leave the window,
    no click, poll or event of the transport enables the button again,
    and the worker stays ended. *)
Theorem connect_never_reenabled (cfg : config) (be : backend) (g : gui)
    (evs : list gui_event) :
  stuck g ->
  stuck (gui_run cfg be evs g)
  /\ fst (thread (gui_run cfg be evs g)) = fst (thread g).
Proof.
  unfold gui_run. revert g.
  induction evs as [| ev evs IH]; intros g H; cbn [fold_left]; [auto |].
  destruct (stuck_gui_step cfg be g ev H) as [Hs Hpc].
  destruct (IH _ Hs) as [H1 H2].
  split; [exact H1 | congruence].
Qed.

Example stuck_gui_widgets :
  fst (thread stuck_gui) = Returned
  /\ alive stuck_gui = false
  /\ lbl_status (widgets stuck_gui) = "Reconnecting…"
  /\ btn_connect (widgets stuck_gui) = false
  /\ msgq stuck_gui = [].
Proof. repeat split; reflexivity. Qed.

Lemma connect_never_reenabled_witness :
  stuck (gui_run source_config be_ok
           [ClickConnect; Poll; Env (ScanDone (Ret [kickr])); ClickConnect]
           stuck_gui).
Proof.
  apply (connect_never_reenabled source_config be_ok stuck_gui
           [ClickConnect; Poll; Env (ScanDone (Ret [kickr])); ClickConnect]).
  repeat split; constructor.
Defined.

(** ** The simulator and the bridge *)

Import Simulator.

Lemma fromhex_digits (b : Byte.byte) (h l : ascii) (s : string) :
  fmt_02X b = String h (String l EmptyString) ->
  fromhex (String h (String l s)) = cons b <$> fromhex s.
Proof.
  intros E. destruct b; vm_compute in E; injection E as <- <-;
    cbn; destruct (fromhex s); reflexivity.
Qed.

Lemma fromhex_prefix (p q : Byte.byte) :
  fromhex (fmt_02X p +:+ fmt_02X q) = Some [p; q].
Proof.
  destruct (fmt_02X_digits p) as (h1 & l1 & E1 & _).
  destruct (fmt_02X_digits q) as (h2 & l2 & E2 & _).
  rewrite E1, E2.
  change (String h1 (String l1 "") +:+ String h2 (String l2 ""))
    with (String h1 (String l1 (String h2 (String l2 "")))).
  rewrite (fromhex_digits p), (fromhex_digits q) by assumption.
  reflexivity.
Qed.

Lemma truthy_prefix (p q : Byte.byte) :
  truthy (fmt_02X p +:+ fmt_02X q) = true.
Proof.
  destruct (fmt_02X_digits p) as (h & l & -> & _). reflexivity.
Qed.

Lemma byte_of_small (z : Z) :
  0 <= z < 256 -> exists b, bytes_of_int z = Some b /\ byte_int b = z.
Proof.
  intros Hz. unfold bytes_of_int.
  replace ((0 <=? z) && (z <? 256)) with true
    by (symmetry; apply andb_true_iff; split; [apply Z.leb_le | apply Z.ltb_lt]; lia).
  destruct (Byte.of_N (Z.to_N z)) as [b |] eqn:E.
  - exists b. split; [reflexivity |]. apply Byte.to_of_N in E.
    unfold byte_int. rewrite E. lia.
  - apply Byte.of_N_None_iff in E. lia.
Qed.

Lemma press_byte (b : Byte.byte) :
  byte_int b < 128 ->
  Z.lor 0x80 (byte_int b) = 128 + byte_int b.
Proof.
  destruct b; vm_compute; intros H; first [reflexivity | discriminate H].
Qed.

Lemma seven_bits (x : Z) : 0 <= Z.land x 0x7F <= 127.
Proof.
  change (Z.land x 0x7F) with (Z.land x (Z.ones 7)).
  rewrite Z.land_ones by lia.
  change (2 ^ 7) with 128. pose proof (Z.mod_pos_bound x 128). lia.
Qed.

Lemma send_press_frame (b2p : gmap string string) (button_name : string)
    (p q : Byte.byte) (s : sim) :
  b2p !! button_name = Some (fmt_02X p +:+ fmt_02X q) ->
  let prefix := fmt_02X p +:+ fmt_02X q in
  let seq := Z.land (seq_of s prefix + 1) 0x7F in
  exists r,
    byte_int r = 128 + seq
    /\ send_press b2p button_name s
       = (Done,
          notify [p; q; r]
            (log ("[SIM] " +:+ button_name +:+ " press seq=" +:+ pretty seq
                  +:+ " (" +:+ prefix +:+ fmt_02X r +:+ ")")
               (set_seq prefix seq s))).
Proof.
  intros Hb. cbn zeta.
  pose proof (seven_bits (seq_of s (fmt_02X p +:+ fmt_02X q) + 1)) as Hseq.
  set (seq := Z.land _ 0x7F) in *.
  destruct (byte_of_small seq ltac:(lia)) as (b & _ & Hbi).
  destruct (byte_of_small (Z.lor 0x80 seq)) as (r & Hr & Hri).
  { rewrite <- Hbi, press_byte; lia. }
  exists r. split.
  - rewrite Hri, <- Hbi. apply press_byte. lia.
  - unfold send_press. rewrite Hb, truthy_prefix, fromhex_prefix.
    cbn [negb]. fold seq. rewrite Hr. reflexivity.
Qed.

Lemma send_release_frame (b2p : gmap string string) (button_name : string)
    (p q : Byte.byte) (s : sim) :
  b2p !! button_name = Some (fmt_02X p +:+ fmt_02X q) ->
  let prefix := fmt_02X p +:+ fmt_02X q in
  let seq := Z.land (seq_of s prefix) 0x7F in
  exists r,
    byte_int r = seq
    /\ send_release b2p button_name s
       = (Done,
          notify [p; q; r]
            (log ("[SIM] " +:+ button_name +:+ " release seq=" +:+ pretty seq
                  +:+ " (" +:+ prefix +:+ fmt_02X r +:+ ")")
               (set_seq prefix (seq_of s prefix) s))).
Proof.
  intros Hb. cbn zeta.
  pose proof (seven_bits (seq_of s (fmt_02X p +:+ fmt_02X q))) as Hseq.
  set (seq := Z.land _ 0x7F) in *.
  destruct (byte_of_small seq ltac:(lia)) as (r & Hr & Hri).
  exists r. split; [exact Hri |].
  unfold send_release. rewrite Hb, truthy_prefix, fromhex_prefix.
  cbn [negb]. fold seq. rewrite Hr. reflexivity.
Qed.

Lemma parse_press_byte (cfg : config) (p q r : Byte.byte) (name : string)
    (seq : Z) :
  PREFIX_TO_BUTTON cfg !! (fmt_02X p +:+ fmt_02X q) = Some name ->
  0 <= seq <= 127 ->
  byte_int r = 128 + seq ->
  parse_short_frame cfg [p; q; r]
  = Some (Event (fmt_02X p +:+ fmt_02X q) name "press" seq (fmt_02X r)).
Proof.
  intros Hp Hseq Hr. unfold parse_short_frame. rewrite Hp.
  destruct (byte_bits r) as (-> & -> & _).
  replace (byte_int r mod 128) with seq
    by (rewrite Hr; apply Z.mod_unique with 1; lia).
  replace (Z.testbit (byte_int r) 7) with true; [reflexivity |].
  symmetry. rewrite Hr. apply Z.testbit_true; [lia |].
  change (2 ^ 7) with 128.
  replace ((128 + seq) / 128) with 1 by (apply Z.div_unique with seq; lia).
  reflexivity.
Qed.

Lemma parse_release_byte (cfg : config) (p q r : Byte.byte) (name : string)
    (seq : Z) :
  PREFIX_TO_BUTTON cfg !! (fmt_02X p +:+ fmt_02X q) = Some name ->
  0 <= seq <= 127 ->
  byte_int r = seq ->
  parse_short_frame cfg [p; q; r]
  = Some (Event (fmt_02X p +:+ fmt_02X q) name "release" seq (fmt_02X r)).
Proof.
  intros Hp Hseq Hr. unfold parse_short_frame. rewrite Hp.
  destruct (byte_bits r) as (-> & -> & _).
  replace (byte_int r mod 128) with seq
    by (rewrite Hr; symmetry; apply Z.mod_small; lia).
  replace (Z.testbit (byte_int r) 7) with false; [reflexivity |].
  symmetry. rewrite Hr. apply Z.testbit_false; [lia |].
  change (2 ^ 7) with 128. rewrite Z.div_small by lia. reflexivity.
Qed.

Lemma land_7F_small (z : Z) : 0 <= z <= 127 -> Z.land z 0x7F = z.
Proof.
  intros Hz. change (Z.land z 0x7F) with (Z.land z (Z.ones 7)).
  rewrite Z.land_ones by lia. change (2 ^ 7) with 128.
  apply Z.mod_small. lia.
Qed.

Lemma land_7F_mod (z : Z) : Z.land z 0x7F = z mod 128.
Proof.
  change (Z.land z 0x7F) with (Z.land z (Z.ones 7)).
  now rewrite Z.land_ones by lia.
Qed.

(** X17. What the simulator sends, the bridge decodes.  For a button
    whose prefix is written as four upper-case hexadecimal digits and
    named alike in both prefix tables, [send_press] followed by
    [send_release] hands over two frames that [parse_short_frame] decodes
    to that button, as a press and as a release, both with the sequence
    number that the press advanced by one modulo 128; and what the
    bridge logs for them is what the simulator logged, but for the
    tag. *)
Theorem simulator_frames_decode (b2p : gmap string string) (cfg : config)
    (button_name : string) (p q : Byte.byte) (s : sim) :
  let prefix := fmt_02X p +:+ fmt_02X q in
  b2p !! button_name = Some prefix ->
  PREFIX_TO_BUTTON cfg !! prefix = Some button_name ->
  loop s = true ->
  let r1 := send_press b2p button_name s in
  let r2 := send_release b2p button_name (snd r1) in
  let seq := (seq_of s prefix + 1) mod 128 in
  exists press release line1 line2 e1 e2,
    fst r1 = Done /\ fst r2 = Done
    /\ seq_of (snd r2) prefix = seq
    /\ scheduled (snd r2) = scheduled s ++ [press; release]
    /\ sim_log (snd r2)
       = sim_log s ++ ["[SIM] " +:+ line1; "[SIM] " +:+ line2]
    /\ parse_short_frame cfg press = Some e1
    /\ parse_short_frame cfg release = Some e2
    /\ e1 = Event prefix button_name "press" seq (ev_rrHex e1)
    /\ e2 = Event prefix button_name "release" seq (ev_rrHex e2)
    /\ event_log_line e1 = "[BLE] " +:+ line1
    /\ event_log_line e2 = "[BLE] " +:+ line2.
Proof.
  cbn zeta. intros Hb Hp Hloop.
  destruct s as [m lp lg sch]. cbn in Hloop. subst lp.
  destruct (send_press_frame b2p button_name p q (Sim m true lg sch) Hb)
    as (r & Hr & E1).
  cbn zeta in E1. rewrite E1. cbn [fst snd].
  pose proof (seven_bits (seq_of (Sim m true lg sch)
                            (fmt_02X p +:+ fmt_02X q) + 1)) as Hseq.
  rewrite <- land_7F_mod.
  set (seq := Z.land _ 0x7F) in *.
  unfold notify, log, set_seq. cbn.
  set (s1 := Sim _ _ _ _).
  assert (Hs1 : seq_of s1 (fmt_02X p +:+ fmt_02X q) = seq).
  { subst s1. unfold seq_of. cbn. now rewrite lookup_insert_eq. }
  destruct (send_release_frame b2p button_name p q s1 Hb) as (r' & Hr' & E2).
  cbn zeta in E2. rewrite Hs1, (land_7F_small seq Hseq) in E2, Hr'.
  rewrite E2. cbn [fst snd].
  subst s1. unfold notify, log, set_seq. cbn.
  eexists [p; q; r], [p; q; r'], _, _, _, _.
  split; [reflexivity |]. split; [reflexivity |].
  split; [unfold seq_of; cbn; now rewrite lookup_insert_eq |].
  split; [now rewrite <- app_assoc |].
  split; [rewrite <- app_assoc; reflexivity |].
  split; [exact (parse_press_byte cfg p q r button_name seq Hp Hseq Hr) |].
  split; [exact (parse_release_byte cfg p q r' button_name seq Hp Hseq Hr') |].
  repeat split; reflexivity.
Qed.

Lemma simulator_frames_decode_witness :
  exists press release e1 e2,
    scheduled (snd (send_release BUTTON_TO_PREFIX "Right Steer"
                      (snd (send_press BUTTON_TO_PREFIX "Right Steer" started))))
    = scheduled started ++ [press; release]
    /\ parse_short_frame source_config press = Some e1
    /\ parse_short_frame source_config release = Some e2
    /\ e1 = Event "0008" "Right Steer" "press" 1 (ev_rrHex e1)
    /\ e2 = Event "0008" "Right Steer" "release" 1 (ev_rrHex e2).
Proof.
  destruct (simulator_frames_decode BUTTON_TO_PREFIX source_config
              "Right Steer" Byte.x00 Byte.x08 started)
    as (press & release & line1 & line2 & e1 & e2 & _ & _ & _ & H1 & _
        & H2 & H3 & H4 & H5 & _).
  - vm_compute. reflexivity.
  - vm_compute. reflexivity.
  - reflexivity.
  - exists press, release, e1, e2. auto.
Defined.

Example simulator_frames :
  let r1 := send_press BUTTON_TO_PREFIX "Right Steer" started in
  let r2 := send_release BUTTON_TO_PREFIX "Right Steer" (snd r1) in
  scheduled (snd r2)
  = [ [Byte.x00; Byte.x08; Byte.x81]; [Byte.x00; Byte.x08; Byte.x01] ]
  /\ sim_log (snd r2)
     = [ "[SIM] Right Steer press seq=1 (000881)";
         "[SIM] Right Steer release seq=1 (000801)" ].
Proof. vm_compute. split; reflexivity. Qed.

Example simulator_unknown_button :
  send_press BUTTON_TO_PREFIX "Horn" started = (Done, started)
  /\ send_release BUTTON_TO_PREFIX "Horn" started = (Done, started).
Proof. vm_compute. split; reflexivity. Qed.

(** X18. A press of the simulator is never taken for a duplicate.  While
    the bridge's table, for the press of a prefix, is empty or holds the
    simulator's current sequence number for it, the frame of the next
    [send_press] is logged and dispatched by the handler, and the two
    are in step again afterwards; the simulator's number stays within 0
    to 127. *)
Theorem simulator_press_accepted (b2p : gmap string string) (cfg : config)
    (be : backend) (button_name : string) (p q : Byte.byte) (s : sim)
    (w : world) :
  let prefix := fmt_02X p +:+ fmt_02X q in
  b2p !! button_name = Some prefix ->
  PREFIX_TO_BUTTON cfg !! prefix = Some button_name ->
  loop s = true ->
  0 <= seq_of s prefix <= 127 ->
  (forall k, _last_seq w !! (prefix, "press") = Some k -> k = seq_of s prefix) ->
  let s' := snd (send_press b2p button_name s) in
  exists payload evt,
    scheduled s' = scheduled s ++ [payload]
    /\ parse_short_frame cfg payload = Some evt
    /\ notification_handler cfg be payload w
       = dispatch cfg be button_name "press"
           (emit (MsgqPut (Log (event_log_line evt)))
              (set_last_seq
                 (<[(prefix, "press") := seq_of s' prefix]> (_last_seq w)) w))
    /\ 0 <= seq_of s' prefix <= 127
    /\ (forall k,
          _last_seq (snd (notification_handler cfg be payload w))
            !! (prefix, "press") = Some k ->
          k = seq_of s' prefix).
Proof.
  cbn zeta. intros Hb Hp Hloop Hrange Hsync.
  destruct s as [m lp lg sch]. cbn in Hloop. subst lp.
  destruct (send_press_frame b2p button_name p q (Sim m true lg sch) Hb)
    as (r & Hr & E1).
  cbn zeta in E1. rewrite E1. cbn [snd].
  pose proof (seven_bits (seq_of (Sim m true lg sch)
                            (fmt_02X p +:+ fmt_02X q) + 1)) as Hseq.
  assert (Hne : Z.land (seq_of (Sim m true lg sch)
                          (fmt_02X p +:+ fmt_02X q) + 1) 0x7F
                <> seq_of (Sim m true lg sch) (fmt_02X p +:+ fmt_02X q)).
  { rewrite land_7F_mod.
    set (x := seq_of _ _) in *.
    destruct (decide (x = 127)) as [-> | Hx]; [discriminate |].
    rewrite Z.mod_small by lia. lia. }
  set (seq := Z.land _ 0x7F) in *.
  unfold notify, log, set_seq. cbn.
  assert (Hs' : forall lg' sch',
             seq_of (Sim (<[fmt_02X p +:+ fmt_02X q := seq]> m) true lg' sch')
                    (fmt_02X p +:+ fmt_02X q) = seq).
  { intros. unfold seq_of. cbn. now rewrite lookup_insert_eq. }
  rewrite Hs'.
  pose proof (parse_press_byte cfg p q r button_name seq Hp Hseq Hr) as Hparse.
  assert (Hacc : notification_handler cfg be [p; q; r] w
                 = dispatch cfg be button_name "press"
                     (emit (MsgqPut (Log (event_log_line
                        (Event (fmt_02X p +:+ fmt_02X q) button_name "press"
                               seq (fmt_02X r)))))
                        (set_last_seq
                           (<[(fmt_02X p +:+ fmt_02X q, "press") := seq]>
                              (_last_seq w)) w))).
  { rewrite (handler_accepted cfg be _ _ w Hparse); [reflexivity |].
    cbn. intros E. apply Hsync in E. congruence. }
  eexists [p; q; r], _.
  split; [reflexivity |]. split; [exact Hparse |].
  split; [exact Hacc |]. split; [exact Hseq |].
  intros k. rewrite Hacc, dispatch_last_seq. cbn.
  rewrite lookup_insert_eq. congruence.
Qed.

Lemma simulator_press_accepted_witness :
  exists payload evt,
    scheduled (snd (send_press BUTTON_TO_PREFIX "Right Steer" started))
    = scheduled started ++ [payload]
    /\ parse_short_frame source_config payload = Some evt
    /\ notification_handler source_config be_ok payload fresh_world
       = dispatch source_config be_ok "Right Steer" "press"
           (emit (MsgqPut (Log (event_log_line evt)))
              (set_last_seq
                 (<[("0008", "press")
                    := seq_of (snd (send_press BUTTON_TO_PREFIX "Right Steer"
                                      started)) "0008"]>
                    (_last_seq fresh_world)) fresh_world)).
Proof.
  destruct (simulator_press_accepted BUTTON_TO_PREFIX source_config be_ok
              "Right Steer" Byte.x00 Byte.x08 started fresh_world)
    as (payload & evt & H1 & H2 & H3 & _).
  - vm_compute. reflexivity.
  - vm_compute. reflexivity.
  - reflexivity.
  - vm_compute. split; discriminate.
  - intros k H. cbn in H. rewrite lookup_empty in H. discriminate.
  - exists payload, evt. auto.
Defined.

(** ** The GUI bridge and the command-line bridge *)

Lemma gui_taps_app (a b : list string) :
  gui_taps (a ++ b) = gui_taps a ++ gui_taps b.
Proof. unfold gui_taps. apply omap_app. Qed.

Lemma cli_taps_app (a b : list string) :
  cli_taps (a ++ b) = cli_taps a ++ cli_taps b.
Proof. unfold cli_taps. apply flat_map_app. Qed.

Lemma frame_agrees (cfg : config) (f : list Byte.byte) (w : world)
    (s : Cli.state) :
  (forall name, button_behavior cfg name = "tap") ->
  _last_seq w = Cli._last_seq s ->
  let w' := snd (notification_handler cfg be_ok f w) in
  let s' := snd (Cli._handle_short_frame cfg Cli.kb_ok f s) in
  _last_seq w' = Cli._last_seq s'
  /\ _HELD_BY_BUTTON w' = _HELD_BY_BUTTON w
  /\ exists names t o,
       trace w' = trace w ++ t
       /\ Cli.output s' = Cli.output s ++ o
       /\ calls t = gui_taps names
       /\ List.filter Cli.is_keyboard o = cli_taps names
       /\ Forall (fun n => truthy n = true) names.
Proof.
  intros Htap Htab. cbn zeta.
  assert (Hnone : forall w1 line,
            (w1 = w \/ w1 = emit (MsgqPut (Log line)) w) ->
            _last_seq w1 = Cli._last_seq s
            /\ _HELD_BY_BUTTON w1 = _HELD_BY_BUTTON w
            /\ exists names t o,
                 trace w1 = trace w ++ t
                 /\ Cli.output s = Cli.output s ++ o
                 /\ calls t = gui_taps names
                 /\ List.filter Cli.is_keyboard o = cli_taps names
                 /\ Forall (fun n => truthy n = true) names).
  { intros w1 line [-> | ->]; (split; [exact Htab |]); (split; [reflexivity |]).
    - exists [], [], []. rewrite !app_nil_r. repeat split; constructor.
    - exists [], [MsgqPut (Log line)], []. rewrite !app_nil_r.
      repeat split; constructor. }
  destruct (parse_short_frame cfg f) as [evt |] eqn:Hp.
  2: { assert (Hcli : Cli._handle_short_frame cfg Cli.kb_ok f s = (Ret tt, s)).
       { unfold parse_short_frame in Hp. unfold Cli._handle_short_frame.
         destruct f as [| p [| q [| r [| ? ?]]]]; try reflexivity.
         destruct (PREFIX_TO_BUTTON cfg !! _); [discriminate | reflexivity]. }
       rewrite Hcli. unfold notification_handler. rewrite Hp.
       destruct (debug_var w); cbn [snd].
       - eapply Hnone. right. reflexivity.
       - apply (Hnone w ""). now left. }
  pose proof Hp as Hshape. unfold parse_short_frame in Hshape.
  destruct f as [| p [| q [| r [| ? ?]]]]; try discriminate.
  destruct (PREFIX_TO_BUTTON cfg !! (fmt_02X p +:+ fmt_02X q))
    as [name |] eqn:Hname; [| discriminate].
  injection Hshape as Hevt.
  unfold Cli._handle_short_frame. rewrite Hname. cbv zeta.
  set (pressed := negb (Z.land (byte_int r) 128 =? 0)) in *.
  set (seq := Z.land (byte_int r) 127) in *.
  set (prefix := fmt_02X p +:+ fmt_02X q) in *.
  subst evt.
  destruct (decide (_last_seq w !! (prefix, if pressed then "press" else "release")
                    = Some seq)) as [Hd | Hd].
  - rewrite (handler_duplicate cfg be_ok _ _ w Hp Hd).
    rewrite <- Htab. destruct (decide _) as [_ | Hn]; [| contradiction].
    apply (Hnone w ""). now left.
  - rewrite (handler_accepted cfg be_ok _ _ w Hp Hd).
    rewrite <- Htab. destruct (decide _) as [Hy | _]; [contradiction |].
    cbn [ev_name ev_type ev_prefix ev_seq].
    set (w1 := emit _ (set_last_seq _ w)).
    unfold dispatch. cbv zeta. rewrite Htap.
    change (String.eqb "tap" "tap") with true.
    change (String.eqb "tap" "hold") with false.
    destruct pressed; cbn [orb negb Cli.TRIGGER_ON_PRESS_ONLY].
    + change (String.eqb "press" "press") with true. cbv iota.
      destruct (usable (button_key cfg name)) as [k |] eqn:Hk.
      * destruct (usable_truthy _ _ Hk) as [_ Htr].
        destruct (to_pydi_usable k Htr) as [pk Hpk].
        unfold send_key_tap, inject, be_ok. rewrite Hpk.
        unfold Cli._send_key_tap, Cli.keyboard_call, Cli.kb_ok. rewrite Htr.
        cbn. split; [reflexivity |]. split; [reflexivity |].
        exists [k]. eexists _, _. rewrite <- !app_assoc.
        split; [reflexivity |]. split; [reflexivity |].
        split; [| split; [reflexivity | repeat constructor; exact Htr]].
        unfold gui_taps. cbn.
        apply usable_truthy in Hpk as [-> _]. reflexivity.
      * cbn. split; [reflexivity |]. split; [reflexivity |].
        exists []. eexists _, _.
        split; [reflexivity |]. split; [reflexivity |].
        repeat split; constructor.
    + change (String.eqb "release" "press") with false. cbv iota.
      cbn. split; [reflexivity |]. split; [reflexivity |].
      exists []. eexists _, _.
      split; [reflexivity |]. split; [reflexivity |].
      repeat split; constructor.
Qed.

(** X21. With every button on Tap, the GUI bridge does what the
    command-line bridge did.  Fed the same frames from equal
    de-duplication tables, with key calls that return, both end with
    equal tables, and they tap the same keys in the same order: the GUI
    bridge one [press] of the pydirectinput key, the command-line bridge
    a [press] and a [release] of the pynput key, per key name.  The GUI
    bridge's registry is not touched. *)
Theorem gui_taps_as_cli (cfg : config) (frames : list (list Byte.byte))
    (w : world) (s : Cli.state) :
  (forall name, button_behavior cfg name = "tap") ->
  _last_seq w = Cli._last_seq s ->
  let w' := handle_all cfg be_ok frames w in
  let s' := cli_handle_all cfg Cli.kb_ok frames s in
  _last_seq w' = Cli._last_seq s'
  /\ _HELD_BY_BUTTON w' = _HELD_BY_BUTTON w
  /\ exists names t o,
       trace w' = trace w ++ t
       /\ Cli.output s' = Cli.output s ++ o
       /\ calls t = gui_taps names
       /\ List.filter Cli.is_keyboard o = cli_taps names
       /\ length (gui_taps names) = length names.
Proof.
  intros Htap. cbn zeta. revert w s.
  assert (Hlen : forall names, Forall (fun n => truthy n = true) names ->
                   length (gui_taps names) = length names).
  { induction 1 as [| n names Hn _ IH]; [reflexivity |].
    unfold gui_taps in *. cbn.
    destruct (to_pydi_usable n Hn) as [pk Hpk].
    apply usable_truthy in Hpk as [-> _]. cbn. now rewrite IH. }
  assert (H : forall w s, _last_seq w = Cli._last_seq s ->
            _last_seq (handle_all cfg be_ok frames w)
            = Cli._last_seq (cli_handle_all cfg Cli.kb_ok frames s)
            /\ _HELD_BY_BUTTON (handle_all cfg be_ok frames w)
               = _HELD_BY_BUTTON w
            /\ exists names t o,
                 trace (handle_all cfg be_ok frames w) = trace w ++ t
                 /\ Cli.output (cli_handle_all cfg Cli.kb_ok frames s)
                    = Cli.output s ++ o
                 /\ calls t = gui_taps names
                 /\ List.filter Cli.is_keyboard o = cli_taps names
                 /\ Forall (fun n => truthy n = true) names).
  { unfold handle_all, cli_handle_all.
    induction frames as [| f frames IH]; intros w s Htab; cbn [fold_left].
    - split; [exact Htab |]. split; [reflexivity |].
      exists [], [], []. rewrite !app_nil_r. repeat split; constructor.
    - destruct (frame_agrees cfg f w s Htap Htab)
        as (H1 & H2 & n1 & t1 & o1 & Et1 & Eo1 & Hc1 & Hf1 & Hn1).
      destruct (IH _ _ H1)
        as (H3 & H4 & n2 & t2 & o2 & Et2 & Eo2 & Hc2 & Hf2 & Hn2).
      split; [exact H3 |]. split; [congruence |].
      exists (n1 ++ n2), (t1 ++ t2), (o1 ++ o2).
      rewrite Et2, Et1, Eo2, Eo1, <- !app_assoc.
      split; [reflexivity |]. split; [reflexivity |].
      rewrite calls_app, List.filter_app, gui_taps_app, cli_taps_app.
      split; [congruence |]. split; [congruence |].
      now apply Forall_app. }
  intros w s Htab.
  destruct (H w s Htab) as (H1 & H2 & names & t & o & ? & ? & ? & ? & Hn).
  split; [exact H1 |]. split; [exact H2 |].
  exists names, t, o. auto 10.
Qed.

Lemma gui_taps_as_cli_witness :
  let frames := [ [Byte.x00; Byte.x01; Byte.x81];
                  [Byte.x00; Byte.x01; Byte.x81];
                  [Byte.x00; Byte.x01; Byte.x01];
                  [Byte.x40; Byte.x00; Byte.x85] ] in
  let tap_config :=
    Config (PREFIX_TO_BUTTON source_config) (BUTTON_TO_KEY source_config) ∅ in
  _last_seq (handle_all tap_config be_ok frames fresh_world)
  = Cli._last_seq (cli_handle_all tap_config Cli.kb_ok frames (Cli.State ∅ [])).
Proof.
  cbn zeta.
  apply (gui_taps_as_cli
           (Config (PREFIX_TO_BUTTON source_config)
                   (BUTTON_TO_KEY source_config) ∅)
           [ [Byte.x00; Byte.x01; Byte.x81];
             [Byte.x00; Byte.x01; Byte.x81];
             [Byte.x00; Byte.x01; Byte.x01];
             [Byte.x40; Byte.x00; Byte.x85] ]
           fresh_world (Cli.State ∅ [])).
  - intros name. unfold button_behavior. cbn. now rewrite lookup_empty.
  - reflexivity.
Defined.

Example cli_and_gui_taps :
  let frames := [ [Byte.x00; Byte.x01; Byte.x81];
                  [Byte.x00; Byte.x01; Byte.x81];
                  [Byte.x00; Byte.x01; Byte.x01];
                  [Byte.x40; Byte.x00; Byte.x85] ] in
  let tap_config :=
    Config (PREFIX_TO_BUTTON source_config) (BUTTON_TO_KEY source_config) ∅ in
  calls (trace (handle_all tap_config be_ok frames fresh_world))
  = [KeyPress "7"; KeyPress "space"]
  /\ Cli.output (cli_handle_all tap_config Cli.kb_ok frames (Cli.State ∅ []))
     = [ Cli.Print "[BLE] Right Up press seq=1 (prefix=0001)";
         Cli.Press (Cli.Literal "7") true; Cli.Release (Cli.Literal "7") true;
         Cli.Print "[BLE] Right Up release seq=1 (prefix=0001)";
         Cli.Print "[BLE] Right Brake press seq=5 (prefix=4000)";
         Cli.Press (Cli.Special "space") true;
         Cli.Release (Cli.Special "space") true ].
Proof. vm_compute. split; reflexivity. Qed.
